(** * CalorieWise AI: state orchestration, persistence gateway, calculators

    A shallow embedding of the parts of the client that own the in-memory
    snapshot (src/App.tsx), sanitize and persist it
    (services/firebaseService), build the chat request
    (services/geminiService, [continueChat]) and derive the calorie goals
    (utils/helpers, [calculateGoals]).

    Conventions of the embedding
    - a JavaScript [number] is an exact rational ([Q]); IEEE-754 rounding
      of the individual operations is not modelled;
    - a JavaScript [string] is a [string]; [length] and [substring] count
      ASCII characters;
    - an optional TypeScript field ([f?: T]) and a nullable one
      ([T | null]) are [option T] in the typed records; the untyped view
      used by the persistence gateway keeps [undefined] and [null] apart;
    - React state is an explicit record, a handler is a function from the
      values captured by its closure (and the environment's answers) to
      the new state and the effects it issued. *)

From Stdlib Require Import ZArith QArith Qround Qabs Lqa Lia.
From Stdlib Require Import List String Ascii Bool.
From Stdlib Require Import Sorting.Sorted Sorting.Permutation.
From stdpp Require Import gmap strings.
Import ListNotations.

Local Open Scope string_scope.
Local Open Scope list_scope.

(* ================================================================== *)
(** * Domain types (types.ts)                                          *)
(* ================================================================== *)

(** [number] *)
Abbreviation number := Q.

Inductive ActivityLevel :=
  | Sedentary | LightlyActive | ModeratelyActive | VeryActive | ExtraActive.

(** The numeric value of each member of the [ActivityLevel] enum. *)
Definition activity_value (a : ActivityLevel) : number :=
  match a with
  | Sedentary => 12 # 10
  | LightlyActive => 1375 # 1000
  | ModeratelyActive => 155 # 100
  | VeryActive => 1725 # 1000
  | ExtraActive => 19 # 10
  end.

Inductive Goal := Lose | Maintain | Gain.
Inductive Sex := male | female.
Inductive Frequency := once | twice.
Inductive Timing := morning | noon | evening | night.

Record UserProfile := {
  name : string;
  age : number;
  sex : Sex;
  height : number;            (* in inches *)
  weight : number;            (* in kg *)
  activityLevel : ActivityLevel;
  goal : Goal;
  targetWeight : number;
  mealsPerDay : number;
  exercisePreferences : string;
  registrationDate : string;
  exerciseFrequency : Frequency;
  exerciseTiming : list Timing
}.

Record Nutrition := {
  calories : number;
  protein : number;
  carbs : number;
  fat : number
}.

Record FoodItem := {
  food_name : string;
  nutrition : Nutrition
}.

Record Meal := {
  meal_id : string;
  meal_name : string;
  meal_timestamp : string;
  items : list FoodItem;
  meal_totalNutrition : Nutrition;
  meal_imageUrl : option string
}.

Record CalorieGoals := {
  bmr : number;
  targetCalories : number;
  targetProtein : number;
  targetCarbs : number;
  targetFat : number
}.

Record WorkoutDetail := {
  detail_name : string;
  detail_value : string
}.

Record Workout := {
  exercise : string;
  sets : string;
  reps : string;
  notes : option string;
  details : list WorkoutDetail;
  workout_imageUrl : option string
}.

Record WorkoutSession := {
  session_name : string;
  workouts : list Workout
}.

Record DailyWorkout := {
  day : string;
  focus : string;
  sessions : list WorkoutSession
}.

Record WorkoutPlan := {
  planName : string;
  description : string;
  weeklySchedule : list DailyWorkout
}.

Record WeightEntry := {
  entry_date : string;
  entry_weight : number
}.

Record DailyLog := {
  date : string;              (* YYYY-MM-DD *)
  meals : list Meal;
  totalNutrition : Nutrition;
  log_weight : option number
}.

Record ChatMessagePart := {
  text : string
}.

Record GroundingSource := {
  uri : string;
  title : string
}.

Inductive Role := user | model.

Record ChatMessage := {
  msg_id : option string;
  role : Role;
  parts : list ChatMessagePart;
  timestamp : string;
  grounding : option (list GroundingSource)
}.

Record ChatSession := {
  session_id : string;
  session_title : string;
  history : list ChatMessage;
  createdAt : string
}.

(* ================================================================== *)
(** * Domain calculators (utils/helpers)                               *)
(* ================================================================== *)

Module Helpers.

(** [Math.round]: the integer nearest to [x], a tie going up. *)
Definition Math_round (x : number) : Z := Qfloor (x + (1 # 2)).

(** [calculateGoals] (utils/helpers). *)
Definition calculateGoals (profile : UserProfile) : CalorieGoals :=
  let heightInCm := (height profile * (254 # 100))%Q in
  let bmr :=
    match sex profile with
    | male =>
        (10 * weight profile + (625 # 100) * heightInCm - 5 * age profile + 5)%Q
    | female =>
        (10 * weight profile + (625 # 100) * heightInCm - 5 * age profile - 161)%Q
    end in
  let tdee := (bmr * activity_value (activityLevel profile))%Q in
  let targetCalories :=
    match goal profile with
    | Lose => (tdee - 500)%Q
    | Gain => (tdee + 500)%Q
    | Maintain => tdee
    end in
  let targetCarbs := ((targetCalories * (40 # 100)) / 4)%Q in
  let targetProtein := ((targetCalories * (30 # 100)) / 4)%Q in
  let targetFat := ((targetCalories * (30 # 100)) / 9)%Q in
  {| bmr := inject_Z (Math_round bmr);
     targetCalories := inject_Z (Math_round targetCalories);
     targetProtein := inject_Z (Math_round targetProtein);
     targetCarbs := inject_Z (Math_round targetCarbs);
     targetFat := inject_Z (Math_round targetFat) |}.

(** The formulas in the words of the specification, to compare
    [calculateGoals] with. *)
Definition mifflin_st_jeor (p : UserProfile) : Q :=
  (10 * weight p + (625 # 100) * (height p * (254 # 100)) - 5 * age p
   + (match sex p with male => 5 | female => - (161) end))%Q.

Definition tdee_of (p : UserProfile) : Q :=
  (mifflin_st_jeor p * activity_value (activityLevel p))%Q.

Definition target_of (p : UserProfile) : Q :=
  match goal p with
  | Lose => (tdee_of p - 500)%Q
  | Gain => (tdee_of p + 500)%Q
  | Maintain => tdee_of p
  end.

(** [k] is an integer nearest to [x]. *)
Definition nearest_integer (x : Q) (k : Z) : Prop :=
  forall j : Z, (Qabs (x - inject_Z k) <= Qabs (x - inject_Z j))%Q.

End Helpers.

(* ================================================================== *)
(** * Session/State orchestrator (App.tsx), typed view                 *)
(* ================================================================== *)

Module Orchestrator.

(** The React state the mutation handlers read through their closures. *)
Record AppState := {
  firebaseUser : option string;       (* the uid, when signed in *)
  userProfile : option UserProfile;
  dailyLogs : list DailyLog;
  workoutPlan : option WorkoutPlan;
  weightLog : list WeightEntry;
  chatSessions : list ChatSession;
  activeChatSessionId : option string;
  isAiReplying : bool
}.

(** [Partial<UserData>]: [None] is a key the object literal leaves out. *)
Record PartialUserData := {
  p_userProfile : option (option UserProfile);
  p_dailyLogs : option (list DailyLog);
  p_workoutPlan : option (option WorkoutPlan);
  p_weightLog : option (list WeightEntry);
  p_chatSessions : option (list ChatSession);
  p_activeChatSessionId : option (option string)
}.

(** A call [saveUserData(uid, data)] issued by [saveData]. *)
Record SaveRequest := {
  save_uid : string;
  save_data : PartialUserData
}.

(** [saveData] (App.tsx): persists only when a user is signed in. *)
Definition saveData (st : AppState) (data : PartialUserData) : list SaveRequest :=
  match firebaseUser st with
  | Some uid => [ {| save_uid := uid; save_data := data |} ]
  | None => []
  end.

Definition set_dailyLogs (st : AppState) (logs : list DailyLog) : AppState :=
  {| firebaseUser := firebaseUser st; userProfile := userProfile st;
     dailyLogs := logs; workoutPlan := workoutPlan st;
     weightLog := weightLog st; chatSessions := chatSessions st;
     activeChatSessionId := activeChatSessionId st;
     isAiReplying := isAiReplying st |}.

Definition set_weightLog (st : AppState) (wl : list WeightEntry) : AppState :=
  {| firebaseUser := firebaseUser st; userProfile := userProfile st;
     dailyLogs := dailyLogs st; workoutPlan := workoutPlan st;
     weightLog := wl; chatSessions := chatSessions st;
     activeChatSessionId := activeChatSessionId st;
     isAiReplying := isAiReplying st |}.

Definition set_userProfile (st : AppState) (p : option UserProfile) : AppState :=
  {| firebaseUser := firebaseUser st; userProfile := p;
     dailyLogs := dailyLogs st; workoutPlan := workoutPlan st;
     weightLog := weightLog st; chatSessions := chatSessions st;
     activeChatSessionId := activeChatSessionId st;
     isAiReplying := isAiReplying st |}.

Definition set_chatSessions (st : AppState) (cs : list ChatSession) : AppState :=
  {| firebaseUser := firebaseUser st; userProfile := userProfile st;
     dailyLogs := dailyLogs st; workoutPlan := workoutPlan st;
     weightLog := weightLog st; chatSessions := cs;
     activeChatSessionId := activeChatSessionId st;
     isAiReplying := isAiReplying st |}.

Definition set_isAiReplying (st : AppState) (b : bool) : AppState :=
  {| firebaseUser := firebaseUser st; userProfile := userProfile st;
     dailyLogs := dailyLogs st; workoutPlan := workoutPlan st;
     weightLog := weightLog st; chatSessions := chatSessions st;
     activeChatSessionId := activeChatSessionId st;
     isAiReplying := b |}.

(** [Array.prototype.findIndex]; [None] stands for [-1]. *)
Fixpoint findIndex {A : Type} (p : A -> bool) (l : list A) : option nat :=
  match l with
  | [] => None
  | x :: l' => if p x then Some 0%nat else option_map S (findIndex p l')
  end.

(** ** addMeal *)

Definition zero_nutrition : Nutrition :=
  {| calories := 0; protein := 0; carbs := 0; fat := 0 |}.

(** The callback of the [reduce] in [addMeal]. *)
Definition add_meal_nutrition (acc : Nutrition) (m : Meal) : Nutrition :=
  {| calories := calories acc + calories (meal_totalNutrition m);
     protein := protein acc + protein (meal_totalNutrition m);
     carbs := carbs acc + carbs (meal_totalNutrition m);
     fat := fat acc + fat (meal_totalNutrition m) |}.

(** [addMeal] (App.tsx): the new value of [dailyLogs]. *)
Definition addMeal_logs (meal : Meal) (dateStr : string)
    (logs : list DailyLog) : list DailyLog :=
  let newLogs := logs in
  match findIndex (fun log => String.eqb (date log) dateStr) newLogs with
  | Some logIndex =>
      match newLogs !! logIndex with
      | Some log =>
          let updatedMeals := meals log ++ [meal] in
          let updatedLog :=
            {| date := date log;
               meals := updatedMeals;
               totalNutrition :=
                 fold_left add_meal_nutrition updatedMeals zero_nutrition;
               log_weight := log_weight log |} in
          <[logIndex := updatedLog]> newLogs
      | None => newLogs      (* not reached: findIndex answers an index of newLogs *)
      end
  | None =>
      let newLog :=
        {| date := dateStr;
           meals := [meal];
           totalNutrition := meal_totalNutrition meal;
           log_weight := None |} in
      newLogs ++ [newLog]
  end.

(** [addMeal]: the state after [setDailyLogs(newLogs)] and the save it
    issues, [saveData({ dailyLogs: newLogs })]. *)
Definition addMeal (meal : Meal) (dateStr : string) (st : AppState)
    : AppState * list SaveRequest :=
  let newLogs := addMeal_logs meal dateStr (dailyLogs st) in
  (set_dailyLogs st newLogs,
   saveData st {| p_userProfile := None; p_dailyLogs := Some newLogs;
                  p_workoutPlan := None; p_weightLog := None;
                  p_chatSessions := None; p_activeChatSessionId := None |}).

(** ** addWeightEntry *)

Section WeightEntries.

(** The built-in [Date] is the environment's: [Date_parse s] is the time
    value (milliseconds since the epoch) of [new Date(s)], [None] for an
    Invalid Date; [toISOString t] is the ISO-8601 rendering of a time
    value. *)
Variable Date_parse : string -> option Z.
Variable toISOString : Z -> string.

(** The comparator [(a, b) => new Date(a.date).getTime() -
    new Date(b.date).getTime()]; a [NaN] result counts as [+0], as
    [Array.prototype.sort] treats it. *)
Definition compare_entries (a b : WeightEntry) : Z :=
  match Date_parse (entry_date a), Date_parse (entry_date b) with
  | Some ta, Some tb => ta - tb
  | _, _ => 0
  end.

(** [Array.prototype.sort] is stable; on a consistent comparator its
    result is the one of a stable insertion sort. *)
Fixpoint insert_entry (x : WeightEntry) (l : list WeightEntry) : list WeightEntry :=
  match l with
  | [] => [x]
  | y :: l' =>
      if (compare_entries x y <=? 0)%Z then x :: y :: l'
      else y :: insert_entry x l'
  end.

Fixpoint sort_entries (l : list WeightEntry) : list WeightEntry :=
  match l with
  | [] => []
  | x :: l' => insert_entry x (sort_entries l')
  end.

Definition with_weight (p : UserProfile) (w : number) : UserProfile :=
  {| name := name p; age := age p; sex := sex p; height := height p;
     weight := w; activityLevel := activityLevel p; goal := goal p;
     targetWeight := targetWeight p; mealsPerDay := mealsPerDay p;
     exercisePreferences := exercisePreferences p;
     registrationDate := registrationDate p;
     exerciseFrequency := exerciseFrequency p;
     exerciseTiming := exerciseTiming p |}.

(** [addWeightEntry] (App.tsx): the new value of [dailyLogs]. *)
Definition addWeightEntry_logs (w : number) (dateStr : string)
    (logs : list DailyLog) : list DailyLog :=
  let newLogs := logs in
  match findIndex (fun log => String.eqb (date log) dateStr) newLogs with
  | Some logIndex =>
      match newLogs !! logIndex with
      | Some log =>
          <[logIndex := {| date := date log; meals := meals log;
                           totalNutrition := totalNutrition log;
                           log_weight := Some w |}]> newLogs
      | None => newLogs      (* not reached *)
      end
  | None =>
      newLogs ++ [ {| date := dateStr; meals := [];
                      totalNutrition := zero_nutrition;
                      log_weight := Some w |} ]
  end.

(** [addWeightEntry] (App.tsx): the state after its setters and the save
    it issues. [today] is [new Date().toISOString().split('T')[0]] at the time of
    the call. The answer is [None] when [new Date(dateStr).toISOString()]
    throws (Invalid Date): nothing has been updated by then. *)
Definition addWeightEntry (today : string) (w : number) (dateStr : string)
    (st : AppState) : option (AppState * list SaveRequest) :=
  match Date_parse dateStr with
  | None => None
  | Some t =>
      let newEntry := {| entry_date := toISOString t; entry_weight := w |} in
      let newWeightLog := sort_entries (weightLog st ++ [newEntry]) in
      let updatedProfile :=
        match userProfile st with
        | Some p =>
            if String.eqb dateStr today then Some (with_weight p w)
            else Some p
        | None => None
        end in
      let newLogs := addWeightEntry_logs w dateStr (dailyLogs st) in
      Some (set_dailyLogs
              (set_userProfile (set_weightLog st newWeightLog) updatedProfile)
              newLogs,
            saveData st {| p_userProfile := Some updatedProfile;
                           p_dailyLogs := Some newLogs;
                           p_workoutPlan := None;
                           p_weightLog := Some newWeightLog;
                           p_chatSessions := None;
                           p_activeChatSessionId := None |})
  end.

(** One call per rendered state: [today], the weight, the date. A call
    that throws leaves the state as it was. *)
Record WeightCall := {
  call_today : string;
  call_weight : number;
  call_date : string
}.

Definition addWeightEntry_call (st : AppState) (c : WeightCall) : AppState :=
  match addWeightEntry (call_today c) (call_weight c) (call_date c) st with
  | Some (st', _) => st'
  | None => st
  end.

Definition addWeightEntry_calls (calls : list WeightCall) (st : AppState) : AppState :=
  fold_left addWeightEntry_call calls st.

(** The entry a call adds to the history. *)
Definition entry_of_call (c : WeightCall) : list WeightEntry :=
  match Date_parse (call_date c) with
  | Some t => [ {| entry_date := toISOString t; entry_weight := call_weight c |} ]
  | None => []
  end.

(** [a] is not later than [b], both dates being valid. *)
Definition not_later (a b : WeightEntry) : Prop :=
  exists ta tb, Date_parse (entry_date a) = Some ta /\
                Date_parse (entry_date b) = Some tb /\ (ta <= tb)%Z.

End WeightEntries.

End Orchestrator.

(* ================================================================== *)
(** * Chat: the streaming fetcher's request and the send handler       *)
(* ================================================================== *)

Module Chat.
Import Orchestrator.

(** What a [catch] clause may receive. *)
Inductive Thrown :=
  | SyntaxError_ (message : string)
  | Error_ (message : string)
  | NotAnError.

(** [s.includes(pat)] *)
Fixpoint includes (s pat : string) : bool :=
  String.prefix pat s ||
  match s with
  | EmptyString => false
  | String _ s' => includes s' pat
  end.

(** [handleGeminiError] (services/geminiService): the message of the
    [Error] it returns. *)
Definition handleGeminiError (error : Thrown) (context : string) : string :=
  let isSafetyOrParseError :=
    match error with
    | SyntaxError_ _ => true
    | Error_ m =>
        includes m "candidateslist is empty" ||
        includes m "finish reason: 4" ||
        includes m "Received an empty response" ||
        includes m "Unexpected token"
    | NotAnError => false
    end in
  if isSafetyOrParseError then
    if String.eqb context "meal analysis" then
      "Only food-related images can be used here. The AI could not analyze the provided image."
    else
      "The AI model did not return a response, which may be due to the safety policy. Please try a different query or image."
  else
    let generic :=
      "An unexpected error occurred with the Gemini API during " +:+ context
      +:+ ". Please try again later." in
    match error with
    | Error_ m =>
        if includes m "API_KEY environment variable not set" then
          "Your Gemini API key is not configured. Please follow the instructions in the README.md file to set up your .env.local file."
        else if includes m "[400" then
          "The request to the AI service was invalid during " +:+ context
          +:+ ". This might be an issue with the prompt or data format."
        else if includes m "[403" then
          "Your Gemini API key is invalid or lacks the necessary permissions. Please check your key and try again."
        else generic
    | _ => generic
    end.

(** A [Content] of the request: role and parts of one turn. *)
Record Content := {
  content_role : Role;
  content_parts : list ChatMessagePart
}.

(** The arguments [continueChat] hands to [generateContentStream]; the
    system instruction, a text built from profile, logs, weights and
    plan, has no part in [contents] and is left out. *)
Record ChatRequest := {
  contents : list Content;
  googleSearch : bool
}.

(** [continueChat] (services/geminiService), up to the call of the
    model: the turns of [history], then the user's message. *)
Definition continueChat (history : list ChatMessage)
    (userMessage : string) (useGoogleSearch : bool) : ChatRequest :=
  let contents :=
    map (fun h => {| content_role := role h; content_parts := parts h |}) history in
  {| contents := contents ++ [ {| content_role := user;
                                  content_parts := [ {| text := userMessage |} ] |} ];
     googleSearch := useGoogleSearch |}.

(** One chunk of the response stream: [chunk.text], which is
    [undefined] ([None]) for a chunk that carries no text part, and,
    when present, [candidates[0].groundingMetadata.groundingChunks] (the
    [web] part of each). *)
Record StreamChunk := {
  chunk_text : option string;
  chunk_grounding : option (list GroundingSource)
}.

(** What [finalResponse += chunk.text] appends: the text, or the word
    the string concatenation makes of [undefined]. *)
Definition appended (chunk : StreamChunk) : string :=
  match chunk_text chunk with
  | Some t => t
  | None => "undefined"
  end.

(** How the model answers one call of [continueChat]. *)
Inductive FetchOutcome :=
  | NoApiKey                                   (* getApiKey throws *)
  | RequestFails (error : Thrown)              (* generateContentStream throws *)
  | Streams (chunks : list StreamChunk) (failure : option Thrown).
      (* the chunks delivered, then normal completion or a throw *)

(** The environment of one send. *)
Record SendEnv := {
  now_user : string;          (* Date.now() for the user message id *)
  now_model : string;         (* Date.now() for the placeholder id *)
  time_user : string;         (* new Date().toISOString(), user message *)
  time_model : string;        (* new Date().toISOString(), placeholder *)
  fetch : FetchOutcome;
  save_failure : option Thrown  (* saveUserData throws this, when set *)
}.

(** What one send did. *)
Record SendResult := {
  final : AppState;
  requests : list ChatRequest;     (* calls of the model *)
  saved : list SaveRequest;        (* calls of saveUserData, in order *)
  escaped : option Thrown          (* left the handler uncaught *)
}.

Definition has_id (msg : ChatMessage) (i : string) : bool :=
  match msg_id msg with
  | Some j => String.eqb j i
  | None => false
  end.

(** [{ ...msg, parts: [{ text: finalResponse }],
       grounding: latestGroundingChunks || msg.grounding }] *)
Definition with_response (msg : ChatMessage) (finalResponse : string)
    (latestGroundingChunks : option (list GroundingSource)) : ChatMessage :=
  {| msg_id := msg_id msg; role := role msg;
     parts := [ {| text := finalResponse |} ];
     timestamp := timestamp msg;
     grounding := match latestGroundingChunks with
                  | Some g => Some g
                  | None => grounding msg
                  end |}.

(** [{ ...msg, parts: [{ text: ... }] }] *)
Definition with_text (msg : ChatMessage) (t : string) : ChatMessage :=
  {| msg_id := msg_id msg; role := role msg;
     parts := [ {| text := t |} ];
     timestamp := timestamp msg;
     grounding := grounding msg |}.

Definition with_history (session : ChatSession) (h : list ChatMessage) : ChatSession :=
  {| session_id := session_id session; session_title := session_title session;
     history := h; createdAt := createdAt session |}.

(** The [map] over sessions that rewrites the message [modelMessageId]
    of the session [active] with [f]. *)
Definition rewrite_message (active modelMessageId : string)
    (f : ChatMessage -> ChatMessage) (sessions : list ChatSession) : list ChatSession :=
  map (fun session =>
         if String.eqb (session_id session) active then
           with_history session
             (map (fun msg => if has_id msg modelMessageId then f msg else msg)
                  (history session))
         else session)
      sessions.

(** The [for await] loop over the chunks received: the accumulated text,
    the latest grounding, and the sessions after each functional
    [setChatSessions(prev => ...)]. *)
Fixpoint stream_loop (active modelMessageId : string) (chunks : list StreamChunk)
    (finalResponse : string) (latestGroundingChunks : option (list GroundingSource))
    (current : list ChatSession)
    : string * option (list GroundingSource) * list ChatSession :=
  match chunks with
  | [] => (finalResponse, latestGroundingChunks, current)
  | chunk :: rest =>
      let finalResponse := finalResponse +:+ appended chunk in
      let latestGroundingChunks :=
        match chunk_grounding chunk with
        | Some newGrounding =>
            Some (map (fun c => {| uri := uri c; title := title c |}) newGrounding)
        | None => latestGroundingChunks
        end in
      stream_loop active modelMessageId rest finalResponse latestGroundingChunks
        (rewrite_message active modelMessageId
           (fun msg => with_response msg finalResponse latestGroundingChunks)
           current)
  end.

Definition only_chatSessions (cs : list ChatSession) : PartialUserData :=
  {| p_userProfile := None; p_dailyLogs := None; p_workoutPlan := None;
     p_weightLog := None; p_chatSessions := Some cs;
     p_activeChatSessionId := None |}.

(** [await saveData(data)] inside the handler: the calls issued and the
    exception, if the save throws. *)
Definition await_saveData (env : SendEnv) (st : AppState) (data : PartialUserData)
    : list SaveRequest * option Thrown :=
  match saveData st data with
  | [] => ([], None)
  | reqs => (reqs, save_failure env)
  end.

(** The [catch] and [finally] clauses of [handleSendMessage]. [st] holds
    the values the closure captured, [current] the state reached so far. *)
Definition on_error (env : SendEnv) (st current : AppState)
    (active modelMessageId : string) (error : Thrown)
    (reqs : list ChatRequest) (saves : list SaveRequest) : SendResult :=
  let errorMessage :=
    match error with
    | SyntaxError_ m | Error_ m => m
    | NotAnError => "An unexpected error occurred."
    end in
  let errorSessions :=
    rewrite_message active modelMessageId
      (fun msg => with_text msg ("Error: " +:+ errorMessage))
      (chatSessions st) in
  let (saves', thrown) := await_saveData env st (only_chatSessions errorSessions) in
  {| final := set_isAiReplying (set_chatSessions current errorSessions) false;
     requests := reqs;
     saved := saves ++ saves';
     escaped := thrown |}.

(** [handleSendMessage] (App.tsx). [st] is the state the handler was
    created in: what its closure reads as [userProfile], [chatSessions],
    [activeChatSessionId] all along, whatever the setters have done
    since. *)
Definition handleSendMessage (env : SendEnv) (message : string)
    (useGoogleSearch : bool) (st : AppState) : SendResult :=
  match userProfile st, activeChatSessionId st with
  | Some _, Some active =>
    if String.eqb active "" then
      {| final := st; requests := []; saved := []; escaped := None |}
    else
      let userMessage :=
        {| msg_id := Some ("user_" +:+ now_user env); role := user;
           parts := [ {| text := message |} ];
           timestamp := time_user env; grounding := None |} in
      let modelMessageId := "model_" +:+ now_model env in
      let placeholderMessage :=
        {| msg_id := Some modelMessageId; role := model;
           parts := [ {| text := "" |} ];
           timestamp := time_model env; grounding := None |} in
      let updatedSessions :=
        map (fun session =>
               if String.eqb (session_id session) active then
                 {| session_id := session_id session;
                    session_title :=
                      if (List.length (history session) =? 0)%nat then
                        String.substring 0 30 message +:+
                        (if (30 <? String.length message)%nat then "..." else "")
                      else session_title session;
                    history := history session ++ [userMessage; placeholderMessage];
                    createdAt := createdAt session |}
               else session)
            (chatSessions st) in
      let sending := set_chatSessions (set_isAiReplying st true) updatedSessions in
      match List.find (fun s => String.eqb (session_id s) active) updatedSessions with
      | None =>
          on_error env st sending active modelMessageId
            (Error_ "Active session not found") [] []
      | Some currentSession =>
          let request :=
            continueChat (history currentSession) message useGoogleSearch in
          match fetch env with
          | NoApiKey =>
              on_error env st sending active modelMessageId
                (Error_ (handleGeminiError
                           (Error_ "API_KEY environment variable not set.")
                           "chat session")) [] []
          | RequestFails e =>
              on_error env st sending active modelMessageId
                (Error_ (handleGeminiError e "chat session")) [request] []
          | Streams chunks failure =>
              let '(finalResponse, latestGroundingChunks, streamed) :=
                stream_loop active modelMessageId chunks "" None updatedSessions in
              let current := set_chatSessions sending streamed in
              match failure with
              | Some e =>
                  on_error env st current active modelMessageId e [request] []
              | None =>
                  let finalSessions :=
                    rewrite_message active modelMessageId
                      (fun msg => with_response msg finalResponse latestGroundingChunks)
                      (chatSessions st) in
                  match await_saveData env st (only_chatSessions finalSessions) with
                  | (saves, Some e) =>
                      on_error env st current active modelMessageId e [request] saves
                  | (saves, None) =>
                      {| final := set_isAiReplying current false;
                         requests := [request];
                         saved := saves;
                         escaped := None |}
                  end
              end
          end
      end
  | _, _ => {| final := st; requests := []; saved := []; escaped := None |}
  end.

End Chat.

(* ================================================================== *)
(** * JavaScript values, as the persistence gateway sees them          *)
(* ================================================================== *)

Module Js.

#[local] Set Warnings "-register-all".

Inductive value :=
  | VUndefined
  | VNull
  | VBool (b : bool)
  | VNumber (n : number)
  | VString (s : string)
  | VArray (elements : list value)
  | VObject (fields : list (string * value))
      (* a plain object: its own enumerable keys, in order; the
         functions of the embedding read an object by key *)
  | VSpecial (tag : string).
      (* an object whose constructor is not Object (a Timestamp, ...) *)

(** [ToBoolean] *)
Definition truthy (v : value) : bool :=
  match v with
  | VUndefined | VNull => false
  | VBool b => b
  | VNumber n => negb (Qeq_bool n 0)
  | VString s => negb (String.eqb s "")
  | VArray _ | VObject _ | VSpecial _ => true
  end.

(** [a || b] *)
Definition or_else (a b : value) : value := if truthy a then a else b.

(** [obj[key]] for an own property: the value under the first [key]. *)
Fixpoint get (key : string) (fields : list (string * value)) : option value :=
  match fields with
  | [] => None
  | (k, v) :: rest => if String.eqb k key then Some v else get key rest
  end.

(** [undefined] occurs somewhere in the value. *)
Fixpoint has_undefined (v : value) : bool :=
  match v with
  | VUndefined => true
  | VArray elements => existsb has_undefined elements
  | VObject fields => existsb (fun kv => has_undefined (snd kv)) fields
  | _ => false
  end.

End Js.

(* ================================================================== *)
(** * Persistence gateway (services/firebaseService)                   *)
(* ================================================================== *)

Module Gateway.
Import Js.

(** [removeUndefinedValues] (services/firebaseService). *)
Fixpoint removeUndefinedValues (obj : value) : value :=
  match obj with
  | VNull | VUndefined => VNull
  | VArray elements => VArray (map removeUndefinedValues elements)
  | VObject fields =>
      VObject
        ((fix own_keys (fs : list (string * value)) : list (string * value) :=
            match fs with
            | [] => []
            | (key, v) :: fs' =>
                match v with
                | VUndefined => own_keys fs'
                | _ => (key, removeUndefinedValues v) :: own_keys fs'
                end
            end) fields)
  | other => other
  end.

(** The sanitizing as the specification words it: every missing-value
    marker becomes an explicit [null], all keys staying. *)
Fixpoint normalize_to_null (obj : value) : value :=
  match obj with
  | VUndefined => VNull
  | VArray elements => VArray (map normalize_to_null elements)
  | VObject fields =>
      VObject (map (fun kv => (fst kv, normalize_to_null (snd kv))) fields)
  | other => other
  end.

(** The remote store is the environment's: one document per user id, a
    document being a finite map from field names to values. *)
Abbreviation document := (gmap string value).
Abbreviation store := (gmap string (gmap string value)).

(** What the environment decides for one call. *)
Record Backend := {
  db_ready : bool;                    (* [db] is not null *)
  read_failure : bool;                (* getDoc throws *)
  write_failure : option string       (* setDoc throws an Error with this message *)
}.

Inductive outcome (A : Type) :=
  | Returns (a : A)
  | Throws (message : string).
Arguments Returns {A} a.
Arguments Throws {A} message.

(** [getUserData]: the document's data, or [None] for [null]. *)
Definition getUserData (b : Backend) (remote : store) (userId : string)
    : option document :=
  if String.eqb userId "" || negb (db_ready b) then None
  else if read_failure b then None
  else remote !! userId.

(** The keys of [stored] in their order, each with the value [written]
    has for it, if any, then the keys only [written] has. (The store
    keeps no order of keys and the application reads objects by key;
    the list needs one.) *)
Definition overlay (stored written : list (string * value))
    : list (string * value) :=
  map (fun kv => (fst kv, default (snd kv) (get (fst kv) written))) stored
  ++ List.filter (fun kv => negb (bool_decide (is_Some (get (fst kv) stored))))
       written.

(** What a field holds after [written] was merged into it, [stored]
    being what it held. The store's merge sets the leaves of the data
    (every value that is not an object with properties) at their paths
    and leaves all other paths alone: an object with properties is
    merged, property by property, into a stored object, and replaces a
    stored value that is no object; a scalar, [null], an array or an
    empty object replaces what was stored. *)
Fixpoint merge_value (stored : option value) (written : value) : value :=
  match written with
  | VObject fields =>
      match fields, stored with
      | _ :: _, Some (VObject stored_fields) =>
          VObject
            (overlay stored_fields
               (map (fun kv =>
                       (fst kv, merge_value (get (fst kv) stored_fields) (snd kv)))
                    fields))
      | _, _ => written
      end
  | _ => written
  end.

(** [data] merged into the document [old]. *)
Definition merge_document (old : document) (data : list (string * value))
    : document :=
  list_to_map (map (fun kv => (fst kv, merge_value (old !! fst kv) (snd kv))) data)
  ∪ old.

(** [setDoc(ref, data, { merge: true })] of the Firestore client: the
    document of [userId], made if there was none, gets [data] merged
    into it; the other documents stay. *)
Definition setDoc_merge (remote : store) (userId : string)
    (data : list (string * value)) : store :=
  <[userId := merge_document (default ∅ (remote !! userId)) data]> remote.

(** [saveUserData]: the store after the write, or the exception. *)
Definition saveUserData (b : Backend) (remote : store) (userId : string)
    (data : value) : outcome store :=
  if String.eqb userId "" || negb (db_ready b) then
    Throws "Firebase not initialized or user not logged in."
  else
    let sanitizedData := removeUndefinedValues data in
    match write_failure b with
    | Some message => Throws message
    | None =>
        match sanitizedData with
        | VObject fields => Returns (setDoc_merge remote userId fields)
        | _ => Throws "setDoc() called with invalid data."
        end
    end.

End Gateway.

(* ================================================================== *)
(** * Identity resolution (App.tsx, the auth-state effect)             *)
(* ================================================================== *)

Module Identity.
Import Js Gateway.

(** [UserData], its six fields as the gateway sees them. *)
Record UserData := {
  userProfile : value;
  dailyLogs : value;
  workoutPlan : value;
  weightLog : value;
  chatSessions : value;
  activeChatSessionId : value
}.

(** The object literal [{ userProfile, dailyLogs, workoutPlan, weightLog,
    chatSessions, activeChatSessionId }]. *)
Definition toObject (d : UserData) : value :=
  VObject [ ("userProfile", userProfile d);
            ("dailyLogs", dailyLogs d);
            ("workoutPlan", workoutPlan d);
            ("weightLog", weightLog d);
            ("chatSessions", chatSessions d);
            ("activeChatSessionId", activeChatSessionId d) ].

(** Reading a field of [docSnap.data()]; a field the document lacks
    reads [undefined]. *)
Definition field (doc : document) (key : string) : value :=
  default VUndefined (doc !! key).

(** [docSnap.data() as UserData] *)
Definition asUserData (doc : document) : UserData :=
  {| userProfile := field doc "userProfile";
     dailyLogs := field doc "dailyLogs";
     workoutPlan := field doc "workoutPlan";
     weightLog := field doc "weightLog";
     chatSessions := field doc "chatSessions";
     activeChatSessionId := field doc "activeChatSessionId" |}.

Definition empty_snapshot : UserData :=
  {| userProfile := VNull; dailyLogs := VArray []; workoutPlan := VNull;
     weightLog := VArray []; chatSessions := VArray [];
     activeChatSessionId := VNull |}.

Record AuthState := {
  firebaseUser : option string;
  isGuest : bool;
  guestDataRef : option UserData;     (* guestDataRef.current *)
  snapshot : UserData;                (* the six pieces of React state *)
  isUserDataLoading : bool;
  isAuthLoading : bool
}.

(** [handleSignInAttempt], before it starts the sign-in. *)
Definition handleSignInAttempt (st : AuthState) : AuthState :=
  {| firebaseUser := firebaseUser st;
     isGuest := isGuest st;
     guestDataRef :=
       if isGuest st && truthy (userProfile (snapshot st))
       then Some (snapshot st) else None;
     snapshot := snapshot st;
     isUserDataLoading := isUserDataLoading st;
     isAuthLoading := isAuthLoading st |}.

Record AuthResult := {
  state : AuthState;
  remote : store;
  writes : list (string * value);     (* calls saveUserData(uid, data) *)
  escaped : option string             (* an exception left the callback *)
}.

(** The callback given to [onAuthStateChanged]. *)
Definition onAuthStateChanged (b : Backend) (user : option string)
    (remote0 : store) (st : AuthState) : AuthResult :=
  match user with
  | Some uid =>
      let existingFirebaseData := getUserData b remote0 uid in
      let loaded (ref : option UserData) (d : UserData) (r : store)
                 (w : list (string * value)) :=
        {| state := {| firebaseUser := Some uid; isGuest := false;
                       guestDataRef := ref; snapshot := d;
                       isUserDataLoading := false; isAuthLoading := false |};
           remote := r; writes := w; escaped := None |} in
      let existing_has_profile :=
        match existingFirebaseData with
        | Some doc => truthy (userProfile (asUserData doc))
        | None => false
        end in
      if existing_has_profile then
        (* an existing user logs in: load the stored data *)
        let e := asUserData (default ∅ existingFirebaseData) in
        loaded (guestDataRef st)
          {| userProfile := or_else (userProfile e) VNull;
             dailyLogs := or_else (dailyLogs e) (VArray []);
             workoutPlan := or_else (workoutPlan e) VNull;
             weightLog := or_else (weightLog e) (VArray []);
             chatSessions := or_else (chatSessions e) (VArray []);
             activeChatSessionId := or_else (activeChatSessionId e) VNull |}
          remote0 []
      else
        match guestDataRef st with
        | Some guest =>
            (* a new user who was a guest: migrate the guest data *)
            match saveUserData b remote0 uid (toObject guest) with
            | Returns remote1 =>
                loaded None guest remote1 [ (uid, toObject guest) ]
            | Throws message =>
                (* the rejection leaves the callback; the setters after
                   the await never run *)
                {| state := {| firebaseUser := Some uid; isGuest := false;
                               guestDataRef := guestDataRef st;
                               snapshot := snapshot st;
                               isUserDataLoading := true;
                               isAuthLoading := isAuthLoading st |};
                   remote := remote0;
                   writes := [ (uid, toObject guest) ];
                   escaped := Some message |}
            end
        | None =>
            (* a brand new user *)
            loaded None empty_snapshot remote0 []
        end
  | None =>
      {| state := {| firebaseUser := None; isGuest := isGuest st;
                     guestDataRef := None; snapshot := empty_snapshot;
                     isUserDataLoading := isUserDataLoading st;
                     isAuthLoading := false |};
         remote := remote0; writes := []; escaped := None |}
  end.

End Identity.

(* ================================================================== *)
(** * Notions the properties are stated with                           *)
(* ================================================================== *)

Module Notions.
Import Orchestrator.

(** [dailyLogs.find(log => log.date === d)], the log of a date as the
    dashboard reads it. *)
Definition log_of (d : string) (logs : list DailyLog) : option DailyLog :=
  List.find (fun log => String.eqb (date log) d) logs.

(** The logs of every date but [d], in order. *)
Definition other_logs (d : string) (logs : list DailyLog) : list DailyLog :=
  List.filter (fun log => negb (String.eqb (date log) d)) logs.

(** The sum of one nutrient over the meals of a log. *)
Fixpoint total_of (nutrient : Nutrition -> number) (ms : list Meal) : number :=
  match ms with
  | [] => 0
  | m :: rest => nutrient (meal_totalNutrition m) + total_of nutrient rest
  end.

(** [n] is the element-wise sum of the meals' nutrition. *)
Definition is_sum_of (n : Nutrition) (ms : list Meal) : Prop :=
  (calories n == total_of calories ms)%Q /\
  (protein n == total_of protein ms)%Q /\
  (carbs n == total_of carbs ms)%Q /\
  (fat n == total_of fat ms)%Q.

(** The properties a sanitized object keeps: those whose value is not
    [undefined], in order, each value sanitized. *)
Definition is_undefined (v : Js.value) : bool :=
  match v with
  | Js.VUndefined => true
  | _ => false
  end.

Definition kept_fields (fields : list (string * Js.value)) : list (string * Js.value) :=
  map (fun kv => (fst kv, Gateway.removeUndefinedValues (snd kv)))
      (List.filter (fun kv => negb (is_undefined (snd kv))) fields).

(** The properties of [toObject d]. *)
Definition object_fields (d : Identity.UserData) : list (string * Js.value) :=
  [ ("userProfile", Identity.userProfile d);
    ("dailyLogs", Identity.dailyLogs d);
    ("workoutPlan", Identity.workoutPlan d);
    ("weightLog", Identity.weightLog d);
    ("chatSessions", Identity.chatSessions d);
    ("activeChatSessionId", Identity.activeChatSessionId d) ].

(** A leaf of the data written: every value but an object with
    properties. *)
Definition is_leaf (v : Js.value) : bool :=
  match v with
  | Js.VObject (_ :: _) => false
  | _ => true
  end.

(** No field of the document holds an object. *)
Definition holds_no_object (doc : Gateway.document) : Prop :=
  forall key fields, doc !! key <> Some (Js.VObject fields).

(** The snapshot with each of its six values sanitized. *)
Definition sanitized (d : Identity.UserData) : Identity.UserData :=
  {| Identity.userProfile := Gateway.removeUndefinedValues (Identity.userProfile d);
     Identity.dailyLogs := Gateway.removeUndefinedValues (Identity.dailyLogs d);
     Identity.workoutPlan := Gateway.removeUndefinedValues (Identity.workoutPlan d);
     Identity.weightLog := Gateway.removeUndefinedValues (Identity.weightLog d);
     Identity.chatSessions := Gateway.removeUndefinedValues (Identity.chatSessions d);
     Identity.activeChatSessionId :=
       Gateway.removeUndefinedValues (Identity.activeChatSessionId d) |}.

(** A field loads as it is stored when it is truthy or is the empty
    value the loader falls back on. *)
Definition loads_unchanged (v fallback : Js.value) : Prop :=
  Js.truthy v = true \/ v = fallback.

(** The text and the grounding the stream loop has accumulated after
    the given chunks. *)
Definition text_after (acc : string) (chunks : list Chat.StreamChunk) : string :=
  fold_left (fun t c => t +:+ Chat.appended c) chunks acc.

Definition grounding_after (latest : option (list GroundingSource))
    (chunks : list Chat.StreamChunk) : option (list GroundingSource) :=
  fold_left (fun l c => match Chat.chunk_grounding c with
                        | Some g => Some (map (fun s => {| uri := uri s; title := title s |}) g)
                        | None => l
                        end) chunks latest.

(** One turn of a request: a role and a single text part. *)
Definition turn (r : Role) (t : string) : Chat.Content :=
  {| Chat.content_role := r; Chat.content_parts := [ {| text := t |} ] |}.

End Notions.

(* ================================================================== *)
(** * Sample data for the worked examples                              *)
(* ================================================================== *)

Module Samples.
Import Orchestrator.

(** A table of [Date] answers: two date-only strings (read as UTC
    midnight) and their ISO renderings. *)
Definition sample_Date_parse (s : string) : option Z :=
  if String.eqb s "2024-03-10" then Some 1710028800000%Z
  else if String.eqb s "2024-03-10T00:00:00.000Z" then Some 1710028800000%Z
  else if String.eqb s "2024-03-03" then Some 1709424000000%Z
  else if String.eqb s "2024-03-03T00:00:00.000Z" then Some 1709424000000%Z
  else None.

Definition sample_toISOString (t : Z) : string :=
  if (t =? 1710028800000)%Z then "2024-03-10T00:00:00.000Z"
  else if (t =? 1709424000000)%Z then "2024-03-03T00:00:00.000Z"
  else "".

Definition sam : UserProfile :=
  {| name := "Sam"; age := 30; sex := male; height := 70; weight := 70;
     activityLevel := ModeratelyActive; goal := Lose;
     targetWeight := 65; mealsPerDay := 3; exercisePreferences := "";
     registrationDate := "2024-03-03T00:00:00.000Z";
     exerciseFrequency := once; exerciseTiming := [morning] |}.

Definition oatmeal : Meal :=
  {| meal_id := "meal_1"; meal_name := "Breakfast";
     meal_timestamp := "2024-03-10T07:30:00.000Z";
     items := [ {| food_name := "Oatmeal";
                   nutrition := {| calories := 300; protein := 10;
                                   carbs := 54; fat := 5 |} |} ];
     meal_totalNutrition := {| calories := 300; protein := 10;
                               carbs := 54; fat := 5 |};
     meal_imageUrl := None |}.

Definition salad : Meal :=
  {| meal_id := "meal_2"; meal_name := "Lunch";
     meal_timestamp := "2024-03-10T12:30:00.000Z";
     items := [];
     meal_totalNutrition := {| calories := 250; protein := 8 # 1;
                               carbs := 125 # 10; fat := 18 |};
     meal_imageUrl := None |}.

Definition new_chat : ChatSession :=
  {| session_id := "chat_1"; session_title := "New Chat"; history := [];
     createdAt := "2024-03-10T09:00:00.000Z" |}.

Definition earlier_turns : list ChatMessage :=
  [ {| msg_id := Some "user_1"; role := user;
       parts := [ {| text := "Hello" |} ];
       timestamp := "2024-03-10T09:00:01.000Z"; grounding := None |};
    {| msg_id := Some "model_1"; role := model;
       parts := [ {| text := "Hi Sam" |} ];
       timestamp := "2024-03-10T09:00:01.000Z"; grounding := None |} ].

Definition old_chat : ChatSession :=
  {| session_id := "chat_1"; session_title := "Hello";
     history := earlier_turns;
     createdAt := "2024-03-10T09:00:00.000Z" |}.

(** A signed-in user whose only chat session is [cs], the active one. *)
Definition signed_in (cs : ChatSession) : AppState :=
  {| firebaseUser := Some "uid-1"; userProfile := Some sam;
     dailyLogs := []; workoutPlan := None;
     weightLog := [ {| entry_date := "2024-03-03T00:00:00.000Z";
                       entry_weight := 70 |} ];
     chatSessions := [cs]; activeChatSessionId := Some (session_id cs);
     isAiReplying := false |}.

Definition env_with (f : Chat.FetchOutcome) : Chat.SendEnv :=
  {| Chat.now_user := "1710061200000"; Chat.now_model := "1710061200000";
     Chat.time_user := "2024-03-10T09:00:00.000Z";
     Chat.time_model := "2024-03-10T09:00:00.000Z";
     Chat.fetch := f; Chat.save_failure := None |}.

(** The model streams "Hel", then "lo", and completes. *)
Definition answers_hello : Chat.SendEnv :=
  env_with (Chat.Streams [ {| Chat.chunk_text := Some "Hel"; Chat.chunk_grounding := None |};
                           {| Chat.chunk_text := Some "lo"; Chat.chunk_grounding := None |} ]
                         None).

(** The request is refused. *)
Definition refuses : Chat.SendEnv :=
  env_with (Chat.RequestFails (Chat.Error_ "[403 Forbidden] API key not valid")).

(** The stream breaks after "Hel". *)
Definition breaks_off : Chat.SendEnv :=
  env_with (Chat.Streams [ {| Chat.chunk_text := Some "Hel"; Chat.chunk_grounding := None |} ]
                         (Some (Chat.Error_ "network lost"))).

(** The gateway's view of a guest's state: a profile, and one chat
    whose model message went through the stream update, which writes
    the key [grounding] even when there is none. *)
Definition guest_profile : Js.value :=
  Js.VObject [ ("name", Js.VString "Sam"); ("weight", Js.VNumber 70) ].

Definition streamed_message (g : Js.value) : Js.value :=
  Js.VObject [ ("id", Js.VString "model_1710061200000");
               ("role", Js.VString "model");
               ("parts", Js.VArray [ Js.VObject [ ("text", Js.VString "Hello") ] ]);
               ("timestamp", Js.VString "2024-03-10T09:00:00.000Z");
               ("grounding", g) ].

Definition guest_chats (g : Js.value) : Js.value :=
  Js.VArray [ Js.VObject [ ("id", Js.VString "chat_1");
                           ("title", Js.VString "Hi");
                           ("history", Js.VArray [ streamed_message g ]);
                           ("createdAt", Js.VString "2024-03-10T09:00:00.000Z") ] ].

Definition guest_data (g : Js.value) : Identity.UserData :=
  {| Identity.userProfile := guest_profile;
     Identity.dailyLogs := Js.VArray [];
     Identity.workoutPlan := Js.VNull;
     Identity.weightLog := Js.VArray [];
     Identity.chatSessions := guest_chats g;
     Identity.activeChatSessionId := Js.VString "chat_1" |}.

Definition as_guest (d : Identity.UserData) : Identity.AuthState :=
  {| Identity.firebaseUser := None; Identity.isGuest := true;
     Identity.guestDataRef := None; Identity.snapshot := d;
     Identity.isUserDataLoading := false; Identity.isAuthLoading := false |}.

Definition working_backend : Gateway.Backend :=
  {| Gateway.db_ready := true; Gateway.read_failure := false;
     Gateway.write_failure := None |}.

(** A stored document of a user who set a profile up earlier. *)
Definition stored_fields : list (string * Js.value) :=
  [ ("userProfile", Js.VObject [ ("name", Js.VString "Alex") ]);
    ("dailyLogs", Js.VArray []);
    ("workoutPlan", Js.VNull);
    ("weightLog", Js.VArray []);
    ("chatSessions", Js.VArray []);
    ("activeChatSessionId", Js.VNull) ].

(** The document of an account in use: a profile, a day's log, a plan,
    a weight entry and a chat. *)
Definition stored_account : list (string * Js.value) :=
  [ ("userProfile", Js.VObject [ ("age", Js.VNumber 41);
                                 ("name", Js.VString "Alex") ]);
    ("dailyLogs",
     Js.VArray [ Js.VObject [ ("date", Js.VString "2024-03-01");
                              ("meals", Js.VArray []) ] ]);
    ("workoutPlan", Js.VObject [ ("description", Js.VString "Four days");
                                 ("planName", Js.VString "Strength");
                                 ("weeklySchedule", Js.VArray []) ]);
    ("weightLog",
     Js.VArray [ Js.VObject [ ("date", Js.VString "2024-03-01T08:00:00.000Z");
                              ("weight", Js.VNumber 82) ] ]);
    ("chatSessions",
     Js.VArray [ Js.VObject [ ("id", Js.VString "chat_0");
                              ("title", Js.VString "Protein");
                              ("history", Js.VArray []);
                              ("createdAt", Js.VString "2024-03-01T08:05:00.000Z") ] ]);
    ("activeChatSessionId", Js.VString "chat_0") ].

(** A guest who also has a plan, his snapshot holding no [undefined]. *)
Definition guest_with_plan : Identity.UserData :=
  {| Identity.userProfile :=
       Js.VObject [ ("age", Js.VNumber 30); ("name", Js.VString "Sam") ];
     Identity.dailyLogs := Js.VArray [];
     Identity.workoutPlan :=
       Js.VObject [ ("description", Js.VString "Three days");
                    ("planName", Js.VString "Lean start");
                    ("weeklySchedule", Js.VArray []) ];
     Identity.weightLog := Js.VArray [];
     Identity.chatSessions := guest_chats (Js.VArray []);
     Identity.activeChatSessionId := Js.VString "chat_1" |}.


(** A store that cannot be read, and one that cannot be written. *)
Definition unreadable_backend : Gateway.Backend :=
  {| Gateway.db_ready := true; Gateway.read_failure := true;
     Gateway.write_failure := None |}.


End Samples.

(* ================================================================== *)
(** * Strings                                                          *)
(* ================================================================== *)

Module Text.

(** The white space [trim] removes, among ASCII characters: the space
    and the characters 9 to 13. *)
Definition is_whitespace (c : ascii) : bool :=
  let n := nat_of_ascii c in
  Nat.eqb n 32 || (Nat.leb 9 n && Nat.leb n 13).

Fixpoint trimStart (s : string) : string :=
  match s with
  | String c rest => if is_whitespace c then trimStart rest else s
  | EmptyString => EmptyString
  end.

Fixpoint trimEnd (s : string) : string :=
  match s with
  | String c rest =>
      match trimEnd rest with
      | EmptyString =>
          if is_whitespace c then EmptyString else String c EmptyString
      | kept => String c kept
      end
  | EmptyString => EmptyString
  end.

(** [s.trim()] *)
Definition trim (s : string) : string := trimEnd (trimStart s).

End Text.

(* ================================================================== *)
(** * Chat session management (App.tsx)                                *)
(* ================================================================== *)

Module Sessions.
Import Orchestrator.

(** [const activeChatSession = chatSessions.find(s => s.id ===
    activeChatSessionId)]; no session has the id [null]. *)
Definition activeChatSession (st : AppState) : option ChatSession :=
  match activeChatSessionId st with
  | Some active =>
      List.find (fun s => String.eqb (session_id s) active) (chatSessions st)
  | None => None
  end.

Definition set_activeChatSessionId (st : AppState) (a : option string) : AppState :=
  {| firebaseUser := firebaseUser st; userProfile := userProfile st;
     dailyLogs := dailyLogs st; workoutPlan := workoutPlan st;
     weightLog := weightLog st; chatSessions := chatSessions st;
     activeChatSessionId := a;
     isAiReplying := isAiReplying st |}.

Definition sessions_and_active (cs : list ChatSession) (a : option string)
    : PartialUserData :=
  {| p_userProfile := None; p_dailyLogs := None; p_workoutPlan := None;
     p_weightLog := None; p_chatSessions := Some cs;
     p_activeChatSessionId := Some a |}.

(** [handleCreateNewChat]; [now] is [Date.now()] in decimal, [created]
    is [new Date().toISOString()]. *)
Definition handleCreateNewChat (now created : string) (st : AppState)
    : AppState * list SaveRequest :=
  let newChat :=
    {| session_id := "chat_" +:+ now;
       session_title := "New Chat";
       history := [];
       createdAt := created |} in
  let newSessions := newChat :: chatSessions st in
  (set_activeChatSessionId (set_chatSessions st newSessions)
     (Some (session_id newChat)),
   saveData st (sessions_and_active newSessions (Some (session_id newChat)))).

(** [handleDeleteChat] *)
Definition handleDeleteChat (chatId : string) (st : AppState)
    : AppState * list SaveRequest :=
  let newSessions :=
    List.filter (fun c => negb (String.eqb (session_id c) chatId))
                (chatSessions st) in
  let newActiveId :=
    match activeChatSessionId st with
    | Some active =>
        if String.eqb active chatId then
          match newSessions with
          | first :: _ => Some (session_id first)
          | [] => None
          end
        else Some active
    | None => None
    end in
  (set_activeChatSessionId (set_chatSessions st newSessions) newActiveId,
   saveData st (sessions_and_active newSessions newActiveId)).

(** [handleSwitchChat] *)
Definition handleSwitchChat (sessionId : string) (st : AppState)
    : AppState * list SaveRequest :=
  (set_activeChatSessionId st (Some sessionId),
   saveData st {| p_userProfile := None; p_dailyLogs := None;
                  p_workoutPlan := None; p_weightLog := None;
                  p_chatSessions := None;
                  p_activeChatSessionId := Some (Some sessionId) |}).

(** A send that has started and has not settled: what its closure
    holds and what its loop has accumulated. *)
Record InFlight := {
  send_env : Chat.SendEnv;
  seen : AppState;              (* the state the handler was created in *)
  target : string;              (* [activeChatSessionId], as the closure has it *)
  placeholder_id : string;      (* [modelMessageId] *)
  received : string;            (* [finalResponse] *)
  grounding_so_far : option (list GroundingSource)  (* [latestGroundingChunks] *)
}.

(** What a send in flight does next, when the call it awaits settles. *)
Inductive Progress :=
  | Arrives (chunk : Chat.StreamChunk)
      (* one turn of the [for await] loop *)
  | Fails (error : Chat.Thrown)
      (* the request, the stream or the save of the final list throws:
         the [catch] clause, then [finally] *)
  | Completes.
      (* the stream is over and the save has returned: [finally] *)

(** [handleSendMessage] up to its first [await]: the state it leaves
    and, when it goes on to await the model, the send in flight. *)
Definition send_start (env : Chat.SendEnv) (message : string) (st : AppState)
    : AppState * option InFlight :=
  match userProfile st, activeChatSessionId st with
  | Some _, Some active =>
    if String.eqb active "" then (st, None)
    else
      let userMessage :=
        {| msg_id := Some ("user_" +:+ Chat.now_user env); role := user;
           parts := [ {| text := message |} ];
           timestamp := Chat.time_user env; grounding := None |} in
      let modelMessageId := "model_" +:+ Chat.now_model env in
      let placeholderMessage :=
        {| msg_id := Some modelMessageId; role := model;
           parts := [ {| text := "" |} ];
           timestamp := Chat.time_model env; grounding := None |} in
      let updatedSessions :=
        map (fun session =>
               if String.eqb (session_id session) active then
                 {| session_id := session_id session;
                    session_title :=
                      if (List.length (history session) =? 0)%nat then
                        String.substring 0 30 message +:+
                        (if (30 <? String.length message)%nat then "..." else "")
                      else session_title session;
                    history := history session ++ [userMessage; placeholderMessage];
                    createdAt := createdAt session |}
               else session)
            (chatSessions st) in
      let sending := set_chatSessions (set_isAiReplying st true) updatedSessions in
      match List.find (fun s => String.eqb (session_id s) active) updatedSessions with
      | None =>
          (Chat.final
             (Chat.on_error env st sending active modelMessageId
                (Chat.Error_ "Active session not found") [] []),
           None)
      | Some _ =>
          (sending,
           Some {| send_env := env; seen := st; target := active;
                   placeholder_id := modelMessageId;
                   received := ""; grounding_so_far := None |})
      end
  | _, _ => (st, None)
  end.

(** One step of the send in flight [p], on the state [current] that the
    handlers run since have left. *)
Definition send_step (p : InFlight) (step : Progress) (current : AppState)
    : AppState * option InFlight :=
  match step with
  | Arrives chunk =>
      let finalResponse := received p +:+ Chat.appended chunk in
      let latestGroundingChunks :=
        match Chat.chunk_grounding chunk with
        | Some newGrounding =>
            Some (map (fun c => {| uri := uri c; title := title c |}) newGrounding)
        | None => grounding_so_far p
        end in
      (set_chatSessions current
         (Chat.rewrite_message (target p) (placeholder_id p)
            (fun msg => Chat.with_response msg finalResponse latestGroundingChunks)
            (chatSessions current)),
       Some {| send_env := send_env p; seen := seen p; target := target p;
               placeholder_id := placeholder_id p;
               received := finalResponse;
               grounding_so_far := latestGroundingChunks |})
  | Fails error =>
      (Chat.final
         (Chat.on_error (send_env p) (seen p) current (target p)
            (placeholder_id p) error [] []),
       None)
  | Completes => (set_isAiReplying current false, None)
  end.

(** The steps of a send that runs from start to end with the answers
    of [env]. *)
Definition steps_of (env : Chat.SendEnv) (st : AppState) : list Progress :=
  match Chat.fetch env with
  | Chat.NoApiKey =>
      [ Fails (Chat.Error_
                 (Chat.handleGeminiError
                    (Chat.Error_ "API_KEY environment variable not set.")
                    "chat session")) ]
  | Chat.RequestFails e =>
      [ Fails (Chat.Error_ (Chat.handleGeminiError e "chat session")) ]
  | Chat.Streams chunks failure =>
      map Arrives chunks
      ++ [ match failure with
           | Some e => Fails e
           | None =>
               match firebaseUser st, Chat.save_failure env with
               | Some _, Some e => Fails e
               | _, _ => Completes
               end
           end ]
  end.

(** What happens at the chat window (components/Chatbot): its buttons
    and its form, and the progress of a send in flight. The window
    leaves the buttons enabled while a send is in flight; its form
    sends a message that is not blank, and only when [isAiReplying] is
    off. *)
Inductive ChatEvent :=
  | NewChat (now created : string)
  | DeleteChat (chatId : string)
  | SwitchChat (sessionId : string)
  | SendMessage (env : Chat.SendEnv) (message : string) (useGoogleSearch : bool)
  | Progresses (step : Progress).

(** The state of the application and the send in flight, if any. *)
Definition Surface : Type := AppState * option InFlight.

Definition handle (s : Surface) (ev : ChatEvent) : Surface :=
  match ev with
  | NewChat now created => (fst (handleCreateNewChat now created (fst s)), snd s)
  | DeleteChat chatId => (fst (handleDeleteChat chatId (fst s)), snd s)
  | SwitchChat sessionId => (fst (handleSwitchChat sessionId (fst s)), snd s)
  | SendMessage env message useGoogleSearch =>
      (* the form: [if (message.trim() && !isAiReplying)] *)
      if String.eqb (Text.trim message) "" || isAiReplying (fst s) then s
      else send_start env message (fst s)
  | Progresses step =>
      match snd s with
      | Some p => send_step p step (fst s)
      | None => s
      end
  end.

(** The chat list offers only the sessions it shows: a switch names a
    session of the current list. *)
Fixpoint offered (evs : list ChatEvent) (s : Surface) : Prop :=
  match evs with
  | [] => True
  | ev :: rest =>
      match ev with
      | SwitchChat sessionId => In sessionId (map session_id (chatSessions (fst s)))
      | _ => True
      end /\ offered rest (handle s ev)
  end.

(** The event is the failure of a send in flight whose closure holds a
    list without the chat that is active now. *)
Definition loses_active_chat (s : Surface) (ev : ChatEvent) : bool :=
  match ev, snd s, activeChatSessionId (fst s) with
  | Progresses (Fails _), Some p, Some active =>
      negb (existsb (String.eqb active) (map session_id (chatSessions (seen p))))
  | _, _, _ => false
  end.

(** No event of the run is such a failure. *)
Fixpoint keeps_active_chat (evs : list ChatEvent) (s : Surface) : Prop :=
  match evs with
  | [] => True
  | ev :: rest =>
      loses_active_chat s ev = false /\ keeps_active_chat rest (handle s ev)
  end.

(** The active id, when there is one, names a session of the list. *)
Definition active_is_listed (st : AppState) : Prop :=
  match activeChatSessionId st with
  | Some active => In active (map session_id (chatSessions st))
  | None => True
  end.

(** The title a first message gives its session. *)
Definition derived_title (message : string) : string :=
  String.substring 0 30 message +:+
  (if (30 <? String.length message)%nat then "..." else "").

(** The grounding of the last chunk that carried one. *)
Definition carried (chunks : list Chat.StreamChunk) : list (list GroundingSource) :=
  flat_map (fun c => match Chat.chunk_grounding c with
                     | Some g => [g]
                     | None => []
                     end) chunks.

Definition last_grounding (chunks : list Chat.StreamChunk)
    : option (list GroundingSource) :=
  List.last (map Some (carried chunks)) None.

End Sessions.

(* ================================================================== *)
(** * The daily logs as a whole                                        *)
(* ================================================================== *)

Module Logs.
Import Orchestrator Notions.

(** What the day's handlers do to the logs. *)
Inductive LogEvent :=
  | MealAdded (meal : Meal) (dateStr : string)
  | WeightLogged (w : number) (dateStr : string).

Definition apply_event (logs : list DailyLog) (ev : LogEvent) : list DailyLog :=
  match ev with
  | MealAdded meal dateStr => addMeal_logs meal dateStr logs
  | WeightLogged w dateStr => addWeightEntry_logs w dateStr logs
  end.

(** One log per date, and every log's total is the sum of its meals. *)
Definition well_kept (logs : list DailyLog) : Prop :=
  NoDup (map date logs) /\
  Forall (fun log => is_sum_of (totalNutrition log) (meals log)) logs.

(** Equal nutrient by nutrient. *)
Definition same_nutrition (a b : Nutrition) : Prop :=
  (calories a == calories b)%Q /\ (protein a == protein b)%Q /\
  (carbs a == carbs b)%Q /\ (fat a == fat b)%Q.

(** The logs after a run of events on a new profile, whose logs are
    empty. *)
Definition logs_after (evs : list LogEvent) : list DailyLog :=
  fold_left apply_event evs [].

(** [totalConsumed] of the dashboard: the same sum over the meals shown
    (components/Dashboard). *)
Definition totalConsumed (shown : list Meal) : Nutrition :=
  fold_left add_meal_nutrition shown zero_nutrition.

(** [mealsForDashboard] (App.tsx, renderContent). *)
Definition mealsForDashboard (selectedDate : string) (logs : list DailyLog) : list Meal :=
  match log_of selectedDate logs with
  | Some selectedLog => meals selectedLog
  | None => []
  end.

End Logs.

(* ================================================================== *)
(** * The rest of the session lifecycle (App.tsx)                      *)
(* ================================================================== *)

Module Lifecycle.
Import Js Gateway Identity.

(** [handleContinueAsGuest] *)
Definition handleContinueAsGuest (st : AuthState) : AuthState :=
  {| firebaseUser := firebaseUser st; isGuest := true;
     guestDataRef := guestDataRef st; snapshot := snapshot st;
     isUserDataLoading := isUserDataLoading st;
     isAuthLoading := isAuthLoading st |}.

(** [handleReset]: the six setters first, then, for a signed-in user,
    [saveData] with the six empty values. *)
Definition handleReset (b : Backend) (remote0 : store) (st : AuthState) : AuthResult :=
  let cleared :=
    {| firebaseUser := firebaseUser st; isGuest := isGuest st;
       guestDataRef := guestDataRef st; snapshot := empty_snapshot;
       isUserDataLoading := isUserDataLoading st;
       isAuthLoading := isAuthLoading st |} in
  match firebaseUser st with
  | Some uid =>
      match saveUserData b remote0 uid (toObject empty_snapshot) with
      | Returns remote1 =>
          {| state := cleared; remote := remote1;
             writes := [ (uid, toObject empty_snapshot) ]; escaped := None |}
      | Throws message =>
          {| state := cleared; remote := remote0;
             writes := [ (uid, toObject empty_snapshot) ];
             escaped := Some message |}
      end
  | None =>
      {| state := cleared; remote := remote0; writes := []; escaped := None |}
  end.

(** What [renderContent] shows. *)
Inductive Screen :=
  | ConfigErrorScreen          (* <FirebaseConfigError /> *)
  | LoadingScreen              (* <Loader text="Loading..." /> *)
  | LoginScreen                (* <Login ... /> *)
  | LoadingProfileScreen       (* <Loader text="Loading profile..." /> *)
  | ProfileSetupScreen         (* <ProfileSetup ... /> *)
  | DashboardScreen.           (* <Dashboard ... /> and <Chatbot ... /> *)

(** [renderContent] *)
Definition renderContent (isFirebaseConfigValid : bool) (st : AuthState) : Screen :=
  if negb isFirebaseConfigValid then ConfigErrorScreen
  else if isAuthLoading st then LoadingScreen
  else if negb (bool_decide (is_Some (firebaseUser st))) && negb (isGuest st)
       then LoginScreen
  else if bool_decide (is_Some (firebaseUser st)) && isUserDataLoading st
       then LoadingProfileScreen
  else if negb (truthy (userProfile (snapshot st))) then ProfileSetupScreen
  else DashboardScreen.

End Lifecycle.

(* ================================================================== *)
(** * Profile creation and the plan handlers (App.tsx)                 *)
(* ================================================================== *)

Module Plans.
Import Orchestrator.

(** How [generateWorkoutPlan] answers the call: it throws the [Error]
    made by [handleGeminiError], or returns the plan. *)
Inductive PlanOutcome :=
  | PlanThrows (message : string)
  | PlanReturns (plan : WorkoutPlan).

Record PlanEnv := {
  generated : PlanOutcome;
  plan_save_failure : option Chat.Thrown   (* saveUserData throws this, when set *)
}.

(** The two pieces of React state the plan handlers also set. *)
Record PlanUi := {
  isGeneratingPlan : bool;
  dashboardError : option string
}.

Record PlanResult := {
  after : AppState;
  ui : PlanUi;
  plan_saves : list SaveRequest;           (* calls of saveUserData *)
  rethrown : option Chat.Thrown            (* thrown back at the caller *)
}.

(** [await saveData(data)] *)
Definition await_save (env : PlanEnv) (st : AppState) (data : PartialUserData)
    : list SaveRequest * option Chat.Thrown :=
  match saveData st data with
  | [] => ([], None)
  | reqs => (reqs, plan_save_failure env)
  end.

(** [handleProfileCreate] *)
Definition handleProfileCreate (env : PlanEnv) (profile : UserProfile)
    (st : AppState) (u : PlanUi) : PlanResult :=
  let done := {| isGeneratingPlan := false; dashboardError := dashboardError u |} in
  match generated env with
  | PlanThrows message =>
      {| after := st; ui := done; plan_saves := [];
         rethrown := Some (Chat.Error_ message) |}
  | PlanReturns plan =>
      let newWeightLog :=
        [ {| entry_date := registrationDate profile;
             entry_weight := weight profile |} ] in
      let userDataToSave :=
        {| p_userProfile := Some (Some profile);
           p_dailyLogs := Some [];
           p_workoutPlan := Some (Some plan);
           p_weightLog := Some newWeightLog;
           p_chatSessions := Some [];
           p_activeChatSessionId := Some None |} in
      match await_save env st userDataToSave with
      | (saves, Some e) =>
          {| after := st; ui := done; plan_saves := saves; rethrown := Some e |}
      | (saves, None) =>
          {| after := {| firebaseUser := firebaseUser st;
                         userProfile := Some profile;
                         dailyLogs := [];
                         workoutPlan := Some plan;
                         weightLog := newWeightLog;
                         chatSessions := [];
                         activeChatSessionId := None;
                         isAiReplying := isAiReplying st |};
             ui := done; plan_saves := saves; rethrown := None |}
      end
  end.

Definition set_workoutPlan (st : AppState) (p : option WorkoutPlan) : AppState :=
  {| firebaseUser := firebaseUser st; userProfile := userProfile st;
     dailyLogs := dailyLogs st; workoutPlan := p;
     weightLog := weightLog st; chatSessions := chatSessions st;
     activeChatSessionId := activeChatSessionId st;
     isAiReplying := isAiReplying st |}.

Definition only_workoutPlan (p : WorkoutPlan) : PartialUserData :=
  {| p_userProfile := None; p_dailyLogs := None; p_workoutPlan := Some (Some p);
     p_weightLog := None; p_chatSessions := None;
     p_activeChatSessionId := None |}.

(** [handleRegeneratePlan] *)
Definition handleRegeneratePlan (env : PlanEnv) (st : AppState) (u : PlanUi)
    : PlanResult :=
  match userProfile st with
  | None => {| after := st; ui := u; plan_saves := []; rethrown := None |}
  | Some _ =>
      let shown (e : Chat.Thrown) :=
        match e with
        | Chat.SyntaxError_ m | Chat.Error_ m => m
        | Chat.NotAnError => "An unexpected error occurred while updating the plan."
        end in
      match generated env with
      | PlanThrows message =>
          {| after := st;
             ui := {| isGeneratingPlan := false; dashboardError := Some message |};
             plan_saves := []; rethrown := None |}
      | PlanReturns plan =>
          match await_save env st (only_workoutPlan plan) with
          | (saves, Some e) =>
              {| after := set_workoutPlan st (Some plan);
                 ui := {| isGeneratingPlan := false;
                          dashboardError := Some (shown e) |};
                 plan_saves := saves; rethrown := None |}
          | (saves, None) =>
              {| after := set_workoutPlan st (Some plan);
                 ui := {| isGeneratingPlan := false; dashboardError := None |};
                 plan_saves := saves; rethrown := None |}
          end
      end
  end.

(** [handleUpdateWorkoutPlan] *)
Definition handleUpdateWorkoutPlan (updatedPlan : WorkoutPlan) (st : AppState)
    : AppState * list SaveRequest :=
  (set_workoutPlan st (Some updatedPlan), saveData st (only_workoutPlan updatedPlan)).

End Plans.

(* ================================================================== *)
(** * Meal analysis, plan generation and exercise images
      (services/geminiService)                                         *)
(* ================================================================== *)

Module Gemini.
Import Chat Text.

(** The messages [handleGeminiError] chooses from. *)
Definition food_only_message : string :=
  "Only food-related images can be used here. The AI could not analyze the provided image.".
Definition blocked_message : string :=
  "The AI model did not return a response, which may be due to the safety policy. Please try a different query or image.".
Definition key_missing_message : string :=
  "Your Gemini API key is not configured. Please follow the instructions in the README.md file to set up your .env.local file.".
Definition invalid_request_message (context : string) : string :=
  "The request to the AI service was invalid during " +:+ context
  +:+ ". This might be an issue with the prompt or data format.".
Definition key_rejected_message : string :=
  "Your Gemini API key is invalid or lacks the necessary permissions. Please check your key and try again.".
Definition unexpected_message (context : string) : string :=
  "An unexpected error occurred with the Gemini API during " +:+ context
  +:+ ". Please try again later.".

Definition messages (context : string) : list string :=
  [ food_only_message; blocked_message; key_missing_message;
    invalid_request_message context; key_rejected_message;
    unexpected_message context ].

(** What happens inside the [try] of [analyzeMealImage] and
    [generateWorkoutPlan] up to [response.text]: [getApiKey] throws, the
    call of [generateContent] throws, or the answer arrives. Its [text]
    is a string, or [undefined] ([None]) when the answer carries no text
    part, as an answer the model was stopped from giving does. *)
Inductive Generation :=
  | NoApiKey
  | GenerationThrows (e : Thrown)
  | Responds (response_text : option string).

(** The TypeError [response.text.trim()] throws on [undefined], with
    the message V8 gives it. *)
Definition trim_of_undefined : Thrown :=
  Error_ "Cannot read properties of undefined (reading 'trim')".

Definition empty_response : Thrown :=
  Error_ "Received an empty response from the AI. The content may have been blocked due to safety settings.".

Definition no_api_key : Thrown :=
  Error_ "API_KEY environment variable not set.".

Record MealAnalysisResult := {
  foods : list FoodItem;
  analysed_totalNutrition : Nutrition
}.

(** The plan as the model's JSON has it (workoutPlanSchema): a workout
    carries [exercise], optional [notes] and [details]. *)
Record RawWorkout := {
  raw_exercise : string;
  raw_notes : option string;
  raw_details : list WorkoutDetail
}.

Record RawSession := {
  raw_session_name : string;
  raw_workouts : list RawWorkout
}.

Record RawDaily := {
  raw_day : string;
  raw_focus : string;
  raw_sessions : list RawSession
}.

Record RawPlan := {
  raw_planName : string;
  raw_description : string;
  raw_weeklySchedule : list RawDaily
}.

(** ** fetchExerciseImage *)

Record SearchItem := {
  link : option string
}.

(** The answer of the Custom Search request. *)
Inductive SearchAnswer :=
  | FetchThrows                               (* fetch or response.json() throws *)
  | NotOk                                     (* response.ok is false *)
  | Found (found_items : option (list SearchItem)).   (* data.items *)

Definition toLowerCase_ascii (c : ascii) : ascii :=
  let n := nat_of_ascii c in
  if Nat.leb 65 n && Nat.leb n 90 then ascii_of_nat (n + 32) else c.

Fixpoint toLowerCase (s : string) : string :=
  match s with
  | String c rest => String (toLowerCase_ascii c) (toLowerCase rest)
  | EmptyString => EmptyString
  end.

Definition startsWith (s p : string) : bool := String.prefix p s.

Definition endsWith (s suffix : string) : bool :=
  let n := String.length s in
  let m := String.length suffix in
  Nat.leb m n && String.eqb (substring (n - m) m s) suffix.

(** [/\.(jpg|jpeg|png|gif|webp)$/i.test(l)] *)
Definition is_image_name (l : string) : bool :=
  existsb (endsWith (toLowerCase l)) [".jpg"; ".jpeg"; ".png"; ".gif"; ".webp"].

(** The test of the loop over [data.items]. *)
Definition suitable (item : SearchItem) : bool :=
  match link item with
  | Some l => negb (String.eqb l "") && startsWith l "https://" && is_image_name l
  | None => false
  end.

(** The loop over [data.items]: the first suitable item, when there is one. *)
Fixpoint first_suitable (found : list SearchItem) : option SearchItem :=
  match found with
  | item :: rest => if suitable item then Some item else first_suitable rest
  | [] => None
  end.

(** [!key || key.startsWith('YOUR_')] *)
Definition isInvalidKey (key : option string) : bool :=
  match key with
  | Some k => String.eqb k "" || startsWith k "YOUR_"
  | None => true
  end.

(** [exerciseName.split('(')[0]] *)
Fixpoint before_paren (s : string) : string :=
  match s with
  | String c rest =>
      if Ascii.eqb c "("%char then EmptyString else String c (before_paren rest)
  | EmptyString => EmptyString
  end.

Definition query_of (exerciseName : string) : string :=
  trim (before_paren exerciseName) +:+ " exercise demonstration".

Section Services.

(** [process.env.GOOGLE_SEARCH_API_KEY], [process.env.GOOGLE_CSE_ID] and
    the search service, asked with a query. *)
Variable apiKey cseId : option string.
Variable search : string -> SearchAnswer.

(** [fetchExerciseImage]: the result and the queries it sent. *)
Definition fetchExerciseImage (exerciseName : string)
    : option string * list string :=
  if isInvalidKey apiKey || isInvalidKey cseId then (None, [])
  else
    let query := query_of exerciseName in
    match search query with
    | FetchThrows | NotOk => (None, [query])
    | Found None | Found (Some []) => (None, [query])
    | Found (Some (item0 :: rest)) =>
        match first_suitable (item0 :: rest) with
        | Some item => (link item, [query])
        | None => (link item0, [query])
        end
    end.

(** [JSON.parse] of the two answers: the value, or the message of the
    [SyntaxError]. An answer that parses has the shape of its schema. *)
Variable JSON_parse_meal : string -> MealAnalysisResult + string.
Variable JSON_parse_plan : string -> RawPlan + string.

(** [analyzeMealImage]: the result, or the message of the [Error] thrown. *)
Definition analyzeMealImage (g : Generation) : MealAnalysisResult + string :=
  let context := "meal analysis" in
  match g with
  | NoApiKey => inr (handleGeminiError no_api_key context)
  | GenerationThrows e => inr (handleGeminiError e context)
  | Responds None => inr (handleGeminiError trim_of_undefined context)
  | Responds (Some response_text) =>
      let jsonText := trim response_text in
      if String.eqb jsonText "" then
        inr (handleGeminiError empty_response context)
      else
        match JSON_parse_meal jsonText with
        | inl result => inl result
        | inr m => inr (handleGeminiError (SyntaxError_ m) context)
        end
  end.

Definition find_detail (wanted : string) (ds : list WorkoutDetail)
    : option WorkoutDetail :=
  List.find (fun d => String.eqb (detail_name d) wanted) ds.

(** The two passes of [generateWorkoutPlan] over one workout: sets and
    reps are taken out of the details, then the image is looked up. *)
Definition finish_workout (w : RawWorkout) : Workout :=
  let setsDetail := find_detail "Sets" (raw_details w) in
  let repsDetail := find_detail "Reps" (raw_details w) in
  {| exercise := raw_exercise w;
     sets := match setsDetail with Some d => detail_value d | None => "N/A" end;
     reps := match repsDetail with Some d => detail_value d | None => "N/A" end;
     notes := raw_notes w;
     details :=
       List.filter
         (fun d => negb (String.eqb (detail_name d) "Sets")
                   && negb (String.eqb (detail_name d) "Reps"))
         (raw_details w);
     workout_imageUrl := fst (fetchExerciseImage (raw_exercise w)) |}.

Definition finish_session (s : RawSession) : WorkoutSession :=
  {| session_name := raw_session_name s;
     workouts := List.map finish_workout (raw_workouts s) |}.

Definition finish_daily (d : RawDaily) : DailyWorkout :=
  {| day := raw_day d; focus := raw_focus d;
     sessions := List.map finish_session (raw_sessions d) |}.

Definition finish_plan (p : RawPlan) : WorkoutPlan :=
  {| planName := raw_planName p; description := raw_description p;
     weeklySchedule := List.map finish_daily (raw_weeklySchedule p) |}.

(** [generateWorkoutPlan]: the plan, or the message of the [Error]
    thrown. The profile goes into the prompt only. *)
Definition generateWorkoutPlan (g : Generation) : WorkoutPlan + string :=
  let context := "workout plan generation" in
  match g with
  | NoApiKey => inr (handleGeminiError no_api_key context)
  | GenerationThrows e => inr (handleGeminiError e context)
  | Responds None => inr (handleGeminiError trim_of_undefined context)
  | Responds (Some response_text) =>
      let jsonText := trim response_text in
      if String.eqb jsonText "" then
        inr (handleGeminiError empty_response context)
      else
        match JSON_parse_plan jsonText with
        | inl plan => inl (finish_plan plan)
        | inr m => inr (handleGeminiError (SyntaxError_ m) context)
        end
  end.

End Services.





Definition sample_search (query : string) : SearchAnswer :=
  if String.eqb query "Barbell Squat exercise demonstration" then
    Found (Some [ {| link := Some "http://example.org/squat.jpg" |};
                  {| link := None |};
                  {| link := Some "https://example.org/squat.html" |};
                  {| link := Some "https://example.org/Squat.JPG" |} ])
  else Found (Some [ {| link := Some "http://example.org/run" |} ]).

End Gemini.

(* ================================================================== *)
(** * Image resizing (utils/helpers) and the weight prediction
      (components/WeightTracker)                                       *)
(* ================================================================== *)

Module Profiles.

(** A profile with another goal, or another sex: [{...p, goal: g}]. *)
Definition with_goal (p : UserProfile) (g : Goal) : UserProfile :=
  {| name := name p; age := age p; sex := sex p; height := height p;
     weight := weight p; activityLevel := activityLevel p; goal := g;
     targetWeight := targetWeight p; mealsPerDay := mealsPerDay p;
     exercisePreferences := exercisePreferences p;
     registrationDate := registrationDate p;
     exerciseFrequency := exerciseFrequency p;
     exerciseTiming := exerciseTiming p |}.

Definition with_sex (p : UserProfile) (s : Sex) : UserProfile :=
  {| name := name p; age := age p; sex := s; height := height p;
     weight := weight p; activityLevel := activityLevel p; goal := goal p;
     targetWeight := targetWeight p; mealsPerDay := mealsPerDay p;
     exercisePreferences := exercisePreferences p;
     registrationDate := registrationDate p;
     exerciseFrequency := exerciseFrequency p;
     exerciseTiming := exerciseTiming p |}.

End Profiles.

Module Images.
Import Helpers.

(** The size [resizeImage] gives the canvas, from the size of the
    loaded image and the two bounds. *)
Definition resized_dimensions (width height maxWidth maxHeight : number)
    : number * number :=
  if Qlt_le_dec height width then
    if Qlt_le_dec maxWidth width then
      (maxWidth, inject_Z (Math_round (height * (maxWidth / width))))
    else (width, height)
  else
    if Qlt_le_dec maxHeight height then
      (inject_Z (Math_round (width * (maxHeight / height))), maxHeight)
    else (width, height).

End Images.

Module Tracker.
Import Helpers.

Inductive TimeUnit := in_weeks | in_months | in_years.

(** [`${rounded} ${unit}`], the unit's word in the singular when
    [rounded === 1]. *)
Record TimeEstimate := {
  amount : Z;
  unit : TimeUnit;
  singular : bool
}.

Definition estimate (rounded : Z) (u : TimeUnit) : TimeEstimate :=
  {| amount := rounded; unit := u; singular := (rounded =? 1)%Z |}.

(** The value of [predictionData]. *)
Inductive Prediction :=
  | NoPrediction                                  (* null *)
  | Info                                          (* weightTrackerGoalReached *)
  | Warning                                       (* weightTrackerPaceWarning *)
  | Success (rate : number) (timeEstimate : TimeEstimate)
  | SuccessNaN.          (* status 'success', rate NaN, estimate "NaN years" *)

Definition Goal_eqb (a b : Goal) : bool :=
  match a, b with
  | Lose, Lose | Maintain, Maintain | Gain, Gain => true
  | _, _ => false
  end.

(** [x < y] and [x >= y] on numbers. *)
Definition Qlt_bool (x y : number) : bool := negb (Qle_bool y x).
Definition Qge_bool (x y : number) : bool := Qle_bool y x.

Section Prediction.

(** [new Date(s).getTime()]: milliseconds, or [None] for NaN. *)
Variable Date_parse : string -> option Z.

(** [predictionData] of WeightTracker. *)
Definition predictionData (userProfile : UserProfile)
    (weightLog : list WeightEntry) : Prediction :=
  if Goal_eqb (goal userProfile) Maintain || (length weightLog <? 5)%nat
  then NoPrediction
  else
    let remainingWeight := (targetWeight userProfile - weight userProfile)%Q in
    if (Goal_eqb (goal userProfile) Lose && Qge_bool remainingWeight 0)
       || (Goal_eqb (goal userProfile) Gain && Qle_bool remainingWeight 0)
    then Info
    else
      let relevantEntries := skipn (length weightLog - 5) weightLog in
      match relevantEntries with
      | [] => NoPrediction             (* not reached: five entries at least *)
      | firstEntry :: _ =>
          let lastEntry := List.last relevantEntries firstEntry in
          let weightChange := (entry_weight lastEntry - entry_weight firstEntry)%Q in
          match Date_parse (entry_date lastEntry),
                Date_parse (entry_date firstEntry) with
          | Some lastTime, Some firstTime =>
              let timeDiffMs := inject_Z (lastTime - firstTime) in
              let timeDiffDays := (timeDiffMs / inject_Z (1000 * 60 * 60 * 24))%Q in
              if Qlt_bool timeDiffDays 7 then NoPrediction
              else
                let weeklyRate := ((weightChange / timeDiffDays) * 7)%Q in
                if Qlt_bool (Qabs weeklyRate) (1 # 100) then Warning
                else if (Goal_eqb (goal userProfile) Lose && Qge_bool weeklyRate 0)
                        || (Goal_eqb (goal userProfile) Gain && Qle_bool weeklyRate 0)
                then Warning
                else
                  let weeksNeeded := Qabs (remainingWeight / weeklyRate) in
                  Success weeklyRate
                    (if Qlt_bool weeksNeeded 8 then
                       estimate (Math_round weeksNeeded) in_weeks
                     else if Qlt_bool weeksNeeded 52 then
                       estimate (Math_round (weeksNeeded / (4345 # 1000))) in_months
                     else
                       estimate (Math_round (weeksNeeded / 52)) in_years)
          | _, _ => SuccessNaN
          end
      end.

End Prediction.

Definition sample_weightLog : list WeightEntry :=
  [ {| entry_date := "2024-02-01"; entry_weight := 75 |};
    {| entry_date := "2024-03-03"; entry_weight := 71 |};
    {| entry_date := "2024-03-04"; entry_weight := 71 |};
    {| entry_date := "2024-03-06"; entry_weight := 72 |};
    {| entry_date := "2024-03-08"; entry_weight := 70 |};
    {| entry_date := "2024-03-10"; entry_weight := 70 |} ].

End Tracker.

(* ================================================================== *)
(** * Editing the plan (components/WorkoutPlan)                        *)
(* ================================================================== *)

Module PlanEditor.

(** The [field] argument of [handleWorkoutChange]: 'sets' | 'reps'. *)
Inductive EditedField := edit_sets | edit_reps.

(** [targetWorkout[field] = value] *)
Definition set_field (field : EditedField) (value : string) (w : Workout)
    : Workout :=
  match field with
  | edit_sets =>
      {| exercise := exercise w; sets := value; reps := reps w;
         notes := notes w; details := details w;
         workout_imageUrl := workout_imageUrl w |}
  | edit_reps =>
      {| exercise := exercise w; sets := sets w; reps := value;
         notes := notes w; details := details w;
         workout_imageUrl := workout_imageUrl w |}
  end.


(** [plan.weeklySchedule[dailyIndex].sessions[sessionIndex]
    .workouts[workoutIndex]]; [None] where an index is out of range. *)
Definition workout_at (plan : WorkoutPlan)
    (dailyIndex sessionIndex workoutIndex : nat) : option Workout :=
  match weeklySchedule plan !! dailyIndex with
  | Some daily =>
      match sessions daily !! sessionIndex with
      | Some session => workouts session !! workoutIndex
      | None => None
      end
  | None => None
  end.


(** The deep copy of the plan with the workout at the three indices
    changed by [f]. *)
Definition alter_workout (f : Workout -> Workout)
    (dailyIndex sessionIndex workoutIndex : nat) (plan : WorkoutPlan)
    : WorkoutPlan :=
  {| planName := planName plan;
     description := description plan;
     weeklySchedule :=
       alter
         (fun daily =>
            {| day := day daily; focus := focus daily;
               sessions :=
                 alter
                   (fun session =>
                      {| session_name := session_name session;
                         workouts := alter f workoutIndex (workouts session) |})
                   sessionIndex (sessions daily) |})
         dailyIndex (weeklySchedule plan) |}.

(** [handleWorkoutChange]: the plan handed to [onPlanUpdate]; [None]
    when an index is out of range, where the handler throws a TypeError
    before it calls [onPlanUpdate]. *)
Definition handleWorkoutChange (plan : WorkoutPlan)
    (dailyIndex sessionIndex workoutIndex : nat)
    (field : EditedField) (value : string) : option WorkoutPlan :=
  match workout_at plan dailyIndex sessionIndex workoutIndex with
  | Some _ =>
      Some (alter_workout (set_field field value)
              dailyIndex sessionIndex workoutIndex plan)
  | None => None
  end.



End PlanEditor.

(* ================================================================== *)
(** * Properties of the calculators                                    *)
(* ================================================================== *)

Module HelpersFacts.
Import Helpers.

Lemma Math_round_comp (x y : Q) : (x == y)%Q -> Math_round x = Math_round y.
Proof.
  intros E. unfold Math_round. apply Qfloor_comp. now rewrite E.
Qed.

(** [Math.round] answers within one half of its argument. *)
Lemma Math_round_bounds (x : Q) :
  (x - (1 # 2) < inject_Z (Math_round x) /\ inject_Z (Math_round x) <= x + (1 # 2))%Q.
Proof.
  unfold Math_round. split.
  - pose proof (Qlt_floor (x + (1 # 2))) as L.
    rewrite inject_Z_plus in L. change (inject_Z 1) with 1%Q in L. lra.
  - apply Qfloor_le.
Qed.

Lemma Math_round_nearest (x : Q) : nearest_integer x (Math_round x).
Proof.
  intros j. destruct (Math_round_bounds x) as [Lo Hi].
  assert (Near : (Qabs (x - inject_Z (Math_round x)) <= 1 # 2)%Q).
  { apply Qabs_Qle_condition. split; lra. }
  destruct (Z.eq_dec j (Math_round x)) as [-> | Ne]; [apply Qle_refl |].
  eapply Qle_trans; [exact Near |].
  destruct (Z_lt_le_dec j (Math_round x)) as [Lt | Ge].
  - assert (J : (inject_Z j + 1 <= inject_Z (Math_round x))%Q).
    { change 1%Q with (inject_Z 1). rewrite <- inject_Z_plus, <- Zle_Qle. lia. }
    eapply Qle_trans; [| apply Qle_Qabs]. lra.
  - assert (J : (inject_Z (Math_round x) + 1 <= inject_Z j)%Q).
    { change 1%Q with (inject_Z 1). rewrite <- inject_Z_plus, <- Zle_Qle. lia. }
    rewrite <- Qabs_opp. eapply Qle_trans; [| apply Qle_Qabs]. lra.
Qed.

Lemma bmr_raw_spec (p : UserProfile) :
  (match sex p with
   | male => 10 * weight p + (625 # 100) * (height p * (254 # 100)) - 5 * age p + 5
   | female => 10 * weight p + (625 # 100) * (height p * (254 # 100)) - 5 * age p - 161
   end == mifflin_st_jeor p)%Q.
Proof.
  unfold mifflin_st_jeor. destruct (sex p); lra.
Qed.

(** C10. For every profile, [calculateGoals] answers as [bmr] the
    Mifflin-St Jeor value (10*weight + 6.25*(height*2.54) - 5*age, plus 5
    for male, minus 161 otherwise) and as [targetCalories] the TDEE (that
    value times the activity multiplier) minus 500 for lose, plus 500 for
    gain, unchanged for maintain, each rounded by [Math.round], which
    answers an integer nearest to its argument. *)
Theorem calculateGoals_formulas (p : UserProfile) :
  bmr (calculateGoals p) = inject_Z (Math_round (mifflin_st_jeor p)) /\
  targetCalories (calculateGoals p) = inject_Z (Math_round (target_of p)) /\
  (tdee_of p == mifflin_st_jeor p * activity_value (activityLevel p))%Q /\
  (target_of p ==
     match goal p with
     | Lose => tdee_of p - 500
     | Gain => tdee_of p + 500
     | Maintain => tdee_of p
     end)%Q /\
  nearest_integer (mifflin_st_jeor p) (Math_round (mifflin_st_jeor p)) /\
  nearest_integer (target_of p) (Math_round (target_of p)).
Proof.
  pose proof (bmr_raw_spec p) as B.
  split; [| split; [| split; [| split; [| split]]]].
  - unfold calculateGoals; cbn [bmr]. f_equal. apply Math_round_comp.
    destruct (sex p); exact B.
  - unfold calculateGoals; cbn [targetCalories]. f_equal. apply Math_round_comp.
    unfold target_of, tdee_of.
    destruct (sex p), (goal p); rewrite <- B; reflexivity.
  - reflexivity.
  - unfold target_of. destruct (goal p); reflexivity.
  - apply Math_round_nearest.
  - apply Math_round_nearest.
Qed.

(** A 30-year-old man of 70 in (177.8 cm) and 80 kg, moderately active,
    who wants to lose weight: BMR 1766.25, TDEE 2737.6875. *)
Example calculateGoals_example :
  let p := {| name := "Sam"; age := 30; sex := male; height := 70; weight := 80;
              activityLevel := ModeratelyActive; goal := Lose;
              targetWeight := 75; mealsPerDay := 3; exercisePreferences := "";
              registrationDate := "2024-03-10T08:00:00.000Z";
              exerciseFrequency := once; exerciseTiming := [morning] |} in
  bmr (calculateGoals p) = 1766%Q /\ targetCalories (calculateGoals p) = 2238%Q.
Proof. vm_compute. split; reflexivity. Qed.

End HelpersFacts.

(* ================================================================== *)
(** * Properties of the mutation handlers                              *)
(* ================================================================== *)

Module OrchestratorFacts.
Import Orchestrator Notions.

Section Lists.
Context {A : Type} (p : A -> bool).

Lemma findIndex_Some (l : list A) (i : nat) :
  findIndex p l = Some i ->
  exists x, l !! i = Some x /\ p x = true /\ List.find p l = Some x.
Proof.
  revert i. induction l as [| a l IH]; intros i; simpl; [discriminate |].
  destruct (p a) eqn:Pa.
  - intros [= <-]. exists a. auto.
  - destruct (findIndex p l) as [j |] eqn:F; simpl; [| discriminate].
    intros [= <-]. destruct (IH j eq_refl) as (x & L & Px & Fx).
    exists x. auto.
Qed.

Lemma findIndex_None (l : list A) :
  findIndex p l = None -> List.find p l = None.
Proof.
  induction l as [| a l IH]; simpl; [reflexivity |].
  destruct (p a); [discriminate |].
  destruct (findIndex p l); simpl; [discriminate | auto].
Qed.

(** Writing at the index [findIndex] answered makes the written element
    the first match, when it matches. *)
Lemma find_insert_findIndex (l : list A) (i : nat) (y : A) :
  findIndex p l = Some i -> p y = true ->
  List.find p (<[i := y]> l) = Some y.
Proof.
  revert i. induction l as [| a l IH]; intros i; simpl; [discriminate |].
  destruct (p a) eqn:Pa.
  - intros [= <-] Py. simpl. now rewrite Py.
  - destruct (findIndex p l) as [j |] eqn:F; simpl; [| discriminate].
    intros [= <-] Py. simpl. rewrite Pa. now apply IH.
Qed.

Lemma find_app_None (l : list A) (y : A) :
  List.find p l = None -> p y = true -> List.find p (l ++ [y]) = Some y.
Proof.
  induction l as [| a l IH]; simpl; intros F Py.
  - now rewrite Py.
  - destruct (p a); [discriminate | auto].
Qed.

(** Replacing an element a filter rejects by another it rejects does not
    show through the filter. *)
Lemma filter_insert_rejected (q : A -> bool) (l : list A) (i : nat) (x y : A) :
  l !! i = Some x -> q x = false -> q y = false ->
  List.filter q (<[i := y]> l) = List.filter q l.
Proof.
  revert i. induction l as [| a l IH]; intros [| i]; simpl; try discriminate.
  - intros [= ->] Qx Qy. now rewrite Qx, Qy.
  - intros L Qx Qy. now rewrite (IH i L Qx Qy).
Qed.

End Lists.

(** ** addMeal *)

Lemma fold_add_meal_nutrition (ms : list Meal) (acc : Nutrition) :
  let n := fold_left add_meal_nutrition ms acc in
  (calories n == calories acc + total_of calories ms)%Q /\
  (protein n == protein acc + total_of protein ms)%Q /\
  (carbs n == carbs acc + total_of carbs ms)%Q /\
  (fat n == fat acc + total_of fat ms)%Q.
Proof.
  revert acc. induction ms as [| m ms IH]; intros acc; simpl.
  - repeat split; ring.
  - destruct (IH (add_meal_nutrition acc m)) as (C & P & K & F).
    simpl in C, P, K, F.
    repeat split; [rewrite C | rewrite P | rewrite K | rewrite F]; ring.
Qed.

Lemma fold_is_sum_of (ms : list Meal) :
  is_sum_of (fold_left add_meal_nutrition ms zero_nutrition) ms.
Proof.
  destruct (fold_add_meal_nutrition ms zero_nutrition) as (C & P & K & F).
  simpl in C, P, K, F.
  repeat split; [rewrite C | rewrite P | rewrite K | rewrite F]; ring.
Qed.

(** C4. After [addMeal(meal, date)] the log of that date exists, its meals
    are the ones it had (none, if there was no log) followed by the new
    meal, its [totalNutrition] is the element-wise sum of the
    [totalNutrition] of its meals, and the logs of all other dates are
    the same as before. *)
Theorem addMeal_reestablishes_aggregate (meal : Meal) (d : string) (st : AppState) :
  let st' := fst (addMeal meal d st) in
  (exists log',
     log_of d (dailyLogs st') = Some log' /\
     meals log' =
       match log_of d (dailyLogs st) with
       | Some log => meals log
       | None => []
       end ++ [meal] /\
     is_sum_of (totalNutrition log') (meals log')) /\
  other_logs d (dailyLogs st') = other_logs d (dailyLogs st).
Proof.
  simpl. unfold addMeal_logs, log_of, other_logs.
  destruct (findIndex (fun log => String.eqb (date log) d) (dailyLogs st))
    as [i |] eqn:F.
  - destruct (findIndex_Some _ _ _ F) as (log & L & D & Fd).
    rewrite L, Fd. split.
    + eexists. split; [| split].
      * apply find_insert_findIndex; [exact F | exact D].
      * reflexivity.
      * apply fold_is_sum_of.
    + eapply filter_insert_rejected; [exact L | |]; simpl; now rewrite D.
  - rewrite (findIndex_None _ _ F). split.
    + eexists. split; [| split].
      * apply find_app_None; [now apply findIndex_None |].
        simpl. apply String.eqb_refl.
      * reflexivity.
      * simpl. repeat split; simpl; ring.
    + rewrite List.filter_app. simpl. rewrite String.eqb_refl. simpl.
      apply app_nil_r.
Qed.

(** Two meals on one day: 300 + 250 kcal, 54 + 12.5 g of carbohydrate. *)
Example addMeal_twice :
  let st := Samples.signed_in Samples.new_chat in
  let st1 := fst (addMeal Samples.oatmeal "2024-03-10" st) in
  let st2 := fst (addMeal Samples.salad "2024-03-10" st1) in
  option_map (fun log => (List.length (meals log), calories (totalNutrition log)))
    (log_of "2024-03-10" (dailyLogs st2)) = Some (2%nat, 0 + 300 + 250)%Q /\
  snd (addMeal Samples.oatmeal "2024-03-10" st) =
    [ {| save_uid := "uid-1";
         save_data := {| p_userProfile := None;
                         p_dailyLogs := Some (dailyLogs st1);
                         p_workoutPlan := None; p_weightLog := None;
                         p_chatSessions := None;
                         p_activeChatSessionId := None |} |} ].
Proof. split; reflexivity. Qed.

(** ** addWeightEntry *)

Section WeightEntries.
Variable Date_parse : string -> option Z.
Variable toISOString : Z -> string.

Let valid (e : WeightEntry) : Prop := is_Some (Date_parse (entry_date e)).
Let later := not_later Date_parse.
Let insert := insert_entry Date_parse.
Let sort := sort_entries Date_parse.

Lemma insert_entry_perm (x : WeightEntry) (l : list WeightEntry) :
  Permutation (insert x l) (x :: l).
Proof.
  induction l as [| y l IH]; simpl; [reflexivity |].
  destruct (compare_entries Date_parse x y <=? 0)%Z; [reflexivity |].
  fold (insert x l). rewrite IH. apply perm_swap.
Qed.

Lemma sort_entries_perm (l : list WeightEntry) : Permutation (sort l) l.
Proof.
  induction l as [| x l IH]; simpl; [reflexivity |].
  fold (sort l). fold (insert x (sort l)).
  rewrite insert_entry_perm. now rewrite IH.
Qed.

Lemma not_later_trans (a b c : WeightEntry) : later a b -> later b c -> later a c.
Proof.
  intros (ta & tb & Ha & Hb & L1) (tb' & tc & Hb' & Hc & L2).
  exists ta, tc. rewrite Hb in Hb'. injection Hb' as <-.
  repeat split; [assumption | assumption | lia].
Qed.

Lemma insert_entry_sorted (x : WeightEntry) (l : list WeightEntry) :
  valid x -> Forall valid l ->
  StronglySorted later l -> StronglySorted later (insert x l).
Proof.
  intros [tx Hx]. induction l as [| y l IH]; intros V S; simpl.
  - constructor; constructor.
  - apply Forall_cons_iff in V as [[ty Hy] V].
    apply StronglySorted_inv in S as [S Hd].
    unfold compare_entries. rewrite Hx, Hy.
    destruct (tx - ty <=? 0)%Z eqn:C.
    + apply Z.leb_le in C.
      assert (Lxy : later x y) by (exists tx, ty; repeat split; [assumption .. | lia]).
      constructor; [constructor; assumption |].
      constructor; [exact Lxy |].
      eapply List.Forall_impl; [| exact Hd].
      intros z Lyz. eapply not_later_trans; eassumption.
    + apply Z.leb_gt in C. fold (insert x l).
      constructor; [now apply IH |].
      rewrite insert_entry_perm. constructor; [| exact Hd].
      exists ty, tx. repeat split; [assumption .. | lia].
Qed.

Lemma sort_entries_sorted (l : list WeightEntry) :
  Forall valid l -> StronglySorted later (sort l).
Proof.
  induction l as [| x l IH]; intros V; simpl; [constructor |].
  apply Forall_cons_iff in V as [Vx V].
  fold (sort l). apply insert_entry_sorted; [exact Vx | | now apply IH].
  now rewrite sort_entries_perm.
Qed.

(** One call: the new history is the old one and the new entry, sorted. *)
Lemma addWeightEntry_call_history (st : AppState) (c : WeightCall) :
  Forall valid (weightLog st) ->
  StronglySorted later (weightLog st) ->
  (forall t, Date_parse (call_date c) = Some t ->
             Date_parse (toISOString t) = Some t) ->
  let st' := addWeightEntry_call Date_parse toISOString st c in
  Permutation (weightLog st')
              (weightLog st ++ entry_of_call Date_parse toISOString c) /\
  Forall valid (weightLog st') /\
  StronglySorted later (weightLog st').
Proof.
  intros V S R. unfold addWeightEntry_call, addWeightEntry, entry_of_call.
  destruct (Date_parse (call_date c)) as [t |] eqn:P; simpl.
  - assert (V' : Forall valid (weightLog st ++
        [ {| entry_date := toISOString t; entry_weight := call_weight c |} ])).
    { apply Forall_app. split; [exact V |].
      constructor; [| constructor]. exists t. simpl. now apply R. }
    split; [apply sort_entries_perm |].
    split; [| now apply sort_entries_sorted].
    eapply Permutation_Forall; [symmetry; apply sort_entries_perm | exact V'].
  - rewrite app_nil_r. auto.
Qed.

Lemma addWeightEntry_calls_history (calls : list WeightCall) (st : AppState) :
  Forall valid (weightLog st) ->
  StronglySorted later (weightLog st) ->
  (forall c t, In c calls -> Date_parse (call_date c) = Some t ->
               Date_parse (toISOString t) = Some t) ->
  let st' := addWeightEntry_calls Date_parse toISOString calls st in
  Permutation (weightLog st')
              (weightLog st ++ flat_map (entry_of_call Date_parse toISOString) calls) /\
  Forall valid (weightLog st') /\
  StronglySorted later (weightLog st').
Proof.
  revert st. induction calls as [| c calls IH]; intros st V S R; simpl.
  - rewrite app_nil_r. auto.
  - destruct (addWeightEntry_call_history st c V S) as (P1 & V1 & S1).
    { intros t. apply R. now left. }
    destruct (IH (addWeightEntry_call Date_parse toISOString st c) V1 S1)
      as (P2 & V2 & S2).
    { intros c' t I. apply R. now right. }
    split; [| split; assumption].
    unfold addWeightEntry_calls in P2. rewrite P2, P1.
    now rewrite <- app_assoc.
Qed.

(** C5. Whatever the order of the dates, after each call of a sequence
    of [addWeightEntry] calls the weight history holds exactly the
    entries it started with and those added so far, in ascending order
    of their dates. The history the sequence starts from is in order
    and holds parseable dates, and [Date] reads the ISO rendering it
    wrote for a call's date back as the same time. *)
Theorem addWeightEntry_keeps_history_sorted
    (calls : list WeightCall) (st : AppState) (n : nat) :
  Forall (fun e => is_Some (Date_parse (entry_date e))) (weightLog st) ->
  StronglySorted (not_later Date_parse) (weightLog st) ->
  (forall c t, In c calls -> Date_parse (call_date c) = Some t ->
               Date_parse (toISOString t) = Some t) ->
  let so_far := firstn n calls in
  let st' := addWeightEntry_calls Date_parse toISOString so_far st in
  Permutation (weightLog st')
              (weightLog st ++ flat_map (entry_of_call Date_parse toISOString) so_far) /\
  StronglySorted (not_later Date_parse) (weightLog st').
Proof.
  intros V S R so_far st'.
  destruct (addWeightEntry_calls_history so_far st V S) as (P & _ & S').
  { intros c t I. apply R. rewrite <- (firstn_skipn n calls).
    apply in_or_app. now left. }
  split; assumption.
Qed.

(** C6. A call [addWeightEntry(w, D)] with a parseable date answers;
    when [D] is the current calendar date the profile's weight becomes
    [w], the rest of the profile staying, and for any other date (a
    past one among them) the profile is unchanged; either way the log
    of [D] then carries the weight [w]: the log there was, its meals
    and totals untouched, or else a new log without meals. *)
Theorem addWeightEntry_current_weight_rule
    (today : string) (w : number) (d : string) (st : AppState) (t : Z) :
  Date_parse d = Some t ->
  exists st' saves,
    addWeightEntry Date_parse toISOString today w d st = Some (st', saves) /\
    (d = today ->
       userProfile st' = option_map (fun p => with_weight p w) (userProfile st) /\
       forall p', userProfile st' = Some p' -> weight p' = w) /\
    (d <> today -> userProfile st' = userProfile st) /\
    exists log',
      log_of d (dailyLogs st') = Some log' /\
      log_weight log' = Some w /\
      match log_of d (dailyLogs st) with
      | Some log =>
          date log' = date log /\ meals log' = meals log /\
          totalNutrition log' = totalNutrition log
      | None =>
          log' = {| date := d; meals := []; totalNutrition := zero_nutrition;
                    log_weight := Some w |}
      end.
Proof.
  intros P. unfold addWeightEntry. rewrite P.
  eexists. eexists. split; [reflexivity |]. simpl.
  split; [| split].
  - intros ->. rewrite String.eqb_refl.
    destruct (userProfile st) as [p |]; simpl.
    + split; [reflexivity |]. now intros p' [= <-].
    + split; [reflexivity | discriminate].
  - intros Ne. apply String.eqb_neq in Ne. rewrite Ne.
    now destruct (userProfile st).
  - unfold addWeightEntry_logs, log_of.
    destruct (findIndex (fun log => String.eqb (date log) d) (dailyLogs st))
      as [i |] eqn:F.
    + destruct (findIndex_Some _ _ _ F) as (log & L & D & Fd).
      rewrite L, Fd. eexists. split.
      * apply find_insert_findIndex; [exact F | exact D].
      * simpl. auto.
    + rewrite (findIndex_None _ _ F). eexists. split.
      * apply find_app_None; [now apply findIndex_None |].
        simpl. apply String.eqb_refl.
      * split; reflexivity.
Qed.

End WeightEntries.

(** A past date logged after today's: the history comes out in order. *)
Lemma addWeightEntry_keeps_history_sorted_witness :
  let st := Samples.signed_in Samples.new_chat in
  let calls := [ {| call_today := "2024-03-10"; call_weight := 72;
                    call_date := "2024-03-10" |};
                 {| call_today := "2024-03-10"; call_weight := 68;
                    call_date := "2024-03-03" |} ] in
  let st' := addWeightEntry_calls Samples.sample_Date_parse
               Samples.sample_toISOString (firstn 2 calls) st in
  Permutation (weightLog st')
    (weightLog st ++
     flat_map (entry_of_call Samples.sample_Date_parse Samples.sample_toISOString)
              (firstn 2 calls)) /\
  StronglySorted (not_later Samples.sample_Date_parse) (weightLog st').
Proof.
  apply (addWeightEntry_keeps_history_sorted
           Samples.sample_Date_parse Samples.sample_toISOString).
  - repeat constructor; eexists; reflexivity.
  - repeat constructor.
  - intros c t [<- | [<- | []]] [= <-]; reflexivity.
Defined.

Example addWeightEntry_history_example :
  let st := Samples.signed_in Samples.new_chat in
  let calls := [ {| call_today := "2024-03-10"; call_weight := 72;
                    call_date := "2024-03-10" |};
                 {| call_today := "2024-03-10"; call_weight := 68;
                    call_date := "2024-03-03" |} ] in
  map entry_weight
    (weightLog (addWeightEntry_calls Samples.sample_Date_parse
                  Samples.sample_toISOString calls st)) = [70; 68; 72]%Q.
Proof. reflexivity. Qed.

(** The example of the specification: 70 kg, then 72 today, then 68 for
    a week ago. *)
Lemma addWeightEntry_current_weight_rule_witness :
  exists st' saves,
    addWeightEntry Samples.sample_Date_parse Samples.sample_toISOString
      "2024-03-10" 72 "2024-03-10" (Samples.signed_in Samples.new_chat)
    = Some (st', saves) /\
    option_map weight (userProfile st') = Some 72%Q.
Proof.
  destruct (addWeightEntry_current_weight_rule
              Samples.sample_Date_parse Samples.sample_toISOString
              "2024-03-10" 72 "2024-03-10" (Samples.signed_in Samples.new_chat)
              1710028800000%Z eq_refl)
    as (st' & saves & E & Today & _).
  exists st', saves. split; [exact E |].
  destruct (Today eq_refl) as [-> _]. reflexivity.
Defined.

Example addWeightEntry_past_date_example :
  let st := Samples.signed_in Samples.new_chat in
  let st1 := addWeightEntry_call Samples.sample_Date_parse Samples.sample_toISOString st
               {| call_today := "2024-03-10"; call_weight := 72;
                  call_date := "2024-03-10" |} in
  let st2 := addWeightEntry_call Samples.sample_Date_parse Samples.sample_toISOString st1
               {| call_today := "2024-03-10"; call_weight := 68;
                  call_date := "2024-03-03" |} in
  option_map weight (userProfile st1) = Some 72%Q /\
  option_map weight (userProfile st2) = Some 72%Q /\
  map (fun log => (date log, log_weight log)) (dailyLogs st2)
  = [("2024-03-10", Some 72%Q); ("2024-03-03", Some 68%Q)].
Proof. repeat split; reflexivity. Qed.

End OrchestratorFacts.

(* ================================================================== *)
(** * Properties of the send handler                                   *)
(* ================================================================== *)

Module ChatFacts.
Import Orchestrator Chat Notions.

Lemma with_history_same (s : ChatSession) : with_history s (history s) = s.
Proof. now destruct s. Qed.

(** A message id no message carries: the rewriting changes nothing. *)
Lemma rewrite_message_fresh (active modelMessageId : string)
    (f : ChatMessage -> ChatMessage) (sessions : list ChatSession) :
  (forall s m, In s sessions -> In m (history s) -> has_id m modelMessageId = false) ->
  rewrite_message active modelMessageId f sessions = sessions.
Proof.
  intros Fresh. unfold rewrite_message.
  etransitivity; [| apply List.map_id]. apply List.map_ext_in. intros s Is.
  destruct (String.eqb (session_id s) active); [| reflexivity].
  etransitivity; [| apply with_history_same]. f_equal.
  etransitivity; [| apply List.map_id]. apply List.map_ext_in. intros m Im.
  now rewrite (Fresh s m Is Im).
Qed.

(** What the handler hands to [saveData] when the stream has completed
    is computed from the sessions its closure captured: as long as the
    placeholder's id is new, these are the sessions before the send. *)
Lemma send_success_saves_captured_sessions
    (env : SendEnv) (message : string) (flag : bool) (st : AppState)
    (uid active : string) (p : UserProfile) (chunks : list StreamChunk) :
  firebaseUser st = Some uid ->
  userProfile st = Some p ->
  activeChatSessionId st = Some active -> active <> "" ->
  (exists s, In s (chatSessions st) /\ session_id s = active) ->
  (forall s m, In s (chatSessions st) -> In m (history s) ->
               has_id m ("model_" +:+ now_model env) = false) ->
  fetch env = Streams chunks None ->
  save_failure env = None ->
  saved (handleSendMessage env message flag st)
  = [ {| save_uid := uid; save_data := only_chatSessions (chatSessions st) |} ].
Proof.
  intros U P A Ne (s & Is & Es) Fresh F Sv.
  unfold handleSendMessage. rewrite P, A.
  apply String.eqb_neq in Ne. rewrite Ne.
  match goal with |- context [List.find ?q ?l] => destruct (List.find q l) eqn:Fd end.
  - rewrite F.
    match goal with |- context [stream_loop ?a ?b ?c ?d ?e ?f] =>
      destruct (stream_loop a b c d e f) as [[finalResponse latest] streamed] end.
    rewrite (rewrite_message_fresh _ _ _ _ Fresh).
    unfold await_saveData, saveData. rewrite U, Sv. reflexivity.
  - exfalso.
    match type of Fd with List.find ?q (map ?g ?l) = None =>
      pose proof (find_none q (map g l) Fd (g s) (in_map g l s Is)) as N end.
    simpl in N. rewrite Es, String.eqb_refl in N. simpl in N.
    rewrite String.eqb_refl in N. discriminate.
Qed.

(** On a failure the handler puts back, in memory and in the store, the
    sessions its closure captured, rewritten at the placeholder's id: as
    long as that id is new, the sessions before the send. *)
Lemma send_failure_restores_captured_sessions
    (env : SendEnv) (st current : AppState) (active : string)
    (error : Thrown) (reqs : list ChatRequest) :
  (forall s m, In s (chatSessions st) -> In m (history s) ->
               has_id m ("model_" +:+ now_model env) = false) ->
  let r := on_error env st current active ("model_" +:+ now_model env) error reqs [] in
  chatSessions (final r) = chatSessions st /\
  isAiReplying (final r) = false /\
  saved r = saveData st (only_chatSessions (chatSessions st)).
Proof.
  intros Fresh. unfold on_error.
  rewrite (rewrite_message_fresh _ _ _ _ Fresh).
  unfold await_saveData.
  destruct (saveData st (only_chatSessions (chatSessions st))); simpl; auto.
Qed.

Lemma find_updated_session {A : Type} (q : A -> bool) (g : A -> A) (l : list A) :
  (forall x, q (g x) = q x) ->
  List.find q (map g l) = option_map g (List.find q l).
Proof.
  intros Q. induction l as [| x l IH]; simpl; [reflexivity |].
  rewrite Q. now destruct (q x).
Qed.

Lemma on_error_requests (env : SendEnv) (st current : AppState)
    (active modelMessageId : string) (error : Thrown)
    (reqs : list ChatRequest) (saves : list SaveRequest) :
  requests (on_error env st current active modelMessageId error reqs saves) = reqs.
Proof.
  unfold on_error.
  now destruct (await_saveData env st (only_chatSessions _)) as [saves' thrown].
Qed.

(** Every send that reaches the model carries, after the turns the
    session had, the user's message, the empty placeholder and the
    user's message again. *)
Lemma send_request_contents
    (env : SendEnv) (message : string) (flag : bool) (st : AppState)
    (p : UserProfile) (active : string) (s : ChatSession) :
  userProfile st = Some p ->
  activeChatSessionId st = Some active -> active <> "" ->
  List.find (fun s => String.eqb (session_id s) active) (chatSessions st) = Some s ->
  fetch env <> NoApiKey ->
  requests (handleSendMessage env message flag st)
  = [ {| contents :=
           map (fun m => {| content_role := role m; content_parts := parts m |})
               (history s)
           ++ [ turn user message; turn model ""; turn user message ];
         googleSearch := flag |} ].
Proof.
  intros P A Ne F Key. unfold handleSendMessage. cbv zeta. rewrite P, A.
  apply String.eqb_neq in Ne. rewrite Ne.
  rewrite find_updated_session, F.
  2:{ intros x. simpl. now destruct (String.eqb (session_id x) active) eqn:E. }
  cbn [option_map].
  assert (E : String.eqb (session_id s) active = true).
  { now apply find_some in F as [_ F]. }
  rewrite E. cbn [history].
  assert (R : forall (u m : ChatMessage) t1 t2,
            u = {| msg_id := Some ("user_" +:+ now_user env); role := user;
                   parts := [ {| text := message |} ]; timestamp := t1;
                   grounding := None |} ->
            m = {| msg_id := Some ("model_" +:+ now_model env); role := model;
                   parts := [ {| text := "" |} ]; timestamp := t2;
                   grounding := None |} ->
            continueChat (history s ++ [u; m]) message flag
            = {| contents :=
                   map (fun m => {| content_role := role m; content_parts := parts m |})
                       (history s)
                   ++ [ turn user message; turn model ""; turn user message ];
                 googleSearch := flag |}).
  { intros u m t1 t2 -> ->. unfold continueChat.
    rewrite List.map_app, <- app_assoc. reflexivity. }
  rewrite (R _ _ _ _ eq_refl eq_refl).
  destruct (fetch env) as [| e | chunks [e |]]; [contradiction | | |].
  - apply on_error_requests.
  - match goal with |- context [stream_loop ?a ?b ?c ?d ?e ?f] =>
      destruct (stream_loop a b c d e f) as [[finalResponse latest] streamed] end.
    apply on_error_requests.
  - match goal with |- context [stream_loop ?a ?b ?c ?d ?e ?f] =>
      destruct (stream_loop a b c d e f) as [[finalResponse latest] streamed] end.
    match goal with |- context [await_saveData ?a ?b ?c] =>
      destruct (await_saveData a b c) as [saves [e |]] end;
      [apply on_error_requests | reflexivity].
Qed.

Lemma grounding_after_None (chunks : list StreamChunk)
    (latest : option (list GroundingSource)) :
  grounding_after latest chunks = None -> latest = None.
Proof.
  revert latest. induction chunks as [| c chunks IH]; intros latest; simpl; [auto |].
  intros H. apply IH in H. now destruct (chunk_grounding c).
Qed.

Lemma rewrite_message_twice (active mid : string) (f g : ChatMessage -> ChatMessage)
    (sessions : list ChatSession) :
  (forall m, has_id (f m) mid = has_id m mid) ->
  rewrite_message active mid g (rewrite_message active mid f sessions)
  = rewrite_message active mid (fun m => g (f m)) sessions.
Proof.
  intros Id. unfold rewrite_message. rewrite List.map_map.
  apply List.map_ext. intros s.
  destruct (String.eqb (session_id s) active) eqn:E; simpl; rewrite E; [| reflexivity].
  unfold with_history. simpl. f_equal. rewrite List.map_map.
  apply List.map_ext. intros m.
  destruct (has_id m mid) eqn:H; [now rewrite Id, H | now rewrite H].
Qed.

Lemma rewrite_message_ext (active mid : string) (f g : ChatMessage -> ChatMessage)
    (sessions : list ChatSession) :
  (forall m, f m = g m) ->
  rewrite_message active mid f sessions = rewrite_message active mid g sessions.
Proof.
  intros E. unfold rewrite_message. apply List.map_ext. intros s.
  destruct (String.eqb (session_id s) active); [| reflexivity].
  f_equal. apply List.map_ext. intros m. now rewrite E.
Qed.

(** The loop leaves the placeholder with the whole text received and the
    grounding seen last, whatever number of chunks brought them. *)
Lemma stream_loop_result (active mid : string) (chunks : list StreamChunk)
    (acc : string) (latest : option (list GroundingSource))
    (current : list ChatSession) :
  stream_loop active mid chunks acc latest current
  = (text_after acc chunks, grounding_after latest chunks,
     match chunks with
     | [] => current
     | _ => rewrite_message active mid
              (fun m => with_response m (text_after acc chunks)
                                        (grounding_after latest chunks))
              current
     end).
Proof.
  revert acc latest current.
  induction chunks as [| c chunks IH]; intros acc latest current; [reflexivity |].
  cbn [stream_loop]. rewrite IH.
  change (text_after acc (c :: chunks))
    with (text_after (acc +:+ appended c) chunks).
  change (grounding_after latest (c :: chunks))
    with (grounding_after
            match chunk_grounding c with
            | Some g => Some (map (fun s => {| uri := uri s; title := title s |}) g)
            | None => latest
            end chunks).
  f_equal. destruct chunks as [| c' chunks]; [reflexivity |].
  generalize (c' :: chunks). intros rest.
  rewrite rewrite_message_twice by reflexivity.
  apply rewrite_message_ext. intros m. unfold with_response. simpl. f_equal.
  match goal with |- context [grounding_after ?a rest] =>
    destruct (grounding_after a rest) eqn:G end; [reflexivity |].
  apply grounding_after_None in G. now rewrite G.
Qed.

(** When the stream completes, memory holds the sessions from before the
    send with, in the active one, the user's message and the placeholder
    carrying the whole text received (and the title derived from a first
    message); the flag is cleared. *)
Lemma send_success_memory
    (env : SendEnv) (message : string) (flag : bool) (st : AppState)
    (active : string) (p : UserProfile) (chunks : list StreamChunk) :
  userProfile st = Some p ->
  activeChatSessionId st = Some active -> active <> "" ->
  (exists s, In s (chatSessions st) /\ session_id s = active) ->
  (forall s m, In s (chatSessions st) -> In m (history s) ->
               has_id m ("model_" +:+ now_model env) = false) ->
  fetch env = Streams chunks None ->
  save_failure env = None ->
  let r := handleSendMessage env message flag st in
  escaped r = None /\
  isAiReplying (final r) = false /\
  chatSessions (final r)
  = map (fun session =>
           if String.eqb (session_id session) active then
             {| session_id := session_id session;
                session_title :=
                  if (List.length (history session) =? 0)%nat then
                    String.substring 0 30 message +:+
                    (if (30 <? String.length message)%nat then "..." else "")
                  else session_title session;
                history :=
                  history session ++
                  [ {| msg_id := Some ("user_" +:+ now_user env); role := user;
                       parts := [ {| text := message |} ];
                       timestamp := time_user env; grounding := None |};
                    {| msg_id := Some ("model_" +:+ now_model env); role := model;
                       parts := [ {| text := text_after "" chunks |} ];
                       timestamp := time_model env;
                       grounding := grounding_after None chunks |} ];
                createdAt := createdAt session |}
           else session)
        (chatSessions st).
Proof.
  intros P A Ne (s & Is & Es) Fresh F Sv.
  unfold handleSendMessage. cbv zeta. rewrite P, A.
  apply String.eqb_neq in Ne. rewrite Ne.
  match goal with |- context [List.find ?q ?l] => destruct (List.find q l) eqn:Fd end.
  2:{ exfalso.
      match type of Fd with List.find ?q (map ?g ?l) = None =>
        pose proof (find_none q (map g l) Fd (g s) (in_map g l s Is)) as N end.
      simpl in N. rewrite Es, String.eqb_refl in N. simpl in N.
      rewrite String.eqb_refl in N. discriminate. }
  rewrite F, stream_loop_result.
  unfold await_saveData, saveData. rewrite Sv.
  match goal with |- context [match ?sv with (_, _) => _ end] =>
    assert (SvNone : snd sv = None) by (now destruct (firebaseUser st))
  end.
  match goal with |- context [match ?sv with (_, _) => _ end] =>
    destruct sv as [saves [e |]]; [discriminate |]
  end.
  cbn [escaped final isAiReplying chatSessions set_isAiReplying set_chatSessions].
  split; [reflexivity |]. split; [reflexivity |].
  destruct chunks as [| c0 rest]; [reflexivity |].
  generalize (c0 :: rest). intros received.
  unfold rewrite_message. rewrite List.map_map.
  apply List.map_ext_in. intros x Ix.
  destruct (String.eqb (session_id x) active) eqn:E; cbn [session_id]; rewrite E;
    [| reflexivity].
  unfold with_history. cbn [session_id session_title history createdAt].
  f_equal. rewrite List.map_app. f_equal.
  - etransitivity; [| apply List.map_id]. apply List.map_ext_in. intros m Im.
    now rewrite (Fresh x m Ix Im).
  - cbn [map has_id msg_id]. rewrite String.eqb_refl.
    change (String.eqb ("user_" +:+ now_user env) ("model_" +:+ now_model env))
      with false.
    unfold with_response. cbn [msg_id role parts timestamp grounding].
    now destruct (grounding_after None received).
Qed.

(** C1. One send on a new chat of a signed-in user, the model streaming
    "Hel" and "lo" and completing: memory then holds the session titled
    "Hi" with the user's message and the placeholder reading "Hello",
    the flag is cleared, and the one collection handed to the store is
    the session list from before the send, without either message. *)
Theorem send_success_persists_sessions_before_send :
  let st := Samples.signed_in Samples.new_chat in
  let r := handleSendMessage Samples.answers_hello "Hi" false st in
  escaped r = None /\
  isAiReplying (final r) = false /\
  map (fun s => (session_title s, map (fun m => (role m, parts m)) (history s)))
      (chatSessions (final r))
  = [ ("Hi", [ (user, [ {| text := "Hi" |} ]); (model, [ {| text := "Hello" |} ]) ]) ] /\
  saved r = [ {| save_uid := "uid-1";
                 save_data := only_chatSessions [Samples.new_chat] |} ] /\
  map (fun q => p_chatSessions (save_data q)) (saved r)
  <> [ Some (chatSessions (final r)) ].
Proof.
  repeat split; try reflexivity. vm_compute. discriminate.
Qed.

(** C2. The same send when the request is refused, and when the stream
    breaks after "Hel": the flag is cleared, and memory and the store
    both get the session list from before the send, in which the active
    session has no message at all: the user's message and the
    placeholder are gone and nothing carries an error text. *)
Theorem send_failure_drops_both_messages :
  let st := Samples.signed_in Samples.new_chat in
  let refused := handleSendMessage Samples.refuses "Hi" false st in
  let broken := handleSendMessage Samples.breaks_off "Hi" false st in
  (isAiReplying (final refused) = false /\
   chatSessions (final refused) = chatSessions st /\
   flat_map history (chatSessions (final refused)) = [] /\
   saved refused = [ {| save_uid := "uid-1";
                        save_data := only_chatSessions (chatSessions st) |} ]) /\
  (isAiReplying (final broken) = false /\
   chatSessions (final broken) = chatSessions st /\
   flat_map history (chatSessions (final broken)) = [] /\
   saved broken = [ {| save_uid := "uid-1";
                       save_data := only_chatSessions (chatSessions st) |} ]).
Proof. repeat split; reflexivity. Qed.

(** C3. A send of "Hi" on a chat that holds one earlier exchange: the
    model is called once, with the two earlier turns, the user's
    message, the empty placeholder turn, and the user's message a
    second time. *)
Theorem send_request_repeats_message_and_carries_placeholder :
  let st := Samples.signed_in Samples.old_chat in
  let r := handleSendMessage Samples.answers_hello "Hi" false st in
  requests r
  = [ {| contents := [ turn user "Hello"; turn model "Hi Sam";
                       turn user "Hi"; turn model ""; turn user "Hi" ];
         googleSearch := false |} ].
Proof. reflexivity. Qed.

(** Whatever the history handed over, [continueChat] appends the user's
    message to it. *)
Lemma continueChat_appends_message (h : list ChatMessage) (message : string) (flag : bool) :
  contents (continueChat h message flag)
  = map (fun m => {| content_role := role m; content_parts := parts m |}) h
    ++ [ turn user message ].
Proof. reflexivity. Qed.

End ChatFacts.

(* ================================================================== *)
(** * Properties of the persistence gateway                            *)
(* ================================================================== *)

Module GatewayFacts.
Import Js Gateway Notions.

(** Induction over values, through arrays and objects. *)
Lemma value_ind_nested (P : value -> Prop) :
  P VUndefined -> P VNull -> (forall b, P (VBool b)) ->
  (forall n, P (VNumber n)) -> (forall s, P (VString s)) ->
  (forall elements, Forall P elements -> P (VArray elements)) ->
  (forall fields, Forall (fun kv => P (snd kv)) fields -> P (VObject fields)) ->
  (forall tag, P (VSpecial tag)) ->
  forall v, P v.
Proof.
  intros HU HN HB HNum HS HA HO HSp.
  fix IH 1. intros [ | | b | n | s | elements | fields | tag ].
  - exact HU.
  - exact HN.
  - apply HB.
  - apply HNum.
  - apply HS.
  - apply HA. induction elements as [| x elements IHl];
      constructor; [apply IH | exact IHl].
  - apply HO. induction fields as [| [k x] fields IHl];
      constructor; [apply IH | exact IHl].
  - apply HSp.
Qed.

Lemma removeUndefinedValues_object (fields : list (string * value)) :
  removeUndefinedValues (VObject fields) = VObject (kept_fields fields).
Proof.
  simpl. f_equal. unfold kept_fields.
  induction fields as [| [k v] fields IH]; [reflexivity |].
  rewrite IH. destruct v; reflexivity.
Qed.

Lemma kept_fields_keys (fields : list (string * value)) (key : string) :
  In key (map fst (kept_fields fields)) -> In key (map fst fields).
Proof.
  unfold kept_fields. rewrite List.map_map. simpl.
  induction fields as [| [k v] fields IH]; simpl; [auto |].
  destruct (negb (is_undefined v)); simpl; tauto.
Qed.

(** No [undefined] is left after sanitizing. *)
Lemma removeUndefinedValues_clean (v : value) :
  has_undefined (removeUndefinedValues v) = false.
Proof.
  induction v as [ | | b | n | s | elements IH | fields IH | tag ]
    using value_ind_nested; try reflexivity.
  - simpl. induction IH as [| x elements Hx _ IHl]; simpl; [reflexivity |].
    now rewrite Hx.
  - rewrite removeUndefinedValues_object. simpl. unfold kept_fields.
    induction IH as [| [k x] fields Hx _ IHl]; simpl; [reflexivity |].
    destruct (is_undefined x); simpl; [exact IHl |].
    simpl in Hx. now rewrite Hx.
Qed.

Lemma is_undefined_has_undefined (v : value) :
  has_undefined v = false -> is_undefined v = false.
Proof. now destruct v. Qed.

(** A value without [undefined] is written as it is. *)
Lemma removeUndefinedValues_fixed (v : value) :
  has_undefined v = false -> removeUndefinedValues v = v.
Proof.
  induction v as [ | | b | n | s | elements IH | fields IH | tag ]
    using value_ind_nested; try reflexivity; try discriminate.
  - intros H. cbn [removeUndefinedValues]. f_equal. cbn [has_undefined] in H.
    induction IH as [| x elements Hx _ IHl]; [reflexivity |].
    cbn [existsb] in H. apply orb_false_iff in H as [H1 H2].
    cbn [map]. now rewrite (Hx H1), (IHl H2).
  - intros H. rewrite removeUndefinedValues_object. f_equal.
    cbn [has_undefined] in H. unfold kept_fields.
    induction IH as [| [k x] fields Hx _ IHl]; [reflexivity |].
    cbn [existsb snd] in H. apply orb_false_iff in H as [H1 H2].
    cbn [List.filter snd]. rewrite (is_undefined_has_undefined x H1).
    cbn [negb map fst snd]. cbn [snd] in Hx. now rewrite (Hx H1), (IHl H2).
Qed.

Lemma list_to_map_get (l : list (string * value)) (key : string) :
  (list_to_map l : document) !! key = get key l.
Proof.
  induction l as [| [k v] l IH]; [apply lookup_empty |].
  cbn [list_to_map foldr get fst snd uncurry].
  destruct (String.eqb k key) eqn:E.
  - apply String.eqb_eq in E as ->. apply lookup_insert_eq.
  - apply String.eqb_neq in E. rewrite lookup_insert_ne by exact E. exact IH.
Qed.

Lemma get_map_values (f : string -> value -> value)
    (l : list (string * value)) (key : string) :
  get key (map (fun kv => (fst kv, f (fst kv) (snd kv))) l)
  = option_map (f key) (get key l).
Proof.
  induction l as [| [k v] l IH]; [reflexivity |].
  cbn [map get fst snd]. destruct (String.eqb k key) eqn:E; [| exact IH].
  apply String.eqb_eq in E as ->. reflexivity.
Qed.

Lemma get_app (a b : list (string * value)) (key : string) :
  get key (a ++ b)
  = match get key a with
    | Some v => Some v
    | None => get key b
    end.
Proof.
  induction a as [| [k v] a IH]; [reflexivity |].
  cbn [app get]. now destruct (String.eqb k key).
Qed.

Lemma get_filter_keys (p : string -> bool) (l : list (string * value))
    (key : string) :
  get key (List.filter (fun kv => p (fst kv)) l)
  = if p key then get key l else None.
Proof.
  induction l as [| [k v] l IH]; [now destruct (p key) |].
  cbn [List.filter fst]. destruct (p k) eqn:Pk.
  - cbn [get]. destruct (String.eqb k key) eqn:E; [| exact IH].
    apply String.eqb_eq in E as <-. now rewrite Pk.
  - rewrite IH. cbn [get]. destruct (String.eqb k key) eqn:E; [| reflexivity].
    apply String.eqb_eq in E as <-. now rewrite Pk.
Qed.

Lemma get_In (l : list (string * value)) (key : string) (v : value) :
  get key l = Some v -> In (key, v) l.
Proof.
  induction l as [| [k x] l IH]; [discriminate |].
  cbn [get]. destruct (String.eqb k key) eqn:E.
  - apply String.eqb_eq in E as ->. intros [= ->]. now left.
  - intros G. right. now apply IH.
Qed.

Lemma get_None (l : list (string * value)) (key : string) :
  get key l = None <-> ~ In key (map fst l).
Proof.
  induction l as [| [k x] l IH]; [cbn; tauto |].
  cbn [get map fst]. destruct (String.eqb k key) eqn:E.
  - apply String.eqb_eq in E as ->. split; [discriminate |].
    intros N. elim N. now left.
  - apply String.eqb_neq in E. rewrite IH. cbn [In]. tauto.
Qed.

Lemma get_NoDup (l : list (string * value)) (key : string) (v : value) :
  NoDup (map fst l) -> In (key, v) l -> get key l = Some v.
Proof.
  induction l as [| [k x] l IH]; [intros _ [] |].
  cbn [map fst get]. intros N. apply NoDup_cons in N as [Nk N].
  intros [[= -> ->] | I].
  - now rewrite String.eqb_refl.
  - destruct (String.eqb k key) eqn:E; [| now apply IH].
    apply String.eqb_eq in E as ->. elim Nk.
    apply list_elem_of_In, in_map_iff. now exists (key, v).
Qed.

(** A key of the merged object holds what was written under it, merged
    over what was stored under it; a key only the stored object has
    keeps its value. *)
Lemma get_overlay (stored written : list (string * value)) (key : string) :
  get key (overlay stored written)
  = match get key written with
    | Some v => Some v
    | None => get key stored
    end.
Proof.
  unfold overlay. rewrite get_app.
  rewrite (get_map_values (fun k o => default o (get k written))).
  pose proof (get_filter_keys
                (fun k => negb (bool_decide (is_Some (get k stored))))
                written key) as F.
  cbn beta in F. rewrite F. clear F.
  destruct (get key stored) as [o |]; cbn [option_map].
  - now destruct (get key written).
  - rewrite bool_decide_false by (intros [x E]; discriminate E).
    cbn [negb]. now destruct (get key written).
Qed.

Lemma merge_value_leaf (stored : option value) (written : value) :
  is_leaf written = true -> merge_value stored written = written.
Proof. destruct written as [ | | | | | | [| kv fields] | ]; now try discriminate. Qed.

Lemma merge_value_over_no_object (stored : option value) (written : value) :
  (forall fields, stored <> Some (VObject fields)) ->
  merge_value stored written = written.
Proof.
  intros N. destruct written as [ | | | | | | [| kv fields] | ]; try reflexivity.
  destruct stored as [[ | | | | | | stored_fields | ] |]; try reflexivity.
  now elim (N stored_fields).
Qed.

Lemma merge_value_objects (stored_fields fields : list (string * value))
    (key : string) :
  fields <> [] ->
  exists merged,
    merge_value (Some (VObject stored_fields)) (VObject fields) = VObject merged /\
    get key merged
    = match get key fields with
      | Some v => Some (merge_value (get key stored_fields) v)
      | None => get key stored_fields
      end.
Proof.
  intros N. destruct fields as [| kv fields]; [now elim N |].
  eexists. split; [reflexivity |].
  rewrite get_overlay.
  rewrite (get_map_values (fun k v => merge_value (get k stored_fields) v)).
  now destruct (get key (kv :: fields)).
Qed.

Lemma merge_document_lookup (old : document) (data : list (string * value))
    (key : string) :
  merge_document old data !! key
  = match get key data with
    | Some v => Some (merge_value (old !! key) v)
    | None => old !! key
    end.
Proof.
  unfold merge_document.
  pose proof (list_to_map_get
                (map (fun kv => (fst kv, merge_value (old !! fst kv) (snd kv))) data)
                key) as L.
  rewrite (get_map_values (fun k v => merge_value (old !! k) v)) in L.
  destruct (get key data) as [v |]; cbn [option_map] in L.
  - now apply lookup_union_Some_l.
  - rewrite lookup_union_r; [reflexivity | exact L].
Qed.

Lemma setDoc_merge_lookup (remote0 : store) (uid : string)
    (payload : list (string * value)) :
  setDoc_merge remote0 uid payload !! uid
  = Some (merge_document (default ∅ (remote0 !! uid)) payload).
Proof. unfold setDoc_merge. apply lookup_insert_eq. Qed.

Lemma saveUserData_returns (b : Backend) (remote0 remote1 : store) (uid : string)
    (fields : list (string * value)) :
  saveUserData b remote0 uid (VObject fields) = Returns remote1 ->
  remote1 = setDoc_merge remote0 uid (kept_fields fields).
Proof.
  unfold saveUserData.
  destruct (String.eqb uid "" || negb (db_ready b)); [discriminate |].
  destruct (write_failure b); [discriminate |].
  rewrite removeUndefinedValues_object. now intros [= <-].
Qed.

(** C9, as the code has it. Before the write the supplied object is
    sanitized recursively and the payload holds no [undefined]: an
    [undefined] that is the value itself or an element of an array
    becomes [null], a property whose value is [undefined] is left out,
    the other properties stay in order with their values sanitized. The
    write merges: a field of the payload holds its value merged over
    what the document held there (a leaf replaces it; an object with
    properties is merged into a stored object property by property, the
    properties it lacks staying), and every field the payload lacks (not
    supplied, or supplied as [undefined]) and every other user's
    document stay as they were. *)
Theorem saveUserData_sanitizes_then_merges
    (b : Backend) (remote0 remote1 : store) (uid : string)
    (fields : list (string * value)) :
  saveUserData b remote0 uid (VObject fields) = Returns remote1 ->
  let old := default ∅ (remote0 !! uid) in
  removeUndefinedValues (VObject fields) = VObject (kept_fields fields) /\
  has_undefined (VObject (kept_fields fields)) = false /\
  removeUndefinedValues VUndefined = VNull /\
  (forall elements,
     removeUndefinedValues (VArray elements)
     = VArray (map removeUndefinedValues elements)) /\
  (exists doc,
     remote1 !! uid = Some doc /\
     (forall key v,
        get key (kept_fields fields) = Some v ->
        doc !! key = Some (merge_value (old !! key) v)) /\
     (forall key,
        ~ In key (map fst (kept_fields fields)) -> doc !! key = old !! key)) /\
  (forall stored v,
     is_leaf v = true \/ (forall stored_fields, stored <> Some (VObject stored_fields)) ->
     merge_value stored v = v) /\
  (forall stored_fields written key,
     written <> [] ->
     exists merged,
       merge_value (Some (VObject stored_fields)) (VObject written)
       = VObject merged /\
       get key merged
       = match get key written with
         | Some v => Some (merge_value (get key stored_fields) v)
         | None => get key stored_fields
         end) /\
  (forall key,
     ~ In key (map fst fields) -> ~ In key (map fst (kept_fields fields))) /\
  (forall other, other <> uid -> remote1 !! other = remote0 !! other).
Proof.
  intros Save old. apply saveUserData_returns in Save as ->.
  split; [apply removeUndefinedValues_object |].
  split; [rewrite <- removeUndefinedValues_object; apply removeUndefinedValues_clean |].
  split; [reflexivity |].
  split; [reflexivity |].
  split.
  { exists (merge_document old (kept_fields fields)).
    split; [apply setDoc_merge_lookup |]. split.
    - intros key v G. now rewrite merge_document_lookup, G.
    - intros key Out. rewrite merge_document_lookup.
      apply get_None in Out. now rewrite Out. }
  split.
  { intros stored v [L | N];
      [now apply merge_value_leaf | now apply merge_value_over_no_object]. }
  split; [intros stored_fields written key; apply merge_value_objects |].
  split.
  - intros key Out I. apply Out. now apply kept_fields_keys.
  - intros other Ne. unfold setDoc_merge. now apply lookup_insert_ne.
Qed.

(** A day's log written with [weight: undefined]: the payload has no
    [weight] at all, where the specification has [weight: null]. *)
Lemma sanitizing_leaves_undefined_properties_out :
  let log := VObject [ ("date", VString "2024-03-10"); ("weight", VUndefined) ] in
  removeUndefinedValues log = VObject [ ("date", VString "2024-03-10") ] /\
  normalize_to_null log
  = VObject [ ("date", VString "2024-03-10"); ("weight", VNull) ] /\
  removeUndefinedValues log <> normalize_to_null log.
Proof. repeat split. discriminate. Qed.

Lemma saveUserData_sanitizes_then_merges_witness :
  let fields := [ ("dailyLogs",
                   VArray [ VObject [ ("date", VString "2024-03-10");
                                      ("weight", VUndefined) ] ]);
                  ("userProfile", VObject [ ("name", VString "Sam") ]);
                  ("workoutPlan", VUndefined) ] in
  let remote0 : store := {[ "uid-1" := list_to_map Samples.stored_account ]} in
  has_undefined (VObject (kept_fields fields)) = false /\
  kept_fields fields
  = [ ("dailyLogs", VArray [ VObject [ ("date", VString "2024-03-10") ] ]);
      ("userProfile", VObject [ ("name", VString "Sam") ]) ] /\
  exists doc,
    setDoc_merge remote0 "uid-1" (kept_fields fields) !! "uid-1" = Some doc /\
    doc !! "dailyLogs"
    = Some (VArray [ VObject [ ("date", VString "2024-03-10") ] ]) /\
    doc !! "userProfile"
    = Some (VObject [ ("age", VNumber 41); ("name", VString "Sam") ]) /\
    doc !! "workoutPlan"
    = Some (VObject [ ("description", VString "Four days");
                      ("planName", VString "Strength");
                      ("weeklySchedule", VArray []) ]).
Proof.
  intros fields remote0.
  destruct (saveUserData_sanitizes_then_merges Samples.working_backend remote0
              (setDoc_merge remote0 "uid-1" (kept_fields fields)) "uid-1" fields
              eq_refl) as (_ & Clean & _ & _ & (doc & L & Written & Kept) & _).
  split; [exact Clean |]. split; [reflexivity |].
  exists doc. split; [exact L |]. split; [| split].
  - rewrite (Written "dailyLogs" _ eq_refl). reflexivity.
  - rewrite (Written "userProfile" _ eq_refl). reflexivity.
  - rewrite (Kept "workoutPlan"); [reflexivity |].
    intros [E | [E | []]]; discriminate E.
Defined.

End GatewayFacts.

(* ================================================================== *)
(** * Properties of the identity resolution                            *)
(* ================================================================== *)

Module IdentityFacts.
Import Js Gateway Identity Notions GatewayFacts.

Lemma toObject_fields (d : UserData) : toObject d = VObject (object_fields d).
Proof. reflexivity. Qed.

Lemma object_fields_NoDup (d : UserData) : NoDup (map fst (object_fields d)).
Proof. apply (bool_decide_unpack _). reflexivity. Qed.

Lemma get_kept_fields (fields : list (string * value)) (key : string) :
  NoDup (map fst fields) ->
  get key (kept_fields fields)
  = match get key fields with
    | Some v => if is_undefined v then None else Some (removeUndefinedValues v)
    | None => None
    end.
Proof.
  induction fields as [| [k v] fields IH]; [reflexivity |].
  cbn [map fst]. intros N. apply NoDup_cons in N as [Nk N].
  specialize (IH N). unfold kept_fields in *.
  cbn [List.filter snd get]. destruct (String.eqb k key) eqn:E.
  - apply String.eqb_eq in E as ->.
    destruct (is_undefined v) eqn:U; cbn [negb map fst snd get].
    + apply get_None. intros I. apply Nk, list_elem_of_In.
      now apply (kept_fields_keys fields key).
    + now rewrite String.eqb_refl.
  - destruct (is_undefined v); cbn [negb map fst snd get]; [exact IH |].
    now rewrite E.
Qed.

(** A field of the document after the snapshot [d] was merged into
    [old]: what [old] held there when [d] has [undefined] for it, else
    the sanitized value of [d] merged over what [old] held. *)
Lemma field_migrated (d : UserData) (old : document) (key : string) (v : value) :
  get key (object_fields d) = Some v ->
  field (merge_document old (kept_fields (object_fields d))) key
  = if is_undefined v then field old key
    else merge_value (old !! key) (removeUndefinedValues v).
Proof.
  intros G. unfold field.
  rewrite merge_document_lookup, (get_kept_fields _ _ (object_fields_NoDup d)), G.
  now destruct (is_undefined v).
Qed.

Lemma sanitized_fixed (d : UserData) :
  has_undefined (toObject d) = false -> sanitized d = d.
Proof.
  destruct d as [a1 a2 a3 a4 a5 a6]. unfold sanitized, toObject.
  cbn [has_undefined existsb snd Identity.userProfile Identity.dailyLogs
       Identity.workoutPlan Identity.weightLog Identity.chatSessions
       Identity.activeChatSessionId].
  intros H.
  repeat match type of H with
         | (_ || _) = false => apply orb_false_iff in H as [? H]
         end.
  f_equal; now apply removeUndefinedValues_fixed.
Qed.

Lemma no_undefined_value (d : UserData) :
  has_undefined (toObject d) = false ->
  forallb (fun kv => negb (is_undefined (snd kv))) (object_fields d) = true.
Proof.
  destruct d as [a1 a2 a3 a4 a5 a6]. unfold toObject, object_fields.
  cbn [has_undefined existsb forallb snd Identity.userProfile Identity.dailyLogs
       Identity.workoutPlan Identity.weightLog Identity.chatSessions
       Identity.activeChatSessionId].
  intros H.
  repeat match type of H with
         | (_ || _) = false => apply orb_false_iff in H as [? H]
         end.
  now rewrite !is_undefined_has_undefined.
Qed.

(** The six fields read back from a document that held no object and
    was given a snapshot none of whose six values is [undefined]: the
    snapshot, sanitized. *)
Lemma asUserData_migrated (d : UserData) (old : document) :
  holds_no_object old ->
  forallb (fun kv => negb (is_undefined (snd kv))) (object_fields d) = true ->
  asUserData (merge_document old (kept_fields (object_fields d))) = sanitized d.
Proof.
  intros No Def. unfold asUserData, sanitized.
  destruct d as [a1 a2 a3 a4 a5 a6].
  cbn [forallb object_fields snd Identity.userProfile Identity.dailyLogs
       Identity.workoutPlan Identity.weightLog Identity.chatSessions
       Identity.activeChatSessionId] in *.
  repeat match type of Def with
         | (_ && _) = true => apply andb_prop in Def as [? Def]
         end.
  f_equal;
    (erewrite field_migrated by reflexivity);
    cbn [Identity.userProfile Identity.dailyLogs Identity.workoutPlan
         Identity.weightLog Identity.chatSessions Identity.activeChatSessionId];
    match goal with
    | U : negb (is_undefined ?a) = true |- context [is_undefined ?a] =>
        apply negb_true_iff in U; rewrite U
    end;
    apply merge_value_over_no_object; intros fs; apply No.
Qed.

(** With no fetched profile the callback leaves the first branch. *)
Lemma no_fetched_profile (b : Backend) (remote0 : store) (uid : string) :
  (forall doc, getUserData b remote0 uid = Some doc ->
               truthy (field doc "userProfile") = false) ->
  match getUserData b remote0 uid with
  | Some doc => truthy (userProfile (asUserData doc))
  | None => false
  end = false.
Proof.
  intros NoProfile.
  destruct (getUserData b remote0 uid) as [doc |]; [| reflexivity].
  now apply NoProfile.
Qed.




Lemma or_else_unchanged (v fallback : value) :
  loads_unchanged v fallback -> or_else v fallback = v.
Proof.
  unfold or_else. intros [-> | ->]; [reflexivity |].
  now destruct (truthy fallback).
Qed.

(** The authentication succeeds and the fetch finds, for the identity,
    a document with a profile: memory gets the stored profile and, for
    each other field, the value stored under its name or, when that is
    missing or falsy, the empty value; so a document whose fields are
    each truthy or already the empty value is loaded as it is. Nothing
    is saved and the store is unchanged. What is loaded depends on the
    document alone: a snapshot captured from a guest session plays no
    part. *)
Lemma stored_profile_wins
    (b : Backend) (uid : string) (remote0 : store) (doc : document)
    (st : AuthState) :
  getUserData b remote0 uid = Some doc ->
  truthy (field doc "userProfile") = true ->
  let r := onAuthStateChanged b (Some uid) remote0 st in
  escaped r = None /\
  writes r = [] /\
  remote r = remote0 /\
  snapshot (state r)
  = {| userProfile := field doc "userProfile";
       dailyLogs := or_else (field doc "dailyLogs") (VArray []);
       workoutPlan := or_else (field doc "workoutPlan") VNull;
       weightLog := or_else (field doc "weightLog") (VArray []);
       chatSessions := or_else (field doc "chatSessions") (VArray []);
       activeChatSessionId := or_else (field doc "activeChatSessionId") VNull |} /\
  (loads_unchanged (field doc "dailyLogs") (VArray []) ->
   loads_unchanged (field doc "workoutPlan") VNull ->
   loads_unchanged (field doc "weightLog") (VArray []) ->
   loads_unchanged (field doc "chatSessions") (VArray []) ->
   loads_unchanged (field doc "activeChatSessionId") VNull ->
   snapshot (state r)
   = {| userProfile := field doc "userProfile";
        dailyLogs := field doc "dailyLogs";
        workoutPlan := field doc "workoutPlan";
        weightLog := field doc "weightLog";
        chatSessions := field doc "chatSessions";
        activeChatSessionId := field doc "activeChatSessionId" |}) /\
  (forall st2 : AuthState,
     let r2 := onAuthStateChanged b (Some uid) remote0 st2 in
     snapshot (state r2) = snapshot (state r) /\
     writes r2 = [] /\ remote r2 = remote0).
Proof.
  intros G P r.
  assert (R : forall st0,
            onAuthStateChanged b (Some uid) remote0 st0
            = {| state := {| firebaseUser := Some uid; isGuest := false;
                             guestDataRef := guestDataRef st0;
                             snapshot :=
                               {| userProfile := or_else (field doc "userProfile") VNull;
                                  dailyLogs := or_else (field doc "dailyLogs") (VArray []);
                                  workoutPlan := or_else (field doc "workoutPlan") VNull;
                                  weightLog := or_else (field doc "weightLog") (VArray []);
                                  chatSessions :=
                                    or_else (field doc "chatSessions") (VArray []);
                                  activeChatSessionId :=
                                    or_else (field doc "activeChatSessionId") VNull |};
                             isUserDataLoading := false;
                             isAuthLoading := false |};
                 remote := remote0; writes := []; escaped := None |}).
  { intros st0. unfold onAuthStateChanged. rewrite G.
    change (truthy (userProfile (asUserData doc)))
      with (truthy (field doc "userProfile")).
    rewrite P. reflexivity. }
  assert (Prof : or_else (field doc "userProfile") VNull = field doc "userProfile").
  { apply or_else_unchanged. now left. }
  unfold r. rewrite R. cbn [state remote writes escaped snapshot].
  rewrite Prof.
  split; [reflexivity |]. split; [reflexivity |]. split; [reflexivity |].
  split; [reflexivity |]. split.
  - intros D W Wl C A.
    now rewrite !or_else_unchanged by assumption.
  - intros st2. rewrite R.
    cbn [state remote writes escaped snapshot]. now rewrite Prof.
Qed.

(** The account of the samples, read by a store that works: its six
    fields are loaded as stored, whatever the guest held. *)
Example stored_profile_wins_for_the_account :
  let doc : document := list_to_map Samples.stored_account in
  let remote0 : store := {[ "uid-1" := doc ]} in
  let st := handleSignInAttempt (Samples.as_guest Samples.guest_with_plan) in
  let r := onAuthStateChanged Samples.working_backend (Some "uid-1") remote0 st in
  writes r = [] /\ remote r = remote0 /\
  toObject (snapshot (state r)) = VObject Samples.stored_account.
Proof.
  intros doc remote0 st r.
  destruct (stored_profile_wins Samples.working_backend "uid-1" remote0 doc st)
    as (_ & W & R & _ & Same & _).
  - reflexivity.
  - reflexivity.
  - split; [exact W |]. split; [exact R |].
    fold r in Same. rewrite Same by (left; reflexivity). reflexivity.
Qed.

(** The reference cell itself is left as it was on that path; the
    sign-out callback clears it. *)
Lemma stored_profile_keeps_reference_until_sign_out
    (b : Backend) (uid : string) (remote0 : store) (doc : document)
    (st : AuthState) :
  getUserData b remote0 uid = Some doc ->
  truthy (field doc "userProfile") = true ->
  let r := onAuthStateChanged b (Some uid) remote0 st in
  guestDataRef (state r) = guestDataRef st /\
  guestDataRef (state (onAuthStateChanged b None (remote r) (state r))) = None.
Proof.
  intros G P. unfold onAuthStateChanged. rewrite G.
  change (truthy (userProfile (asUserData doc)))
    with (truthy (field doc "userProfile")).
  rewrite P. split; reflexivity.
Qed.

(** A failed read is answered as "no document": with a captured guest
    snapshot the callback then saves it and loads it, whatever the store
    holds for the identity; what was stored there has the guest
    snapshot merged into it. *)
Lemma failed_read_takes_migration_branch
    (b : Backend) (uid : string) (remote0 : store) (st : AuthState) (guest : UserData) :
  read_failure b = true ->
  guestDataRef st = Some guest ->
  let r := onAuthStateChanged b (Some uid) remote0 st in
  writes r = [ (uid, toObject guest) ] /\
  (uid <> "" -> db_ready b = true -> write_failure b = None ->
   escaped r = None /\
   snapshot (state r) = guest /\
   remote r !! uid
   = Some (merge_document (default ∅ (remote0 !! uid))
             (kept_fields (object_fields guest)))).
Proof.
  intros Rd Ref. unfold onAuthStateChanged. cbv zeta.
  assert (G : getUserData b remote0 uid = None).
  { unfold getUserData. rewrite Rd. now destruct (String.eqb uid "" || negb (db_ready b)). }
  rewrite G, Ref. split.
  - now destruct (saveUserData b remote0 uid (toObject guest)).
  - intros Ne Db Wr.
    assert (Save : saveUserData b remote0 uid (toObject guest)
                   = Returns (setDoc_merge remote0 uid
                                (kept_fields (object_fields guest)))).
    { unfold saveUserData. apply String.eqb_neq in Ne. rewrite Ne, Db, Wr.
      cbn [negb orb]. now rewrite toObject_fields, removeUndefinedValues_object. }
    rewrite Save. cbn [state remote escaped snapshot].
    split; [reflexivity |]. split; [reflexivity |]. apply setDoc_merge_lookup.
Qed.

(** C8. An account in use, a guest who starts a sign-in to it, and a
    read of the store that fails. [getUserData] answers [null], as for
    an identity without a document, and the callback takes the branch
    of the new user who was a guest: it saves the guest snapshot into
    the account's document and loads it. The document then reads back
    as the guest snapshot: the stored profile, logs, plan, weights and
    chats are gone. With the read succeeding the same sign-in loads the
    account and writes nothing. *)
Theorem failed_read_overwrites_stored_account :
  let guest := Samples.guest_with_plan in
  let account : document := list_to_map Samples.stored_account in
  let remote0 : store := {[ "uid-1" := account ]} in
  let st := handleSignInAttempt (Samples.as_guest guest) in
  let r := onAuthStateChanged Samples.unreadable_backend (Some "uid-1") remote0 st in
  let read := onAuthStateChanged Samples.working_backend (Some "uid-1") remote0 st in
  truthy (field account "userProfile") = true /\
  guestDataRef st = Some guest /\
  getUserData Samples.unreadable_backend remote0 "uid-1" = None /\
  escaped r = None /\
  writes r = [ ("uid-1", toObject guest) ] /\
  snapshot (state r) = guest /\
  option_map asUserData (remote r !! "uid-1") = Some guest /\
  asUserData account <> guest /\
  (writes read = [] /\ snapshot (state read) = asUserData account).
Proof.
  split; [reflexivity |]. split; [reflexivity |]. split; [reflexivity |].
  split; [reflexivity |]. split; [reflexivity |]. split; [reflexivity |].
  split; [vm_compute; reflexivity |]. split; [vm_compute; discriminate |].
  split; [reflexivity | vm_compute; reflexivity].
Qed.

(** The sign-in example end to end: an existing account keeps its data,
    the guest's chat is not written anywhere. *)
Example stored_profile_wins_example :
  let doc : document := list_to_map Samples.stored_fields in
  let remote0 : store := {[ "uid-1" := doc ]} in
  let st := handleSignInAttempt (Samples.as_guest (Samples.guest_data VUndefined)) in
  let r := onAuthStateChanged Samples.working_backend (Some "uid-1") remote0 st in
  userProfile (snapshot (state r)) = VObject [ ("name", VString "Alex") ] /\
  chatSessions (snapshot (state r)) = VArray [].
Proof. split; vm_compute; reflexivity. Qed.

End IdentityFacts.

(* ================================================================== *)
(** * Properties of the daily logs as a whole                          *)
(* ================================================================== *)

Module LogsFacts.
Import Orchestrator Notions Logs OrchestratorFacts.

Lemma findIndex_None_all {A : Type} (p : A -> bool) (l : list A) :
  findIndex p l = None -> Forall (fun x => p x = false) l.
Proof.
  induction l as [| a l IH]; simpl; [constructor |].
  destruct (p a) eqn:Pa; [discriminate |].
  destruct (findIndex p l); simpl; [discriminate |].
  constructor; auto.
Qed.

Lemma map_date_insert (logs : list DailyLog) (i : nat) (log y : DailyLog) :
  logs !! i = Some log -> date y = date log ->
  map date (<[i := y]> logs) = map date logs.
Proof.
  revert i. induction logs as [| a logs IH]; intros [| i]; simpl; try discriminate.
  - intros [= ->] ->. reflexivity.
  - intros L E. now rewrite (IH i L E).
Qed.

Lemma Forall_insert_at {A : Type} (P : A -> Prop) (l : list A) (i : nat) (y : A) :
  Forall P l -> P y -> Forall P (<[i := y]> l).
Proof.
  intros F Py. revert i. induction F as [| a l Pa F IH]; intros [| i]; simpl;
    constructor; auto.
Qed.

Lemma NoDup_new_date (logs : list DailyLog) (d : string) (y : DailyLog) :
  NoDup (map date logs) ->
  findIndex (fun log => String.eqb (date log) d) logs = None ->
  date y = d ->
  NoDup (map date (logs ++ [y])).
Proof.
  intros U F E. rewrite List.map_app. simpl. rewrite E.
  apply NoDup_app. split; [exact U |]. split; [| apply NoDup_singleton].
  intros x Ix Hd. apply list_elem_of_singleton in Hd as ->.
  apply list_elem_of_In, in_map_iff in Ix as (log & Ed & Il).
  pose proof (findIndex_None_all _ _ F) as N.
  rewrite List.Forall_forall in N. specialize (N log Il). simpl in N.
  rewrite Ed, String.eqb_refl in N. discriminate.
Qed.

Lemma apply_event_well_kept (logs : list DailyLog) (ev : LogEvent) :
  well_kept logs -> well_kept (apply_event logs ev).
Proof.
  intros [U S]. destruct ev as [meal d | w d]; simpl.
  - unfold addMeal_logs.
    destruct (findIndex (fun log => String.eqb (date log) d) logs) as [i |] eqn:F.
    + destruct (findIndex_Some _ _ _ F) as (log & L & D & _). rewrite L. split.
      * now rewrite (map_date_insert logs i log).
      * apply Forall_insert_at; [exact S |]. apply fold_is_sum_of.
    + split.
      * now apply (NoDup_new_date logs d).
      * apply Forall_app. split; [exact S |]. constructor; [| constructor].
        simpl. repeat split; simpl; ring.
  - unfold addWeightEntry_logs.
    destruct (findIndex (fun log => String.eqb (date log) d) logs) as [i |] eqn:F.
    + destruct (findIndex_Some _ _ _ F) as (log & L & D & _). rewrite L. split.
      * now rewrite (map_date_insert logs i log).
      * apply Forall_insert_at; [exact S |]. simpl.
        rewrite List.Forall_forall in S. apply S.
        apply list_elem_of_In. eapply list_elem_of_lookup_2. exact L.
    + split.
      * now apply (NoDup_new_date logs d).
      * apply Forall_app. split; [exact S |]. constructor; [| constructor].
        simpl. repeat split; reflexivity.
Qed.

Lemma fold_apply_event_well_kept (evs : list LogEvent) (logs : list DailyLog) :
  well_kept logs -> well_kept (fold_left apply_event evs logs).
Proof.
  revert logs. induction evs as [| ev evs IH]; intros logs W; simpl; [exact W |].
  apply IH. now apply apply_event_well_kept.
Qed.

(** X1. Whatever meals and weights are logged on a new profile, in
    whatever order and for whatever dates, the daily logs hold at most
    one log per date, and every log's [totalNutrition] is the
    element-wise sum of its meals. *)
Theorem logs_stay_well_kept (evs : list LogEvent) :
  NoDup (map date (logs_after evs)) /\
  Forall (fun log => is_sum_of (totalNutrition log) (meals log)) (logs_after evs).
Proof.
  apply (fold_apply_event_well_kept evs []). split; constructor.
Qed.

(** X2. For every date, the total the dashboard computes from the meals
    it shows is the total stored in that date's log; with no log for the
    date it shows no meals and a total of zero. *)
Theorem dashboard_total_is_stored_total (evs : list LogEvent) (selectedDate : string) :
  let logs := logs_after evs in
  match log_of selectedDate logs with
  | Some log =>
      mealsForDashboard selectedDate logs = meals log /\
      same_nutrition (totalConsumed (mealsForDashboard selectedDate logs))
                     (totalNutrition log)
  | None =>
      mealsForDashboard selectedDate logs = [] /\
      totalConsumed (mealsForDashboard selectedDate logs) = zero_nutrition
  end.
Proof.
  intros logs. unfold mealsForDashboard.
  destruct (log_of selectedDate logs) as [log |] eqn:L; [| split; reflexivity].
  split; [reflexivity |].
  destruct (fold_apply_event_well_kept evs []) as [_ S]; [split; constructor |].
  fold (logs_after evs) in S. rewrite List.Forall_forall in S.
  apply find_some in L as [Il _]. specialize (S log Il).
  destruct S as (C & P & K & F).
  destruct (fold_is_sum_of (meals log)) as (C' & P' & K' & F').
  unfold totalConsumed.
  repeat split; [rewrite C, C' | rewrite P, P' | rewrite K, K' | rewrite F, F'];
    reflexivity.
Qed.

End LogsFacts.

(* ================================================================== *)
(** * Properties of the chat session management                        *)
(* ================================================================== *)

Module SessionsFacts.
Import Orchestrator Chat Notions Sessions ChatFacts.

Lemma on_error_final (env : SendEnv) (st current : AppState)
    (active modelMessageId : string) (error : Thrown)
    (reqs : list ChatRequest) (saves : list SaveRequest) :
  exists f,
    chatSessions (final (on_error env st current active modelMessageId error reqs saves))
    = rewrite_message active modelMessageId f (chatSessions st) /\
    activeChatSessionId
      (final (on_error env st current active modelMessageId error reqs saves))
    = activeChatSessionId current.
Proof.
  unfold on_error. eexists.
  destruct (await_saveData env st (only_chatSessions _)) as [saves' thrown].
  split; reflexivity.
Qed.

(** The sessions a send leaves in memory are the ones it found, each
    passed through a function that keeps the id and changes none but the
    active one. *)
Lemma send_sessions_mapped (env : SendEnv) (message : string) (flag : bool)
    (st : AppState) :
  let r := handleSendMessage env message flag st in
  activeChatSessionId (final r) = activeChatSessionId st /\
  exists g : ChatSession -> ChatSession,
    chatSessions (final r) = map g (chatSessions st) /\
    (forall s, session_id (g s) = session_id s) /\
    (forall s, activeChatSessionId st <> Some (session_id s) -> g s = s).
Proof.
  assert (Same : activeChatSessionId st = activeChatSessionId st /\
                 exists g : ChatSession -> ChatSession,
                   chatSessions st = map g (chatSessions st) /\
                   (forall s, session_id (g s) = session_id s) /\
                   (forall s, activeChatSessionId st <> Some (session_id s) -> g s = s)).
  { split; [reflexivity |]. exists (fun s => s).
    split; [symmetry; apply List.map_id | split; auto]. }
  unfold handleSendMessage. cbv zeta.
  destruct (userProfile st) as [p |]; [| exact Same].
  destruct (activeChatSessionId st) as [active |] eqn:A;
    [| cbn [final]; rewrite A; exact Same].
  destruct (String.eqb active "") eqn:Ne;
    [cbn [final]; rewrite A; exact Same |]. clear Same.
  set (g0 := fun session : ChatSession =>
               if String.eqb (session_id session) active then _ else session).
  set (mid := "model_" +:+ now_model env).
  assert (G0 : forall s, session_id (g0 s) = session_id s).
  { intros s. unfold g0. now destruct (String.eqb (session_id s) active). }
  assert (G0' : forall s, Some active <> Some (session_id s) -> g0 s = s).
  { intros s N. unfold g0. destruct (String.eqb_spec (session_id s) active) as [E | E];
      [congruence | reflexivity]. }
  assert (RW : forall f l, exists g : ChatSession -> ChatSession,
             rewrite_message active mid f l = map g l /\
             (forall s, session_id (g s) = session_id s) /\
             (forall s, Some active <> Some (session_id s) -> g s = s)).
  { intros f l. eexists. split; [reflexivity |]. split; intros s.
    - now destruct (String.eqb (session_id s) active).
    - intros N. destruct (String.eqb_spec (session_id s) active) as [E | E];
        [congruence | reflexivity]. }
  assert (Err : forall cur e reqs saves,
            activeChatSessionId cur = Some active ->
            let r := on_error env st cur active mid e reqs saves in
            activeChatSessionId (final r) = Some active /\
            exists g : ChatSession -> ChatSession,
              chatSessions (final r) = map g (chatSessions st) /\
              (forall s, session_id (g s) = session_id s) /\
              (forall s, Some active <> Some (session_id s) -> g s = s)).
  { intros cur e reqs saves Ac r. unfold r.
    destruct (on_error_final env st cur active mid e reqs saves) as (f & E1 & E2).
    rewrite E1, E2. split; [exact Ac |]. apply RW. }
  assert (Comp : forall f, exists g : ChatSession -> ChatSession,
             rewrite_message active mid f (map g0 (chatSessions st))
             = map g (chatSessions st) /\
             (forall s, session_id (g s) = session_id s) /\
             (forall s, Some active <> Some (session_id s) -> g s = s)).
  { intros f. destruct (RW f (map g0 (chatSessions st))) as (g & E & I & O).
    exists (fun s => g (g0 s)). rewrite E, List.map_map.
    split; [reflexivity |]. split; intros s.
    - now rewrite I, G0.
    - intros N. rewrite (G0' s N). now apply O. }
  destruct (List.find _ (map g0 (chatSessions st))) as [currentSession |];
    [| now apply Err].
  destruct (fetch env) as [| e | chunks failure]; [now apply Err | now apply Err |].
  rewrite stream_loop_result.
  assert (Streamed : exists g : ChatSession -> ChatSession,
             match chunks with
             | [] => map g0 (chatSessions st)
             | _ :: _ =>
                 rewrite_message active mid
                   (fun m => with_response m (text_after "" chunks)
                                             (grounding_after None chunks))
                   (map g0 (chatSessions st))
             end = map g (chatSessions st) /\
             (forall s, session_id (g s) = session_id s) /\
             (forall s, Some active <> Some (session_id s) -> g s = s)).
  { destruct chunks; [| apply Comp]. exists g0. auto. }
  destruct failure as [e |]; [now apply Err |].
  destruct (await_saveData env st (only_chatSessions _)) as [saves [e |]];
    [now apply Err |].
  split; [exact A | exact Streamed].
Qed.

(** X3. A send, however it ends, leaves the list of sessions with the
    same ids in the same order, keeps the active id, and changes no
    session but the active one. *)
Theorem send_touches_only_the_active_session
    (env : SendEnv) (message : string) (flag : bool) (st : AppState) :
  let r := handleSendMessage env message flag st in
  activeChatSessionId (final r) = activeChatSessionId st /\
  map session_id (chatSessions (final r)) = map session_id (chatSessions st) /\
  forall (i : nat) (s : ChatSession),
    chatSessions st !! i = Some s ->
    activeChatSessionId st <> Some (session_id s) ->
    chatSessions (final r) !! i = Some s.
Proof.
  intros r. destruct (send_sessions_mapped env message flag st) as (A & g & E & I & O).
  fold r in A, E. split; [exact A |]. rewrite E. split.
  - rewrite List.map_map. apply List.map_ext. exact I.
  - intros i s L N. rewrite list_lookup_fmap, L. simpl. now rewrite (O s N).
Qed.

Lemma filter_other_ids (chatId : string) (cs : list ChatSession) :
  ~ In chatId
      (map session_id
         (List.filter (fun c => negb (String.eqb (session_id c) chatId)) cs)).
Proof.
  intros I. apply in_map_iff in I as (s & E & Is).
  apply filter_In in Is as [_ N]. rewrite E, String.eqb_refl in N. discriminate.
Qed.

Lemma handleDeleteChat_listed (chatId : string) (st : AppState) :
  active_is_listed st -> active_is_listed (fst (handleDeleteChat chatId st)).
Proof.
  unfold active_is_listed.
  cbn [fst handleDeleteChat set_activeChatSessionId set_chatSessions
       chatSessions activeChatSessionId].
  destruct (activeChatSessionId st) as [active |]; [| auto].
  destruct (String.eqb_spec active chatId) as [-> | Ne].
  - intros _.
    destruct (List.filter _ (chatSessions st)) as [| first rest]; [exact I |].
    simpl. now left.
  - intros I. apply in_map_iff in I as (s & E & Is).
    apply in_map_iff. exists s. split; [exact E |].
    apply filter_In. split; [exact Is |].
    rewrite E. apply String.eqb_neq in Ne. now rewrite Ne.
Qed.

(** X4. Deleting a chat leaves no session with that id and keeps every
    other session; the active id afterwards is never the deleted one: it
    is unchanged when another chat was active, and otherwise the first
    remaining session's, or none. An active id that named a session of
    the list still names one. *)
Theorem handleDeleteChat_effects (chatId : string) (st : AppState) :
  let st' := fst (handleDeleteChat chatId st) in
  ~ In chatId (map session_id (chatSessions st')) /\
  (forall s, In s (chatSessions st') <->
             In s (chatSessions st) /\ session_id s <> chatId) /\
  activeChatSessionId st' <> Some chatId /\
  (activeChatSessionId st <> Some chatId ->
   activeChatSessionId st' = activeChatSessionId st) /\
  (activeChatSessionId st = Some chatId ->
   activeChatSessionId st' = option_map session_id (head (chatSessions st'))) /\
  (active_is_listed st -> active_is_listed st').
Proof.
  cbn [fst handleDeleteChat set_activeChatSessionId set_chatSessions
       chatSessions activeChatSessionId].
  set (rest := List.filter _ (chatSessions st)).
  pose proof (filter_other_ids chatId (chatSessions st)) as Gone. fold rest in Gone.
  split; [exact Gone |]. split.
  { intros s. unfold rest. rewrite filter_In. split; intros [I N]; split; auto.
    - intros E. rewrite E, String.eqb_refl in N. discriminate.
    - apply String.eqb_neq in N. now rewrite N. }
  split; [| split; [| split; [| apply handleDeleteChat_listed]]].
  - destruct (activeChatSessionId st) as [active |]; [| discriminate].
    destruct (String.eqb_spec active chatId) as [-> | Ne]; [| congruence].
    destruct rest as [| first rest']; [discriminate |].
    intros [= E]. apply Gone. simpl. now left.
  - intros N. destruct (activeChatSessionId st) as [active |]; [| reflexivity].
    destruct (String.eqb_spec active chatId) as [-> | Ne]; [congruence | reflexivity].
  - intros ->. rewrite String.eqb_refl. now destruct rest.
Qed.

Lemma filter_fresh_id (chatId : string) (cs : list ChatSession) :
  ~ In chatId (map session_id cs) ->
  List.filter (fun c => negb (String.eqb (session_id c) chatId)) cs = cs.
Proof.
  induction cs as [| s cs IH]; simpl; [reflexivity |].
  intros N. destruct (String.eqb_spec (session_id s) chatId) as [E | E]; simpl.
  - exfalso. apply N. now left.
  - rewrite IH; [reflexivity |]. intros I. apply N. now right.
Qed.

(** X5. A new chat becomes the active session, empty and in front of the
    others. Deleting it again (its id being new) gives back the same
    list of sessions, but the active chat is then the first of the list
    (none for an empty list), whichever chat was active before. *)
Theorem new_chat_then_delete (now created : string) (st : AppState) :
  ~ In ("chat_" +:+ now) (map session_id (chatSessions st)) ->
  let st1 := fst (handleCreateNewChat now created st) in
  let st2 := fst (handleDeleteChat ("chat_" +:+ now) st1) in
  activeChatSession st1
  = Some {| session_id := "chat_" +:+ now; session_title := "New Chat";
            history := []; createdAt := created |} /\
  tail (chatSessions st1) = chatSessions st /\
  chatSessions st2 = chatSessions st /\
  activeChatSessionId st2 = option_map session_id (head (chatSessions st)).
Proof.
  intros Fresh.
  cbn [fst handleCreateNewChat handleDeleteChat set_activeChatSessionId
       set_chatSessions chatSessions activeChatSessionId session_id].
  split.
  { unfold activeChatSession.
    cbn [activeChatSessionId chatSessions set_activeChatSessionId set_chatSessions
         List.find session_id].
    now rewrite String.eqb_refl. }
  split; [reflexivity |].
  cbn [List.filter session_id]. rewrite !String.eqb_refl. cbn [negb].
  rewrite (filter_fresh_id _ _ Fresh).
  split; [reflexivity |]. now destruct (chatSessions st).
Qed.

Lemma new_chat_then_delete_witness :
  let st := Samples.signed_in Samples.old_chat in
  let st1 := fst (handleCreateNewChat "1710061300000" "2024-03-10T09:01:40.000Z" st) in
  let st2 := fst (handleDeleteChat "chat_1710061300000" st1) in
  chatSessions st2 = [Samples.old_chat] /\
  activeChatSessionId st2 = Some "chat_1".
Proof.
  intros st st1 st2.
  destruct (new_chat_then_delete "1710061300000" "2024-03-10T09:01:40.000Z" st)
    as (_ & _ & S & A).
  - simpl. intros [E | []]. discriminate E.
  - split; [exact S | exact A].
Defined.

Lemma on_error_final_same (env : SendEnv) (st current : AppState)
    (active modelMessageId : string) (error : Thrown)
    (reqs reqs' : list ChatRequest) (saves saves' : list SaveRequest) :
  final (on_error env st current active modelMessageId error reqs saves)
  = final (on_error env st current active modelMessageId error reqs' saves').
Proof.
  unfold on_error.
  now destruct (await_saveData env st (only_chatSessions _)).
Qed.

Lemma rewrite_message_ids (active modelMessageId : string)
    (f : ChatMessage -> ChatMessage) (l : list ChatSession) :
  map session_id (rewrite_message active modelMessageId f l) = map session_id l.
Proof.
  unfold rewrite_message. rewrite List.map_map. apply List.map_ext.
  intros s. now destruct (String.eqb (session_id s) active).
Qed.

Lemma send_start_ids (env : SendEnv) (message : string) (st : AppState) :
  let s' := send_start env message st in
  activeChatSessionId (fst s') = activeChatSessionId st /\
  map session_id (chatSessions (fst s')) = map session_id (chatSessions st) /\
  (forall p, snd s' = Some p -> seen p = st).
Proof.
  unfold send_start.
  destruct (userProfile st) as [profile |]; [| now repeat split].
  destruct (activeChatSessionId st) as [active |] eqn:A;
    [| cbn [fst snd]; rewrite A; now repeat split].
  destruct (String.eqb active ""); [cbn [fst snd]; rewrite A; now repeat split |].
  cbv zeta.
  set (updated := map _ (chatSessions st)).
  assert (U : map session_id updated = map session_id (chatSessions st)).
  { unfold updated. rewrite List.map_map. apply List.map_ext.
    intros s. now destruct (String.eqb (session_id s) active). }
  destruct (List.find _ updated) as [current |]; cbn [fst snd].
  - split; [exact A |]. split; [exact U |]. now intros p [= <-].
  - destruct (on_error_final env st
                (set_chatSessions (set_isAiReplying st true) updated) active
                ("model_" +:+ now_model env) (Error_ "Active session not found")
                [] []) as (f & E1 & E2).
    rewrite E1, E2. split; [exact A |].
    split; [apply rewrite_message_ids | discriminate].
Qed.

(** Every event keeps the active chat listed, but the failure of a send
    whose closure holds a list without it. *)
Lemma handle_keeps_listed (s : Surface) (ev : ChatEvent) :
  active_is_listed (fst s) ->
  match ev with
  | SwitchChat sessionId => In sessionId (map session_id (chatSessions (fst s)))
  | _ => True
  end ->
  loses_active_chat s ev = false ->
  active_is_listed (fst (handle s ev)).
Proof.
  intros L Ok Calm.
  destruct ev as [now created | chatId | sessionId | env message flag | step].
  - unfold active_is_listed. simpl. now left.
  - now apply handleDeleteChat_listed.
  - exact Ok.
  - cbn [handle].
    destruct (String.eqb (Text.trim message) "" || isAiReplying (fst s));
      [exact L |].
    destruct (send_start_ids env message (fst s)) as (A & I & _).
    unfold active_is_listed in *. rewrite A, I. exact L.
  - cbn [handle]. destruct s as [current [p |]]; [| exact L].
    cbn [fst snd] in *. destruct step as [chunk | error |].
    + unfold active_is_listed in *. cbn [send_step fst].
      cbn [activeChatSessionId chatSessions set_chatSessions].
      rewrite rewrite_message_ids. exact L.
    + unfold active_is_listed in *. cbn [send_step fst].
      destruct (on_error_final (send_env p) (seen p) current (target p)
                  (placeholder_id p) error [] []) as (f & E1 & E2).
      rewrite E1, E2, rewrite_message_ids.
      unfold loses_active_chat in Calm. cbn [fst snd] in Calm.
      destruct (activeChatSessionId current) as [active |]; [| exact I].
      apply negb_false_iff, existsb_exists in Calm as (x & I & E).
      apply String.eqb_eq in E as ->. exact I.
    + exact L.
Qed.

(** X6. The window leaves its buttons enabled while a send is in
    flight, so other events land between the steps of a send. Through
    any such run (new chat, delete, switch to a session of the list,
    send, arrival of a chunk, failure or completion of the send in
    flight) the active id, when there is one, names a session of the
    list, provided no send fails while the list its closure holds lacks
    the chat then active. That one event breaks it: it puts the
    closure's list back and leaves the active id. *)
Theorem active_chat_stays_listed (evs : list ChatEvent) (s : Surface)
    (Listed : active_is_listed (fst s))
    (Offered : offered evs s)
    (Kept : keeps_active_chat evs s) :
  active_is_listed (fst (fold_left handle evs s)) /\
  (forall ev, loses_active_chat s ev = true ->
              ~ active_is_listed (fst (handle s ev))).
Proof.
  split.
  - revert s Listed Offered Kept.
    induction evs as [| ev evs IH]; intros s L Ok Calm; simpl; [exact L |].
    destruct Ok as [Ok Rest]. destruct Calm as [Calm Later].
    apply IH; [| exact Rest | exact Later].
    now apply handle_keeps_listed.
  - intros ev Lost. unfold loses_active_chat in Lost.
    destruct ev as [| | | | [| error |]]; try discriminate.
    destruct s as [current [p |]]; cbn [fst snd] in *; [| discriminate].
    destruct (activeChatSessionId current) as [active |] eqn:A; [| discriminate].
    unfold active_is_listed. cbn [handle snd fst send_step].
    destruct (on_error_final (send_env p) (seen p) current (target p)
                (placeholder_id p) error [] []) as (f & E1 & E2).
    rewrite E1, E2, A, rewrite_message_ids. intros I.
    apply negb_true_iff in Lost.
    assert (T : existsb (String.eqb active)
                  (map session_id (chatSessions (seen p))) = true).
    { apply existsb_exists. exists active. split; [exact I |].
      apply String.eqb_refl. }
    congruence.
Qed.

Lemma active_chat_stays_listed_witness :
  let s : Surface := (Samples.signed_in Samples.old_chat, None) in
  let evs := [ SendMessage Samples.answers_hello "Hi" false;
               NewChat "1710061300000" "2024-03-10T09:01:40.000Z";
               Progresses (Arrives {| chunk_text := Some "Hel";
                                      chunk_grounding := None |});
               DeleteChat "chat_1710061300000";
               Progresses (Fails (Error_ "The stream was interrupted."));
               NewChat "1710061400000" "2024-03-10T09:03:20.000Z";
               SwitchChat "chat_1" ] in
  active_is_listed (fst (fold_left handle evs s)) /\
  activeChatSessionId (fst (fold_left handle evs s)) = Some "chat_1".
Proof.
  intros s evs. split; [| reflexivity].
  apply (active_chat_stays_listed evs s).
  - simpl. now left.
  - cbn. repeat split. now right; left.
  - cbn. repeat split.
Defined.

(** A send that nothing interrupts: its start and its steps, one after
    the other, leave the state [handleSendMessage] leaves. *)
Lemma arrivals_are_the_loop (chunks : list StreamChunk) (p : InFlight)
    (current : AppState) :
  fold_left handle (map (fun c => Progresses (Arrives c)) chunks) (current, Some p)
  = let '(finalResponse, latestGroundingChunks, streamed) :=
      stream_loop (target p) (placeholder_id p) chunks (received p)
        (grounding_so_far p) (chatSessions current) in
    (set_chatSessions current streamed,
     Some {| send_env := send_env p; seen := seen p; target := target p;
             placeholder_id := placeholder_id p;
             received := finalResponse;
             grounding_so_far := latestGroundingChunks |}).
Proof.
  revert p current. induction chunks as [| c chunks IH]; intros p current.
  - cbn. now destruct p, current.
  - cbn [map fold_left handle snd fst send_step stream_loop].
    rewrite IH.
    cbn [target placeholder_id received grounding_so_far send_env seen
         chatSessions set_chatSessions].
    now destruct (stream_loop _ _ chunks _ _ _) as [[fr lg] streamed].
Qed.

Lemma uninterrupted_send (env : SendEnv) (message : string) (flag : bool)
    (st : AppState) :
  Text.trim message <> "" ->
  isAiReplying st = false ->
  fst (fold_left handle
         (SendMessage env message flag :: map Progresses (steps_of env st))
         (st, None))
  = final (handleSendMessage env message flag st).
Proof.
  intros Said Idle. cbn [fold_left handle fst snd].
  apply String.eqb_neq in Said. rewrite Said, Idle. cbn [orb].
  assert (Stay : forall evs (x : AppState),
            fst (fold_left handle (map Progresses evs) (x, None)) = x).
  { induction evs as [| ev evs IH]; intros x; [reflexivity | apply IH]. }
  unfold send_start, handleSendMessage.
  destruct (userProfile st) as [profile |]; [| apply Stay].
  destruct (activeChatSessionId st) as [active |]; [| apply Stay].
  destruct (String.eqb active ""); [apply Stay |].
  cbv zeta.
  set (updated := map _ (chatSessions st)).
  set (mid := "model_" +:+ now_model env).
  set (sending := set_chatSessions (set_isAiReplying st true) updated).
  destruct (List.find _ updated) as [currentSession |]; [| apply Stay].
  unfold steps_of.
  destruct (fetch env) as [| e | chunks failure].
  - cbn [map fold_left handle snd fst send_step send_env seen target placeholder_id].
    apply on_error_final_same.
  - cbn [map fold_left handle snd fst send_step send_env seen target placeholder_id].
    apply on_error_final_same.
  - rewrite List.map_app, fold_left_app, List.map_map.
    rewrite (arrivals_are_the_loop chunks _ sending).
    cbn [target placeholder_id received grounding_so_far send_env seen].
    change (chatSessions sending) with updated.
    destruct (stream_loop active mid chunks "" None updated)
      as [[finalResponse latestGroundingChunks] streamed].
    destruct failure as [e |].
    + cbn [map fold_left handle snd fst send_step send_env seen target placeholder_id].
      apply on_error_final_same.
    + unfold await_saveData, saveData.
      destruct (firebaseUser st) as [uid |]; [| reflexivity].
      destruct (save_failure env) as [e |]; [| reflexivity].
      cbn [map fold_left handle snd fst send_step send_env seen target placeholder_id].
      apply on_error_final_same.
Qed.

Lemma find_all_false {A : Type} (f : A -> bool) (l : list A) :
  (forall x, In x l -> f x = false) -> List.find f l = None.
Proof.
  induction l as [| x l IH]; [reflexivity |]. intros H. cbn [List.find].
  rewrite (H x) by now left. apply IH. intros y I. apply H. now right.
Qed.

(** X30. A chat made while a send is in flight is lost when the send
    fails. The user sends a message, presses New Chat while the answer
    is awaited, and the send then fails, at whatever point: the [catch]
    clause puts back the list the send's closure holds, so the list is
    the one from before the send (the new chat gone, and with it the
    user's message), while the active id still names the new chat: no
    session is active, although the list is not empty. *)
Theorem new_chat_during_failing_send_is_lost
    (env : SendEnv) (message : string) (flag : bool) (now created : string)
    (arrived : list StreamChunk) (error : Thrown) (st : AppState)
    (profile : UserProfile) (active : string)
    (Profile : userProfile st = Some profile)
    (Active : activeChatSessionId st = Some active)
    (Listed : In active (map session_id (chatSessions st)))
    (Named : active <> "")
    (Said : Text.trim message <> "")
    (Idle : isAiReplying st = false)
    (Fresh : ~ In ("chat_" +:+ now) (map session_id (chatSessions st)))
    (New : forall s m, In s (chatSessions st) -> In m (history s) ->
                       has_id m ("model_" +:+ now_model env) = false) :
  let evs := SendMessage env message flag
             :: NewChat now created
             :: map (fun c => Progresses (Arrives c)) arrived
             ++ [ Progresses (Fails error) ] in
  let after := fst (fold_left handle evs (st, None)) in
  chatSessions after = chatSessions st /\
  activeChatSessionId after = Some ("chat_" +:+ now) /\
  activeChatSession after = None /\
  ~ active_is_listed after /\
  isAiReplying after = false.
Proof.
  intros evs after.
  assert (Started : exists sending p,
             send_start env message st = (sending, Some p) /\
             seen p = st /\ target p = active /\
             placeholder_id p = "model_" +:+ now_model env).
  { unfold send_start. rewrite Profile, Active.
    apply String.eqb_neq in Named. rewrite Named. cbv zeta.
    set (updated := map _ (chatSessions st)).
    destruct (List.find (fun s => String.eqb (session_id s) active) updated)
      as [current |] eqn:F.
    - eexists. eexists. split; [reflexivity |]. repeat split.
    - exfalso. apply in_map_iff in Listed as (s & E & I).
      pose proof (List.find_none _ _ F) as Missing. unfold updated in Missing.
      specialize (Missing _ (List.in_map _ _ _ I)). cbn beta in Missing.
      rewrite E, String.eqb_refl in Missing. cbn [session_id] in Missing.
      rewrite String.eqb_refl in Missing. discriminate Missing. }
  destruct Started as (sending & p & Start & Seen & Target & Placeholder).
  assert (Run : fold_left handle evs (st, None)
                = handle
                    (fold_left handle
                       (map (fun c => Progresses (Arrives c)) arrived)
                       (fst (handleCreateNewChat now created sending), Some p))
                    (Progresses (Fails error))).
  { unfold evs. cbn [fold_left handle fst snd].
    apply String.eqb_neq in Said. rewrite Said, Idle, Start.
    cbn [orb fst snd]. now rewrite fold_left_app. }
  unfold after. rewrite Run, arrivals_are_the_loop.
  destruct (stream_loop _ _ arrived _ _ _) as [[fr lg] streamed].
  cbn [handle snd fst send_step send_env seen target placeholder_id].
  destruct (on_error_final (send_env p) (seen p)
              (set_chatSessions (fst (handleCreateNewChat now created sending))
                 streamed)
              (target p) (placeholder_id p) error [] []) as (f & E1 & E2).
  assert (Flag : forall cur,
            isAiReplying
              (final (on_error (send_env p) (seen p) cur (target p)
                        (placeholder_id p) error [] [])) = false).
  { intros cur. unfold on_error.
    now destruct (await_saveData (send_env p) (seen p) (only_chatSessions _)). }
  assert (Back : chatSessions
                   (final (on_error (send_env p) (seen p)
                             (set_chatSessions
                                (fst (handleCreateNewChat now created sending))
                                streamed)
                             (target p) (placeholder_id p) error [] []))
                 = chatSessions st).
  { rewrite E1, Seen, Target, Placeholder. now apply rewrite_message_fresh. }
  assert (Act : activeChatSessionId
                  (final (on_error (send_env p) (seen p)
                            (set_chatSessions
                               (fst (handleCreateNewChat now created sending))
                               streamed)
                            (target p) (placeholder_id p) error [] []))
                = Some ("chat_" +:+ now)).
  { rewrite E2. reflexivity. }
  split; [exact Back |]. split; [exact Act |]. split; [| split; [| apply Flag]].
  - unfold activeChatSession. rewrite Act, Back.
    apply find_all_false. intros s I.
    destruct (String.eqb_spec (session_id s) ("chat_" +:+ now)) as [E | E];
      [| reflexivity].
    elim Fresh. rewrite <- E. now apply in_map.
  - unfold active_is_listed. rewrite Act, Back. exact Fresh.
Qed.

Lemma new_chat_during_failing_send_is_lost_witness :
  let st := Samples.signed_in Samples.old_chat in
  let evs := [ SendMessage Samples.answers_hello "Hi" false;
               NewChat "1710061300000" "2024-03-10T09:01:40.000Z";
               Progresses (Arrives {| chunk_text := Some "Hel";
                                      chunk_grounding := None |});
               Progresses (Fails (Error_ "The stream was interrupted.")) ] in
  let after := fst (fold_left handle evs (st, None)) in
  chatSessions after = [ Samples.old_chat ] /\
  activeChatSessionId after = Some "chat_1710061300000" /\
  activeChatSession after = None.
Proof.
  intros st evs after.
  destruct (new_chat_during_failing_send_is_lost Samples.answers_hello "Hi" false
              "1710061300000" "2024-03-10T09:01:40.000Z"
              [ {| chunk_text := Some "Hel"; chunk_grounding := None |} ]
              (Error_ "The stream was interrupted.") st Samples.sam "chat_1")
    as (L & A & S & _); try reflexivity.
  - simpl. now left.
  - discriminate.
  - discriminate.
  - simpl. intros [E | []]. discriminate E.
  - intros s m [<- | []] [<- | [<- | []]]; reflexivity.
  - split; [exact L |]. split; [exact A | exact S].
Defined.

Lemma substring_whole (s : string) (n : nat) :
  (String.length s <= n)%nat -> String.substring 0 n s = s.
Proof.
  revert n. induction s as [| c s IH]; intros [| n]; simpl; try reflexivity; try lia.
  intros L. rewrite IH; [reflexivity | lia].
Qed.

Lemma substring_length (s : string) (n : nat) :
  (n <= String.length s)%nat -> String.length (String.substring 0 n s) = n.
Proof.
  revert n. induction s as [| c s IH]; intros [| n]; simpl; try reflexivity; try lia.
  intros L. rewrite IH; [reflexivity | lia].
Qed.

Lemma substring_prefix (s : string) (n : nat) :
  String.prefix (String.substring 0 n s) s = true.
Proof.
  revert n. induction s as [| c s IH]; intros [| n]; simpl; try reflexivity.
  destruct (ascii_dec c c) as [_ | N]; [apply IH | now elim N].
Qed.

Lemma string_app_nil_r (s : string) : s +:+ "" = s.
Proof.
  induction s as [| c s IH]; [reflexivity |].
  change (String c (s +:+ "") = String c s). now rewrite IH.
Qed.

Lemma string_app_assoc (a b c : string) : (a +:+ b) +:+ c = a +:+ (b +:+ c).
Proof.
  induction a as [| x a IH]; [reflexivity |].
  change (String x ((a +:+ b) +:+ c) = String x (a +:+ (b +:+ c))). now rewrite IH.
Qed.

Lemma string_app_length (a b : string) :
  String.length (a +:+ b) = (String.length a + String.length b)%nat.
Proof.
  induction a as [| x a IH]; [reflexivity |].
  change (S (String.length (a +:+ b)) = S (String.length a + String.length b)).
  now rewrite IH.
Qed.

Lemma derived_title_short (message : string) :
  (String.length message <= 30)%nat -> derived_title message = message.
Proof.
  intros L. unfold derived_title. rewrite (substring_whole _ _ L).
  assert (E : (30 <? String.length message)%nat = false) by (apply Nat.ltb_ge; lia).
  rewrite E. apply string_app_nil_r.
Qed.

Lemma derived_title_long (message : string) :
  (30 < String.length message)%nat ->
  derived_title message = String.substring 0 30 message +:+ "..." /\
  String.length (derived_title message) = 33%nat.
Proof.
  intros L. unfold derived_title.
  assert (E : (30 <? String.length message)%nat = true) by (apply Nat.ltb_lt; lia).
  rewrite E. split; [reflexivity |].
  rewrite string_app_length, substring_length by lia. reflexivity.
Qed.

(** X7. When a send completes, an active session that had no message
    gets its title from the user's text: the text itself when it has at
    most 30 characters, else its first 30 characters followed by "...";
    an active session that already had messages keeps its title. *)
Theorem first_message_names_the_session
    (env : SendEnv) (message : string) (flag : bool) (st : AppState)
    (active : string) (p : UserProfile) (chunks : list StreamChunk)
    (i : nat) (s : ChatSession) :
  userProfile st = Some p ->
  activeChatSessionId st = Some active -> active <> "" ->
  (forall s m, In s (chatSessions st) -> In m (history s) ->
               has_id m ("model_" +:+ now_model env) = false) ->
  fetch env = Streams chunks None ->
  save_failure env = None ->
  chatSessions st !! i = Some s -> session_id s = active ->
  exists s',
    chatSessions (final (handleSendMessage env message flag st)) !! i = Some s' /\
    (history s <> [] -> session_title s' = session_title s) /\
    (history s = [] ->
       session_title s' = derived_title message /\
       String.prefix (String.substring 0 30 message) message = true /\
       ((String.length message <= 30)%nat -> session_title s' = message) /\
       ((30 < String.length message)%nat ->
          session_title s' = String.substring 0 30 message +:+ "..." /\
          String.length (session_title s') = 33%nat)).
Proof.
  intros P A Ne Fresh F Sv L Es.
  destruct (send_success_memory env message flag st active p chunks P A Ne)
    as (_ & _ & M); try assumption.
  { exists s. split; [| exact Es].
    apply list_elem_of_In. eapply list_elem_of_lookup_2. exact L. }
  rewrite M, list_lookup_fmap, L. cbn [fmap option_fmap option_map].
  rewrite Es, String.eqb_refl. eexists. split; [reflexivity |].
  cbn [session_title]. split.
  - intros N. destruct (history s); [now elim N | reflexivity].
  - intros ->. cbn [List.length Nat.eqb]. fold (derived_title message).
    split; [reflexivity |]. split; [apply substring_prefix |]. split.
    + apply derived_title_short.
    + apply derived_title_long.
Qed.

Lemma first_message_names_the_session_witness :
  let long := "What should I eat before a 5k run tomorrow morning?" in
  exists s',
    chatSessions (final (handleSendMessage Samples.answers_hello long false
                           (Samples.signed_in Samples.new_chat))) !! 0%nat
    = Some s' /\
    session_title s' = "What should I eat before a 5k ...".
Proof.
  intros long.
  destruct (first_message_names_the_session Samples.answers_hello long false
              (Samples.signed_in Samples.new_chat) "chat_1" Samples.sam
              [ {| chunk_text := Some "Hel"; chunk_grounding := None |};
                {| chunk_text := Some "lo"; chunk_grounding := None |} ]
              0%nat Samples.new_chat)
    as (s' & L & _ & T); try reflexivity.
  - discriminate.
  - intros s m [<- | []] [].
  - exists s'. split; [exact L |].
    destruct (T eq_refl) as (_ & _ & _ & Long).
    destruct Long as [E _]; [simpl; lia | exact E].
Defined.

Lemma text_after_concat (chunks : list StreamChunk) (acc : string) :
  text_after acc chunks = acc +:+ String.concat "" (map appended chunks).
Proof.
  revert acc. induction chunks as [| c chunks IH]; intros acc.
  - simpl. symmetry. apply string_app_nil_r.
  - change (text_after acc (c :: chunks))
      with (text_after (acc +:+ appended c) chunks).
    rewrite IH, string_app_assoc. f_equal.
    destruct chunks as [| c' chunks]; [apply string_app_nil_r | reflexivity].
Qed.

Lemma last_cons_default {A : Type} (x d : A) (l : list A) :
  List.last (x :: l) d = List.last l x.
Proof.
  revert x d. induction l as [| y l IH]; intros x d; [reflexivity |].
  change (List.last (x :: y :: l) d) with (List.last (y :: l) d).
  rewrite IH. symmetry. apply IH.
Qed.

Lemma grounding_after_last (chunks : list StreamChunk)
    (latest : option (list GroundingSource)) :
  grounding_after latest chunks = List.last (map Some (carried chunks)) latest.
Proof.
  revert latest. induction chunks as [| c chunks IH]; intros latest; [reflexivity |].
  change (grounding_after latest (c :: chunks))
    with (grounding_after
            match chunk_grounding c with
            | Some g => Some (map (fun s => {| uri := uri s; title := title s |}) g)
            | None => latest
            end chunks).
  rewrite IH. unfold carried. cbn [flat_map].
  destruct (chunk_grounding c) as [g |]; [| reflexivity].
  assert (E : map (fun s => {| uri := uri s; title := title s |}) g = g).
  { etransitivity; [| apply List.map_id]. apply List.map_ext. now intros []. }
  rewrite E. cbn [app map]. symmetry. apply last_cons_default.
Qed.

(** X8. When a send completes, whatever the number of chunks, the
    active session's history is the history it had followed by exactly
    two messages: the user's, and the placeholder under the id it was
    given at the start, whose text is the concatenation, in arrival
    order, of what each chunk appended (its text, or the word
    "undefined" for a chunk that carried no text) and whose grounding is
    that of the last chunk that carried one (none if no chunk did). *)
Theorem completed_send_appends_two_messages
    (env : SendEnv) (message : string) (flag : bool) (st : AppState)
    (active : string) (p : UserProfile) (chunks : list StreamChunk)
    (i : nat) (s : ChatSession) :
  userProfile st = Some p ->
  activeChatSessionId st = Some active -> active <> "" ->
  (forall s m, In s (chatSessions st) -> In m (history s) ->
               has_id m ("model_" +:+ now_model env) = false) ->
  fetch env = Streams chunks None ->
  save_failure env = None ->
  chatSessions st !! i = Some s -> session_id s = active ->
  exists s' u m,
    chatSessions (final (handleSendMessage env message flag st)) !! i = Some s' /\
    history s' = history s ++ [u; m] /\
    List.length (history s') = (List.length (history s) + 2)%nat /\
    role u = user /\ parts u = [ {| text := message |} ] /\
    role m = model /\ msg_id m = Some ("model_" +:+ now_model env) /\
    parts m
    = [ {| text := String.concat ""
                     (map (fun chunk => match chunk_text chunk with
                                        | Some t => t
                                        | None => "undefined"
                                        end) chunks) |} ] /\
    grounding m = last_grounding chunks.
Proof.
  intros P A Ne Fresh F Sv L Es.
  destruct (send_success_memory env message flag st active p chunks P A Ne)
    as (_ & _ & M); try assumption.
  { exists s. split; [| exact Es].
    apply list_elem_of_In. eapply list_elem_of_lookup_2. exact L. }
  rewrite M, list_lookup_fmap, L. cbn [fmap option_fmap option_map].
  rewrite Es, String.eqb_refl. eexists. eexists. eexists.
  split; [reflexivity |]. cbn [history role parts msg_id grounding].
  split; [reflexivity |].
  split; [rewrite List.length_app; reflexivity |].
  repeat (split; [reflexivity |]).
  split; [now rewrite text_after_concat | apply grounding_after_last].
Qed.

Lemma completed_send_appends_two_messages_witness :
  exists s' u m,
    chatSessions (final (handleSendMessage Samples.answers_hello "Hi" false
                           (Samples.signed_in Samples.old_chat))) !! 0%nat
    = Some s' /\
    history s' = Samples.earlier_turns ++ [u; m] /\
    parts m = [ {| text := "Hello" |} ].
Proof.
  destruct (completed_send_appends_two_messages Samples.answers_hello "Hi" false
              (Samples.signed_in Samples.old_chat) "chat_1" Samples.sam
              [ {| chunk_text := Some "Hel"; chunk_grounding := None |};
                {| chunk_text := Some "lo"; chunk_grounding := None |} ]
              0%nat Samples.old_chat)
    as (s' & u & m & L & H & _ & _ & _ & _ & _ & T & _); try reflexivity.
  - discriminate.
  - intros s m [<- | []] [<- | [<- | []]]; reflexivity.
  - exists s', u, m. split; [exact L |]. split; [exact H | exact T].
Defined.

(** A chunk without text after "Hello": the message reads
    "Helloundefined". *)
Example chunk_without_text_example :
  let env := Samples.env_with
               (Streams [ {| chunk_text := Some "Hello"; chunk_grounding := None |};
                          {| chunk_text := None; chunk_grounding := None |} ]
                        None) in
  flat_map (fun s => map parts (history s))
    (chatSessions (final (handleSendMessage env "Hi" false
                            (Samples.signed_in Samples.new_chat))))
  = [ [ {| text := "Hi" |} ]; [ {| text := "Helloundefined" |} ] ].
Proof. reflexivity. Qed.

End SessionsFacts.

(* ================================================================== *)
(** * More properties of the persistence gateway                       *)
(* ================================================================== *)

Module GatewayMoreFacts.
Import Js Gateway Notions GatewayFacts.

(** X9. Sanitizing is idempotent, and leaves a value that holds no
    [undefined] exactly as it is. *)
Theorem removeUndefinedValues_idempotent (v : value) :
  removeUndefinedValues (removeUndefinedValues v) = removeUndefinedValues v /\
  (has_undefined v = false -> removeUndefinedValues v = v).
Proof.
  split.
  - apply removeUndefinedValues_fixed, removeUndefinedValues_clean.
  - apply removeUndefinedValues_fixed.
Qed.

Lemma kept_fields_NoDup (fields : list (string * value)) :
  NoDup (map fst fields) -> NoDup (map fst (kept_fields fields)).
Proof.
  unfold kept_fields. rewrite List.map_map. cbn [fst].
  induction fields as [| [k v] fields IH]; simpl; [auto |].
  intros N. apply NoDup_cons in N as [Nk N].
  destruct (negb (is_undefined v)); simpl; [| auto].
  apply NoDup_cons. split; [| auto].
  intros I. apply Nk. apply list_elem_of_In. apply list_elem_of_In in I.
  apply in_map_iff in I as ([k' v'] & E & I). simpl in E. subst k'.
  apply filter_In in I as [I _]. apply in_map_iff. exists (k, v'). auto.
Qed.

Lemma kept_fields_In (fields : list (string * value)) (key : string) (v : value) :
  In (key, v) fields -> v <> VUndefined ->
  In (key, removeUndefinedValues v) (kept_fields fields).
Proof.
  intros I N. unfold kept_fields. apply in_map_iff. exists (key, v).
  split; [reflexivity |]. apply filter_In. split; [exact I |].
  simpl. now destruct v.
Qed.

Lemma kept_fields_missing (fields : list (string * value)) (key : string) :
  (forall v, In (key, v) fields -> v = VUndefined) ->
  ~ In key (map fst (kept_fields fields)).
Proof.
  intros U I. unfold kept_fields in I. rewrite List.map_map in I.
  apply in_map_iff in I as ([k v] & E & I). simpl in E. subst k.
  apply filter_In in I as [I N]. rewrite (U v I) in N. discriminate.
Qed.

Lemma saveUserData_usable (b : Backend) (remote0 remote1 : store) (uid : string)
    (data : value) :
  saveUserData b remote0 uid data = Returns remote1 ->
  String.eqb uid "" || negb (db_ready b) = false.
Proof.
  unfold saveUserData.
  now destruct (String.eqb uid "" || negb (db_ready b)).
Qed.

(** X10. What was saved is what is loaded, merged: after a successful
    [saveUserData] of an object, [getUserData] (the read succeeding)
    answers a document in which every property saved with a value other
    than [undefined] holds that value, sanitized, merged over what the
    document held there before, and every property not saved, or saved
    as [undefined], holds what the document held before. The merged
    value is the sanitized value itself when that is a leaf (a scalar,
    [null], an array, an empty object) or when no object was stored
    there; an object saved over a stored object holds, property by
    property, the saved value merged over the stored one, and keeps the
    stored properties the saved object lacks. *)
Theorem save_then_load
    (b : Backend) (remote0 remote1 : store) (uid : string)
    (fields : list (string * value)) :
  NoDup (map fst fields) ->
  saveUserData b remote0 uid (VObject fields) = Returns remote1 ->
  read_failure b = false ->
  let old := default ∅ (remote0 !! uid) in
  exists doc,
    getUserData b remote1 uid = Some doc /\
    (forall key v, In (key, v) fields -> v <> VUndefined ->
       doc !! key = Some (merge_value (old !! key) (removeUndefinedValues v)) /\
       (is_leaf (removeUndefinedValues v) = true \/
        (forall stored_fields, old !! key <> Some (VObject stored_fields)) ->
        doc !! key = Some (removeUndefinedValues v)) /\
       (forall stored_fields saved inner,
          old !! key = Some (VObject stored_fields) ->
          removeUndefinedValues v = VObject saved -> saved <> [] ->
          exists merged,
            doc !! key = Some (VObject merged) /\
            get inner merged
            = match get inner saved with
              | Some x => Some (merge_value (get inner stored_fields) x)
              | None => get inner stored_fields
              end)) /\
    (forall key, (forall v, In (key, v) fields -> v = VUndefined) ->
                 doc !! key = old !! key).
Proof.
  intros Keys Save Rd old.
  pose proof (saveUserData_usable _ _ _ _ _ Save) as Usable.
  apply saveUserData_returns in Save as ->.
  exists (merge_document old (kept_fields fields)).
  split; [| split].
  - unfold getUserData. rewrite Usable, Rd. apply setDoc_merge_lookup.
  - intros key v I N.
    assert (L : merge_document old (kept_fields fields) !! key
                = Some (merge_value (old !! key) (removeUndefinedValues v))).
    { rewrite merge_document_lookup.
      rewrite (get_NoDup (kept_fields fields) key (removeUndefinedValues v));
        [reflexivity | now apply kept_fields_NoDup | now apply kept_fields_In]. }
    split; [exact L |]. split.
    + intros [Leaf | No]; rewrite L; f_equal;
        [now apply merge_value_leaf | now apply merge_value_over_no_object].
    + intros stored_fields saved inner O S Ne. rewrite L, O, S.
      destruct (merge_value_objects stored_fields saved inner Ne)
        as (merged & M & G).
      exists merged. now rewrite M.
  - intros key U. rewrite merge_document_lookup.
    assert (G : get key (kept_fields fields) = None).
    { apply get_None. now apply kept_fields_missing. }
    now rewrite G.
Qed.

Lemma save_then_load_witness :
  let fields := [ ("dailyLogs", VArray []);
                  ("userProfile", VObject [ ("name", VString "Sam") ]);
                  ("workoutPlan", VUndefined) ] in
  let remote0 : store := {[ "uid-1" := list_to_map Samples.stored_account ]} in
  exists doc,
    getUserData Samples.working_backend
      (setDoc_merge remote0 "uid-1" (kept_fields fields)) "uid-1" = Some doc /\
    doc !! "dailyLogs" = Some (VArray []) /\
    doc !! "userProfile"
    = Some (VObject [ ("age", VNumber 41); ("name", VString "Sam") ]) /\
    doc !! "workoutPlan"
    = Some (VObject [ ("description", VString "Four days");
                      ("planName", VString "Strength");
                      ("weeklySchedule", VArray []) ]).
Proof.
  intros fields remote0.
  destruct (save_then_load Samples.working_backend remote0
              (setDoc_merge remote0 "uid-1" (kept_fields fields)) "uid-1" fields)
    as (doc & G & Kept & Old).
  - apply (bool_decide_unpack _). reflexivity.
  - reflexivity.
  - reflexivity.
  - exists doc. split; [exact G |]. split; [| split].
    + destruct (Kept "dailyLogs" (VArray [])) as (_ & Leaf & _);
        [now left | discriminate |].
      apply Leaf. now left.
    + destruct (Kept "userProfile" (VObject [ ("name", VString "Sam") ]))
        as (M & _); [right; now left | discriminate |].
      rewrite M. reflexivity.
    + rewrite (Old "workoutPlan"); [reflexivity |].
      intros v [[= <-] | [[= <-] | [[= <-] | []]]]. reflexivity.
Defined.

(** X11. Two saves in a row merge. A property of the second save (with a
    value other than [undefined]) holds the second value, sanitized,
    merged over what the property held after the first save: the second
    value itself when that is a leaf, and for an object saved over an
    object the properties of both, those of the second save winning. A
    property only the first save carried still holds what the first
    save left there. *)
Theorem later_save_keeps_earlier_fields
    (b1 b2 : Backend) (remote0 remote1 remote2 : store) (uid : string)
    (first second : list (string * value)) :
  NoDup (map fst first) -> NoDup (map fst second) ->
  saveUserData b1 remote0 uid (VObject first) = Returns remote1 ->
  saveUserData b2 remote1 uid (VObject second) = Returns remote2 ->
  exists doc1 doc2,
    remote1 !! uid = Some doc1 /\
    remote2 !! uid = Some doc2 /\
    (forall key v, In (key, v) second -> v <> VUndefined ->
       doc2 !! key = Some (merge_value (doc1 !! key) (removeUndefinedValues v)) /\
       (is_leaf (removeUndefinedValues v) = true ->
        doc2 !! key = Some (removeUndefinedValues v)) /\
       (forall stored_fields saved inner,
          doc1 !! key = Some (VObject stored_fields) ->
          removeUndefinedValues v = VObject saved -> saved <> [] ->
          exists merged,
            doc2 !! key = Some (VObject merged) /\
            get inner merged
            = match get inner saved with
              | Some x => Some (merge_value (get inner stored_fields) x)
              | None => get inner stored_fields
              end)) /\
    (forall key,
       (forall w, In (key, w) second -> w = VUndefined) ->
       doc2 !! key = doc1 !! key) /\
    (forall key v, In (key, v) first -> v <> VUndefined ->
       doc1 !! key
       = Some (merge_value (default ∅ (remote0 !! uid) !! key)
                 (removeUndefinedValues v))).
Proof.
  intros K1 K2 S1 S2.
  apply saveUserData_returns in S1 as ->. apply saveUserData_returns in S2 as ->.
  set (doc1 := merge_document (default ∅ (remote0 !! uid)) (kept_fields first)).
  exists doc1, (merge_document doc1 (kept_fields second)).
  split; [apply setDoc_merge_lookup |].
  split; [now rewrite !setDoc_merge_lookup |].
  split; [| split].
  - intros key v I N.
    assert (L : merge_document doc1 (kept_fields second) !! key
                = Some (merge_value (doc1 !! key) (removeUndefinedValues v))).
    { rewrite merge_document_lookup.
      rewrite (get_NoDup (kept_fields second) key (removeUndefinedValues v));
        [reflexivity | now apply kept_fields_NoDup | now apply kept_fields_In]. }
    split; [exact L |]. split.
    + intros Leaf. rewrite L. f_equal. now apply merge_value_leaf.
    + intros stored_fields saved inner O S Ne. rewrite L, O, S.
      destruct (merge_value_objects stored_fields saved inner Ne)
        as (merged & M & G).
      exists merged. now rewrite M.
  - intros key U. rewrite merge_document_lookup.
    assert (G : get key (kept_fields second) = None).
    { apply get_None. now apply kept_fields_missing. }
    now rewrite G.
  - intros key v I N. unfold doc1. rewrite merge_document_lookup.
    rewrite (get_NoDup (kept_fields first) key (removeUndefinedValues v));
      [reflexivity | now apply kept_fields_NoDup | now apply kept_fields_In].
Qed.

Lemma later_save_keeps_earlier_fields_witness :
  let first := [ ("dailyLogs", VArray [ VString "log" ]);
                 ("userProfile", VObject [ ("age", VNumber 3);
                                           ("name", VString "Alex") ]) ] in
  let second := [ ("activeChatSessionId", VString "chat_1");
                  ("userProfile", VObject [ ("name", VString "Sam") ]) ] in
  let remote1 := setDoc_merge ∅ "uid-1" (kept_fields first) in
  let remote2 := setDoc_merge remote1 "uid-1" (kept_fields second) in
  exists doc,
    remote2 !! "uid-1" = Some doc /\
    doc !! "dailyLogs" = Some (VArray [ VString "log" ]) /\
    doc !! "activeChatSessionId" = Some (VString "chat_1") /\
    doc !! "userProfile"
    = Some (VObject [ ("age", VNumber 3); ("name", VString "Sam") ]).
Proof.
  intros first second remote1 remote2.
  destruct (later_save_keeps_earlier_fields Samples.working_backend
              Samples.working_backend ∅ remote1 remote2 "uid-1" first second)
    as (doc1 & doc2 & L1 & L2 & Second & Untouched & First).
  - apply (bool_decide_unpack _). reflexivity.
  - apply (bool_decide_unpack _). reflexivity.
  - reflexivity.
  - reflexivity.
  - exists doc2. split; [exact L2 |]. split; [| split].
    + rewrite (Untouched "dailyLogs").
      * rewrite (First "dailyLogs" (VArray [ VString "log" ]));
          [reflexivity | now left | discriminate].
      * intros w [[= E] | [[= E] | []]].
    + destruct (Second "activeChatSessionId" (VString "chat_1"))
        as (_ & Leaf & _); [now left | discriminate |].
      now apply Leaf.
    + destruct (Second "userProfile" (VObject [ ("name", VString "Sam") ]))
        as (M & _); [right; now left | discriminate |].
      rewrite M.
      rewrite (First "userProfile" (VObject [ ("age", VNumber 3);
                                              ("name", VString "Alex") ]));
        [reflexivity | right; now left | discriminate].
Defined.

End GatewayMoreFacts.

(* ================================================================== *)
(** * Properties of the session lifecycle                              *)
(* ================================================================== *)

Module LifecycleFacts.
Import Js Gateway Identity Notions Lifecycle GatewayFacts IdentityFacts.

Lemma saveUserData_works (b : Backend) (remote0 : store) (uid : string)
    (d : UserData) :
  uid <> "" -> db_ready b = true -> write_failure b = None ->
  saveUserData b remote0 uid (toObject d)
  = Returns (setDoc_merge remote0 uid (kept_fields (object_fields d))).
Proof.
  intros Ne Db Wr. unfold saveUserData.
  apply String.eqb_neq in Ne. rewrite Ne, Db, Wr. cbn [negb orb].
  now rewrite toObject_fields, removeUndefinedValues_object.
Qed.

Lemma kept_fields_clean (d : UserData) :
  has_undefined (toObject d) = false ->
  kept_fields (object_fields d) = object_fields d.
Proof.
  intros Clean. pose proof (removeUndefinedValues_fixed _ Clean) as F.
  rewrite toObject_fields, removeUndefinedValues_object in F. now injection F.
Qed.

(** The callback for a fetch that finds no profile and a state that
    holds no captured snapshot. *)
Lemma sign_in_without_profile_or_guest
    (b : Backend) (uid : string) (remote0 : store) (st : AuthState) :
  (forall doc, getUserData b remote0 uid = Some doc ->
               truthy (field doc "userProfile") = false) ->
  guestDataRef st = None ->
  let r := onAuthStateChanged b (Some uid) remote0 st in
  snapshot (state r) = empty_snapshot /\ writes r = [] /\ remote r = remote0.
Proof.
  intros NoProfile Ref. unfold onAuthStateChanged. cbv zeta.
  rewrite (no_fetched_profile b remote0 uid NoProfile), Ref.
  repeat split.
Qed.

(** The six fields read back after the empty values were merged into
    a document, whatever it held. *)
Lemma asUserData_reset (old : document) :
  asUserData (merge_document old (kept_fields (object_fields empty_snapshot)))
  = empty_snapshot.
Proof.
  unfold asUserData, empty_snapshot.
  f_equal; (erewrite field_migrated by reflexivity); reflexivity.
Qed.

(** X12. A reset by a signed-in user (the store usable) empties the
    snapshot in memory and writes the six empty values: the user's
    document then reads back as the empty snapshot, other users'
    documents are untouched, and a later sign-in of that user (with no
    guest snapshot captured) finds no profile, loads the empty snapshot
    and writes nothing. *)
Theorem reset_empties_memory_and_store
    (b : Backend) (uid : string) (remote0 : store) (st : AuthState) :
  firebaseUser st = Some uid ->
  uid <> "" -> db_ready b = true -> write_failure b = None ->
  let r := handleReset b remote0 st in
  escaped r = None /\
  snapshot (state r) = empty_snapshot /\
  option_map asUserData (remote r !! uid) = Some empty_snapshot /\
  (forall other, other <> uid -> remote r !! other = remote0 !! other) /\
  (forall (b2 : Backend) (st2 : AuthState),
     guestDataRef st2 = None ->
     let r2 := onAuthStateChanged b2 (Some uid) (remote r) st2 in
     snapshot (state r2) = empty_snapshot /\ writes r2 = [] /\
     remote r2 = remote r).
Proof.
  intros U Ne Db Wr. unfold handleReset. rewrite U.
  rewrite (saveUserData_works b remote0 uid empty_snapshot Ne Db Wr).
  cbn [state remote writes escaped snapshot].
  assert (Doc : setDoc_merge remote0 uid (kept_fields (object_fields empty_snapshot)) !! uid
                = Some (merge_document (default ∅ (remote0 !! uid))
                          (kept_fields (object_fields empty_snapshot))))
    by apply setDoc_merge_lookup.
  split; [reflexivity |]. split; [reflexivity |]. split; [| split].
  - rewrite Doc. cbn [option_map]. f_equal. apply asUserData_reset.
  - intros other N. unfold setDoc_merge. now apply lookup_insert_ne.
  - intros b2 st2 Ref. apply sign_in_without_profile_or_guest; [| exact Ref].
    intros doc G. unfold getUserData in G.
    destruct (String.eqb uid "" || negb (db_ready b2)); [discriminate |].
    destruct (read_failure b2); [discriminate |].
    rewrite Doc in G. injection G as <-.
    pose proof (asUserData_reset (default ∅ (remote0 !! uid))) as M.
    apply (f_equal userProfile) in M. cbn [asUserData userProfile] in M.
    exact (f_equal truthy M).
Qed.

Lemma reset_empties_memory_and_store_witness :
  let remote0 : store := {[ "uid-1" := list_to_map Samples.stored_account ]} in
  let st := {| firebaseUser := Some "uid-1"; isGuest := false;
               guestDataRef := None;
               snapshot := asUserData (list_to_map Samples.stored_account);
               isUserDataLoading := false; isAuthLoading := false |} in
  let r := handleReset Samples.working_backend remote0 st in
  snapshot (state r) = empty_snapshot /\
  option_map asUserData (remote r !! "uid-1") = Some empty_snapshot.
Proof.
  intros remote0 st r.
  destruct (reset_empties_memory_and_store Samples.working_backend "uid-1" remote0 st)
    as (_ & M & R & _); try reflexivity.
  - discriminate.
  - split; [exact M | exact R].
Defined.

(** X13. After the sign-out callback the snapshot in memory is empty
    and no guest snapshot is held; a sign-in that follows, through
    [handleSignInAttempt] or not, writes nothing to the store. *)
Theorem sign_out_then_sign_in_writes_nothing
    (b1 b2 : Backend) (uid : string) (remote0 remote1 : store) (st : AuthState) :
  let signed_out := state (onAuthStateChanged b1 None remote0 st) in
  snapshot signed_out = empty_snapshot /\
  guestDataRef signed_out = None /\
  guestDataRef (handleSignInAttempt signed_out) = None /\
  writes (onAuthStateChanged b2 (Some uid) remote1 signed_out) = [] /\
  writes (onAuthStateChanged b2 (Some uid) remote1 (handleSignInAttempt signed_out)) = [] /\
  remote (onAuthStateChanged b2 (Some uid) remote1 (handleSignInAttempt signed_out))
  = remote1.
Proof.
  intros signed_out.
  assert (Ref : forall s, guestDataRef s = None ->
            writes (onAuthStateChanged b2 (Some uid) remote1 s) = [] /\
            remote (onAuthStateChanged b2 (Some uid) remote1 s) = remote1).
  { intros s R. unfold onAuthStateChanged. cbv zeta. rewrite R.
    destruct (match getUserData b2 remote1 uid with
              | Some doc => truthy (userProfile (asUserData doc))
              | None => false
              end); split; reflexivity. }
  assert (Att : guestDataRef (handleSignInAttempt signed_out) = None).
  { unfold handleSignInAttempt, signed_out. cbn. now rewrite andb_false_r. }
  split; [reflexivity |]. split; [reflexivity |]. split; [exact Att |].
  split; [now apply Ref |]. split; now apply Ref.
Qed.

(** X14. When the save of the migration throws, the exception leaves the
    callback: the store and the snapshot in memory are as before, the
    guest snapshot is still held, and [isUserDataLoading] stays set, so
    (the auth loading over) the screen shown is the "Loading profile..."
    loader. *)
Theorem failed_migration_leaves_loader
    (b : Backend) (uid message : string) (remote0 : store)
    (st : AuthState) (guest : UserData) :
  guestDataRef st = Some guest ->
  (forall doc, getUserData b remote0 uid = Some doc ->
               truthy (field doc "userProfile") = false) ->
  saveUserData b remote0 uid (toObject guest) = Throws message ->
  isAuthLoading st = false ->
  let r := onAuthStateChanged b (Some uid) remote0 st in
  escaped r = Some message /\
  remote r = remote0 /\
  snapshot (state r) = snapshot st /\
  guestDataRef (state r) = Some guest /\
  isUserDataLoading (state r) = true /\
  renderContent true (state r) = LoadingProfileScreen.
Proof.
  intros Ref NoProfile Fail Auth. unfold onAuthStateChanged. cbv zeta.
  rewrite (no_fetched_profile b remote0 uid NoProfile), Ref, Fail.
  cbn [state remote escaped snapshot guestDataRef isUserDataLoading].
  repeat split; try assumption.
  unfold renderContent. cbn. now rewrite Auth.
Qed.

Lemma failed_migration_leaves_loader_witness :
  let b := {| db_ready := true; read_failure := false;
              write_failure := Some "Failed to get document because the client is offline." |} in
  let st := handleSignInAttempt (Samples.as_guest (Samples.guest_data (VArray []))) in
  let r := onAuthStateChanged b (Some "uid-1") ∅ st in
  escaped r = Some "Failed to get document because the client is offline." /\
  renderContent true (state r) = LoadingProfileScreen.
Proof.
  intros b st r.
  destruct (failed_migration_leaves_loader b "uid-1"
              "Failed to get document because the client is offline." ∅ st
              (Samples.guest_data (VArray [])))
    as (E & _ & _ & _ & _ & S); try reflexivity.
  - intros doc G. discriminate G.
  - split; [exact E | exact S].
Defined.

(** The callback for a fetch that finds a document with a profile. *)
Lemma sign_in_loads_document
    (b : Backend) (uid : string) (remote0 : store) (doc : document)
    (st : AuthState) :
  getUserData b remote0 uid = Some doc ->
  truthy (userProfile (asUserData doc)) = true ->
  let e := asUserData doc in
  onAuthStateChanged b (Some uid) remote0 st
  = {| state := {| firebaseUser := Some uid; isGuest := false;
                   guestDataRef := guestDataRef st;
                   snapshot :=
                     {| userProfile := or_else (userProfile e) VNull;
                        dailyLogs := or_else (dailyLogs e) (VArray []);
                        workoutPlan := or_else (workoutPlan e) VNull;
                        weightLog := or_else (weightLog e) (VArray []);
                        chatSessions := or_else (chatSessions e) (VArray []);
                        activeChatSessionId :=
                          or_else (activeChatSessionId e) VNull |};
                   isUserDataLoading := false;
                   isAuthLoading := false |};
       remote := remote0; writes := []; escaped := None |}.
Proof.
  intros G P e. unfold onAuthStateChanged. rewrite G, P. reflexivity.
Qed.

(** X15. Migrated data survive a sign-out: a guest whose snapshot holds
    no [undefined] (and whose fields are each truthy or the empty value)
    signs in to an identity without a stored profile, whose document, if
    it has one, holds no object (so that the merge of the save replaces
    what was stored), signs out, and signs in again (the store usable
    throughout): after the sign-out memory is empty, and after the
    second sign-in it holds the guest snapshot again, loaded from the
    store, with nothing written. *)
Theorem migrated_snapshot_survives_sign_out
    (b : Backend) (uid : string) (remote0 : store) (st : AuthState) :
  isGuest st = true ->
  truthy (userProfile (snapshot st)) = true ->
  uid <> "" -> db_ready b = true -> write_failure b = None ->
  read_failure b = false ->
  (forall doc, getUserData b remote0 uid = Some doc ->
               truthy (field doc "userProfile") = false) ->
  holds_no_object (default ∅ (remote0 !! uid)) ->
  has_undefined (toObject (snapshot st)) = false ->
  loads_unchanged (dailyLogs (snapshot st)) (VArray []) ->
  loads_unchanged (workoutPlan (snapshot st)) VNull ->
  loads_unchanged (weightLog (snapshot st)) (VArray []) ->
  loads_unchanged (chatSessions (snapshot st)) (VArray []) ->
  loads_unchanged (activeChatSessionId (snapshot st)) VNull ->
  let r1 := onAuthStateChanged b (Some uid) remote0 (handleSignInAttempt st) in
  let r2 := onAuthStateChanged b None (remote r1) (state r1) in
  let r3 := onAuthStateChanged b (Some uid) (remote r2)
              (handleSignInAttempt (state r2)) in
  snapshot (state r2) = empty_snapshot /\
  snapshot (state r3) = snapshot st /\
  writes r3 = [] /\
  remote r3 = remote r1.
Proof.
  intros G P Ne Db Wr Rd NoProfile No Clean L1 L2 L3 L4 L5.
  set (guest := snapshot st) in *.
  set (remote1 := setDoc_merge remote0 uid (kept_fields (object_fields guest))).
  assert (R1 : onAuthStateChanged b (Some uid) remote0 (handleSignInAttempt st)
               = {| state := {| firebaseUser := Some uid; isGuest := false;
                                guestDataRef := None; snapshot := guest;
                                isUserDataLoading := false;
                                isAuthLoading := false |};
                    remote := remote1;
                    writes := [ (uid, toObject guest) ];
                    escaped := None |}).
  { unfold onAuthStateChanged. cbv zeta.
    rewrite (no_fetched_profile b remote0 uid NoProfile).
    assert (Ref : guestDataRef (handleSignInAttempt st) = Some guest).
    { unfold handleSignInAttempt. cbn [guestDataRef]. fold guest. now rewrite G, P. }
    now rewrite Ref, (saveUserData_works b remote0 uid guest Ne Db Wr). }
  intros r1 r2 r3.
  set (signed_out := {| firebaseUser := None; isGuest := false;
                        guestDataRef := None; snapshot := empty_snapshot;
                        isUserDataLoading := false; isAuthLoading := false |}).
  assert (R2 : r2 = {| state := signed_out; remote := remote1;
                       writes := []; escaped := None |}).
  { unfold r2, r1. rewrite R1. reflexivity. }
  assert (Doc : getUserData b remote1 uid
                = Some (merge_document (default ∅ (remote0 !! uid))
                          (kept_fields (object_fields guest)))).
  { unfold getUserData. apply String.eqb_neq in Ne. rewrite Ne, Db, Rd.
    apply setDoc_merge_lookup. }
  assert (M : asUserData (merge_document (default ∅ (remote0 !! uid))
                            (kept_fields (object_fields guest))) = guest).
  { rewrite <- (sanitized_fixed guest Clean) at 2.
    apply asUserData_migrated; [exact No | now apply no_undefined_value]. }
  assert (R3 : r3 = onAuthStateChanged b (Some uid) remote1 signed_out).
  { unfold r3. rewrite R2. reflexivity. }
  rewrite R3, R2. unfold r1. rewrite R1.
  rewrite (sign_in_loads_document b uid remote1 _ _ Doc) by (now rewrite M).
  cbn [state remote writes snapshot]. rewrite M.
  rewrite !or_else_unchanged by (assumption || (left; exact P)).
  split; [reflexivity |]. split; [now destruct guest |]. split; reflexivity.
Qed.

Lemma migrated_snapshot_survives_sign_out_witness :
  let st := Samples.as_guest Samples.guest_with_plan in
  let b := Samples.working_backend in
  let remote0 : store := {[ "uid-1" := list_to_map (object_fields empty_snapshot) ]} in
  let r1 := onAuthStateChanged b (Some "uid-1") remote0 (handleSignInAttempt st) in
  let r2 := onAuthStateChanged b None (remote r1) (state r1) in
  let r3 := onAuthStateChanged b (Some "uid-1") (remote r2)
              (handleSignInAttempt (state r2)) in
  snapshot (state r3) = Samples.guest_with_plan /\ writes r3 = [].
Proof.
  intros st b remote0 r1 r2 r3.
  destruct (migrated_snapshot_survives_sign_out b "uid-1" remote0 st)
    as (_ & S & W & _); try reflexivity;
    try (left; reflexivity); try (right; reflexivity).
  - discriminate.
  - intros doc [= <-]. reflexivity.
  - intros key fields. unfold remote0. rewrite lookup_singleton_eq.
    cbn [default]. unfold id. rewrite list_to_map_get. intros E.
    apply get_In in E. cbn [object_fields In empty_snapshot Identity.userProfile
      Identity.dailyLogs Identity.workoutPlan Identity.weightLog
      Identity.chatSessions Identity.activeChatSessionId] in E.
    repeat (destruct E as [E | E]; [discriminate E |]). destruct E.
  - split; [exact S | exact W].
Defined.

End LifecycleFacts.

(* ================================================================== *)
(** * Properties of profile creation and the plan handlers             *)
(* ================================================================== *)

Module PlansFacts.
Import Orchestrator Plans.

(** X16. Profile creation is all or nothing. When the plan generation
    throws, the error goes back to the caller, nothing is saved and the
    state is exactly as before (still without the new profile). When the
    plan arrives and the save of a signed-in user throws, that error
    goes back to the caller and the state is exactly as before. In
    every other case nothing is thrown and the state holds the profile,
    the generated plan, no logs, no chats and a weight history of the
    single entry (registration date, profile weight); a signed-in user's
    store was sent exactly these six values, a guest's nothing. The
    "generating" flag is cleared and the dashboard error is left alone
    in all cases. *)
Theorem handleProfileCreate_all_or_nothing
    (env : PlanEnv) (profile : UserProfile) (st : AppState) (u : PlanUi) :
  let r := handleProfileCreate env profile st u in
  let created (plan : WorkoutPlan) :=
    {| firebaseUser := firebaseUser st;
       userProfile := Some profile;
       dailyLogs := [];
       workoutPlan := Some plan;
       weightLog := [ {| entry_date := registrationDate profile;
                         entry_weight := weight profile |} ];
       chatSessions := [];
       activeChatSessionId := None;
       isAiReplying := isAiReplying st |} in
  let sent (plan : WorkoutPlan) :=
    match firebaseUser st with
    | Some uid =>
        [ {| save_uid := uid;
             save_data :=
               {| p_userProfile := Some (Some profile);
                  p_dailyLogs := Some [];
                  p_workoutPlan := Some (Some plan);
                  p_weightLog := Some [ {| entry_date := registrationDate profile;
                                           entry_weight := weight profile |} ];
                  p_chatSessions := Some [];
                  p_activeChatSessionId := Some None |} |} ]
    | None => []
    end in
  isGeneratingPlan (ui r) = false /\
  dashboardError (ui r) = dashboardError u /\
  (forall m, generated env = PlanThrows m ->
     rethrown r = Some (Chat.Error_ m) /\ after r = st /\ plan_saves r = []) /\
  (forall plan e,
     generated env = PlanReturns plan ->
     firebaseUser st <> None -> plan_save_failure env = Some e ->
     rethrown r = Some e /\ after r = st /\ plan_saves r = sent plan) /\
  (forall plan,
     generated env = PlanReturns plan ->
     firebaseUser st = None \/ plan_save_failure env = None ->
     rethrown r = None /\ after r = created plan /\ plan_saves r = sent plan).
Proof.
  unfold handleProfileCreate, await_save, saveData.
  destruct (generated env) as [m | plan]; cbn.
  - split; [reflexivity |]. split; [reflexivity |]. split; [| split].
    + intros m' [= <-]. repeat split.
    + intros plan e E. discriminate E.
    + intros plan E. discriminate E.
  - destruct (firebaseUser st) as [uid |] eqn:U; cbn.
    + destruct (plan_save_failure env) as [e |] eqn:S; cbn.
      * split; [reflexivity |]. split; [reflexivity |]. split; [| split].
        -- intros m E. discriminate E.
        -- intros plan' e' [= <-] _ [= <-]. repeat split.
        -- intros plan' _ [E | E]; discriminate E.
      * split; [reflexivity |]. split; [reflexivity |]. split; [| split].
        -- intros m E. discriminate E.
        -- intros plan' e' _ _ E. discriminate E.
        -- intros plan' [= <-] _. repeat split.
    + split; [reflexivity |]. split; [reflexivity |]. split; [| split].
      * intros m E. discriminate E.
      * intros plan' e' _ N. now elim N.
      * intros plan' [= <-] _. repeat split.
Qed.

(** X17. Regenerating the plan never throws at the caller and clears
    the "generating" flag. Without a profile it does nothing at all.
    When the generation throws, the state is as before (the plan in
    memory included), nothing is saved and the dashboard error holds the
    message thrown. When the plan arrives it replaces the plan in memory
    and is sent to a signed-in user's store; if that save throws, the
    new plan stays in memory and the dashboard error holds the message
    of what was thrown (a fixed text when that is no Error); otherwise
    the dashboard error is cleared. *)
Theorem handleRegeneratePlan_keeps_plan_on_failure
    (env : PlanEnv) (st : AppState) (u : PlanUi) :
  let r := handleRegeneratePlan env st u in
  let replaced (plan : WorkoutPlan) :=
    {| firebaseUser := firebaseUser st; userProfile := userProfile st;
       dailyLogs := dailyLogs st; workoutPlan := Some plan;
       weightLog := weightLog st; chatSessions := chatSessions st;
       activeChatSessionId := activeChatSessionId st;
       isAiReplying := isAiReplying st |} in
  let sent (plan : WorkoutPlan) :=
    match firebaseUser st with
    | Some uid =>
        [ {| save_uid := uid;
             save_data :=
               {| p_userProfile := None; p_dailyLogs := None;
                  p_workoutPlan := Some (Some plan); p_weightLog := None;
                  p_chatSessions := None; p_activeChatSessionId := None |} |} ]
    | None => []
    end in
  rethrown r = None /\
  (userProfile st = None -> after r = st /\ ui r = u /\ plan_saves r = []) /\
  (userProfile st <> None ->
     isGeneratingPlan (ui r) = false /\
     (forall m, generated env = PlanThrows m ->
        after r = st /\ plan_saves r = [] /\ dashboardError (ui r) = Some m) /\
     (forall plan, generated env = PlanReturns plan ->
        after r = replaced plan /\ plan_saves r = sent plan) /\
     (forall plan e, generated env = PlanReturns plan ->
        firebaseUser st <> None -> plan_save_failure env = Some e ->
        dashboardError (ui r)
        = Some match e with
               | Chat.SyntaxError_ m | Chat.Error_ m => m
               | Chat.NotAnError =>
                   "An unexpected error occurred while updating the plan."
               end) /\
     (forall plan, generated env = PlanReturns plan ->
        firebaseUser st = None \/ plan_save_failure env = None ->
        dashboardError (ui r) = None)).
Proof.
  unfold handleRegeneratePlan, await_save, saveData, set_workoutPlan.
  destruct (userProfile st) as [p |].
  - split; [| split; [discriminate |]]; [| intros _].
    + destruct (generated env) as [m | plan]; [reflexivity |].
      destruct (firebaseUser st); [| reflexivity].
      destruct (plan_save_failure env); reflexivity.
    + destruct (generated env) as [m | plan]; cbn.
      * split; [reflexivity |]. split; [| split; [| split]].
        -- intros m' [= <-]. repeat split.
        -- intros plan E. discriminate E.
        -- intros plan e E. discriminate E.
        -- intros plan E. discriminate E.
      * destruct (firebaseUser st) as [uid |]; cbn.
        -- destruct (plan_save_failure env) as [e |]; cbn.
           ++ split; [reflexivity |]. split; [| split; [| split]].
              ** intros m E. discriminate E.
              ** intros plan' [= <-]. split; reflexivity.
              ** intros plan' e' _ _ [= <-]. reflexivity.
              ** intros plan' _ [E | E]; discriminate E.
           ++ split; [reflexivity |]. split; [| split; [| split]].
              ** intros m E. discriminate E.
              ** intros plan' [= <-]. split; reflexivity.
              ** intros plan' e' _ _ E. discriminate E.
              ** intros plan' _ _. reflexivity.
        -- split; [reflexivity |]. split; [| split; [| split]].
           ++ intros m E. discriminate E.
           ++ intros plan' [= <-]. split; reflexivity.
           ++ intros plan' e' _ N. now elim N.
           ++ intros plan' _ _. reflexivity.
  - cbn. split; [reflexivity |]. split.
    + intros _. split; [reflexivity |]. split; reflexivity.
    + intros N. now elim N.
Qed.

End PlansFacts.

(* ================================================================== *)
(** * Properties of the model service                                  *)
(* ================================================================== *)

Module GeminiFacts.
Import Chat Text Gemini.

Lemma trimStart_blank (s : string) :
  forallb is_whitespace (list_ascii_of_string s) = true -> trimStart s = "".
Proof.
  induction s as [| c s IH]; cbn [list_ascii_of_string forallb trimStart].
  - reflexivity.
  - intros H. apply andb_prop in H as [C R]. rewrite C. now apply IH.
Qed.

Lemma trim_blank (s : string) :
  forallb is_whitespace (list_ascii_of_string s) = true -> trim s = "".
Proof.
  intros H. unfold trim. now rewrite (trimStart_blank s H).
Qed.

(** X18. An answer of the model whose text is empty, consists of white
    space only, or does not parse as JSON never reaches the caller as
    data: [analyzeMealImage] throws the "only food-related images"
    message and [generateWorkoutPlan] the "did not return a response"
    message. An answer that carries no text at all is not reported so:
    [response.text.trim()] throws, and both functions throw the
    "unexpected error" message of their context. *)
Theorem unusable_answer_is_reported_as_blocked
    (apiKey cseId : option string) (search : string -> SearchAnswer)
    (JSON_parse_meal : string -> MealAnalysisResult + string)
    (JSON_parse_plan : string -> RawPlan + string)
    (response_text : string)
    (Hmeal : forallb is_whitespace (list_ascii_of_string response_text) = true
             \/ exists m, JSON_parse_meal (trim response_text) = inr m)
    (Hplan : forallb is_whitespace (list_ascii_of_string response_text) = true
             \/ exists m, JSON_parse_plan (trim response_text) = inr m) :
  analyzeMealImage JSON_parse_meal (Responds (Some response_text))
  = inr food_only_message /\
  generateWorkoutPlan apiKey cseId search JSON_parse_plan
    (Responds (Some response_text))
  = inr blocked_message /\
  analyzeMealImage JSON_parse_meal (Responds None)
  = inr (unexpected_message "meal analysis") /\
  generateWorkoutPlan apiKey cseId search JSON_parse_plan (Responds None)
  = inr (unexpected_message "workout plan generation").
Proof.
  unfold analyzeMealImage, generateWorkoutPlan.
  split; [| split; [| split; reflexivity]].
  - destruct Hmeal as [B | [m P]].
    + rewrite (trim_blank _ B). reflexivity.
    + rewrite P. destruct (String.eqb (trim response_text) ""); reflexivity.
  - destruct Hplan as [B | [m P]].
    + rewrite (trim_blank _ B). reflexivity.
    + rewrite P. destruct (String.eqb (trim response_text) ""); reflexivity.
Qed.

Lemma unusable_answer_is_reported_as_blocked_witness :
  analyzeMealImage (fun _ => inr "Unexpected end of JSON input")
    (Responds (Some (String " " (String "010" ""))))
  = inr food_only_message /\
  generateWorkoutPlan None None (fun _ => FetchThrows)
    (fun _ => inr "Unexpected end of JSON input")
    (Responds (Some (String " " (String "010" ""))))
  = inr blocked_message /\
  analyzeMealImage (fun _ => inr "Unexpected end of JSON input") (Responds None)
  = inr (unexpected_message "meal analysis") /\
  generateWorkoutPlan None None (fun _ => FetchThrows)
    (fun _ => inr "Unexpected end of JSON input") (Responds None)
  = inr (unexpected_message "workout plan generation").
Proof.
  apply unusable_answer_is_reported_as_blocked; left; reflexivity.
Defined.

(** X19. Whatever was thrown and whatever the context, the message
    [handleGeminiError] returns is one of its six fixed messages, so the
    text of the original error is never shown; and the "only
    food-related images" message is returned for the context
    "meal analysis" only. *)
Theorem handleGeminiError_fixed_messages (e : Thrown) (context : string) :
  In (handleGeminiError e context) (messages context) /\
  (handleGeminiError e context = food_only_message -> context = "meal analysis").
Proof.
  unfold handleGeminiError, messages.
  assert (G : unexpected_message context <> food_only_message).
  { unfold unexpected_message, food_only_message.
    change ("An unexpected error occurred with the Gemini API during " +:+ context
            +:+ ". Please try again later.")
      with (String "A" ("n unexpected error occurred with the Gemini API during "
                        +:+ context +:+ ". Please try again later.")).
    discriminate. }
  assert (R : invalid_request_message context <> food_only_message).
  { unfold invalid_request_message, food_only_message.
    change ("The request to the AI service was invalid during " +:+ context
            +:+ ". This might be an issue with the prompt or data format.")
      with (String "T" ("he request to the AI service was invalid during "
                        +:+ context
                        +:+ ". This might be an issue with the prompt or data format.")).
    discriminate. }
  fold (unexpected_message context). fold (invalid_request_message context).
  fold food_only_message blocked_message key_missing_message key_rejected_message.
  destruct (String.eqb context "meal analysis") eqn:C.
  - apply String.eqb_eq in C.
    destruct e as [m | m |]; cbn zeta.
    + split; [cbn; tauto | auto].
    + destruct (includes m "candidateslist is empty" || includes m "finish reason: 4"
                || includes m "Received an empty response"
                || includes m "Unexpected token").
      * split; [cbn; tauto | auto].
      * destruct (includes m "API_KEY environment variable not set");
          [split; [cbn; tauto | auto] |].
        destruct (includes m "[400"); [split; [cbn; tauto | auto] |].
        destruct (includes m "[403"); split; cbn; tauto.
    + split; [cbn; tauto | auto].
  - destruct e as [m | m |]; cbn zeta.
    + split; [cbn; tauto | discriminate].
    + destruct (includes m "candidateslist is empty" || includes m "finish reason: 4"
                || includes m "Received an empty response"
                || includes m "Unexpected token").
      * split; [cbn; tauto | discriminate].
      * destruct (includes m "API_KEY environment variable not set");
          [split; [cbn; tauto | discriminate] |].
        destruct (includes m "[400"); [split; [cbn; tauto | intros E; now elim R] |].
        destruct (includes m "[403"); [split; [cbn; tauto | discriminate] |].
        split; [cbn; tauto | intros E; now elim G].
    + split; [cbn; tauto | intros E; now elim G].
Qed.

Lemma first_suitable_Some (found : list SearchItem) (item : SearchItem) :
  first_suitable found = Some item -> In item found /\ suitable item = true.
Proof.
  induction found as [| i rest IH]; cbn [first_suitable]; [discriminate |].
  destruct (suitable i) eqn:S.
  - intros E. injection E as <-. split; [now left | exact S].
  - intros E. destruct (IH E) as [I T]. split; [now right | exact T].
Qed.

Lemma first_suitable_None (found : list SearchItem) :
  first_suitable found = None ->
  forall item, In item found -> suitable item = false.
Proof.
  induction found as [| i rest IH]; cbn [first_suitable]; [intros _ item [] |].
  destruct (suitable i) eqn:S; [discriminate |].
  intros E item [<- | I]; [exact S | now apply IH].
Qed.

(** X20. Which image [fetchExerciseImage] returns. With a missing or
    placeholder key it returns nothing and sends no request; otherwise it
    sends the one query. A link it returns is the link of one of the
    results found, and that result passed the test (https, image file
    name) unless no result did, in which case it is the first result.
    When some result passes the test, so does the one returned. *)
Theorem fetchExerciseImage_selection
    (apiKey cseId : option string) (search : string -> SearchAnswer)
    (exerciseName : string) :
  let r := fetchExerciseImage apiKey cseId search exerciseName in
  (isInvalidKey apiKey || isInvalidKey cseId = true -> r = (None, [])) /\
  (isInvalidKey apiKey || isInvalidKey cseId = false ->
   snd r = [query_of exerciseName]) /\
  (forall l, fst r = Some l ->
     exists found item,
       search (query_of exerciseName) = Found (Some found) /\
       In item found /\ link item = Some l /\
       (suitable item = true \/
        ((forall other, In other found -> suitable other = false) /\
         hd_error found = Some item))) /\
  (forall found item,
     isInvalidKey apiKey || isInvalidKey cseId = false ->
     search (query_of exerciseName) = Found (Some found) ->
     In item found -> suitable item = true ->
     exists chosen, In chosen found /\ suitable chosen = true /\
                    fst r = link chosen).
Proof.
  unfold fetchExerciseImage.
  destruct (isInvalidKey apiKey || isInvalidKey cseId) eqn:K; cbn zeta.
  - split; [reflexivity |]. split; [discriminate |].
    split; [intros l E; discriminate | intros found item E; discriminate].
  - split; [discriminate |]. split.
    { intros _. destruct (search (query_of exerciseName)) as [| | [[| i0 rest] |]];
        try reflexivity.
      destruct (first_suitable (i0 :: rest)); reflexivity. }
    split.
    + intros l. destruct (search (query_of exerciseName)) as [| | [[| i0 rest] |]];
        try discriminate.
      destruct (first_suitable (i0 :: rest)) as [item |] eqn:F; cbn [fst]; intros L.
      * destruct (first_suitable_Some _ _ F) as [I S].
        exists (i0 :: rest), item. repeat split; auto.
      * exists (i0 :: rest), i0. split; [reflexivity |]. split; [now left |].
        split; [exact L |]. right. split; [| reflexivity].
        exact (first_suitable_None _ F).
    + intros found item _ E I S. rewrite E.
      destruct found as [| i0 rest]; [destruct I |].
      destruct (first_suitable (i0 :: rest)) as [chosen |] eqn:F.
      * destruct (first_suitable_Some _ _ F) as [I' S'].
        exists chosen. split; [exact I' |]. split; [exact S' | reflexivity].
      * rewrite (first_suitable_None _ F item I) in S. discriminate.
Qed.

Lemma before_paren_app (name note : string) :
  includes name "(" = false ->
  before_paren (name +:+ String "(" note) = before_paren name.
Proof.
  induction name as [| c name IH].
  - intros _. reflexivity.
  - intros H. cbn [includes String.prefix] in H.
    change (String c name +:+ String "(" note)
      with (String c (name +:+ String "(" note)).
    cbn [before_paren].
    destruct (Ascii.eqb c "(") eqn:C; [reflexivity |].
    destruct (ascii_dec "(" c) as [E | N].
    + subst c. discriminate.
    + cbn [orb] in H. now rewrite (IH H).
Qed.

(** X21. A parenthesised remark after the exercise name plays no part in
    the image lookup: for a name without an opening parenthesis, the
    lookup for the name followed by "(" and any text sends the same
    query and returns the same image as the lookup for the name. *)
Theorem parenthesised_remark_is_ignored
    (apiKey cseId : option string) (search : string -> SearchAnswer)
    (name remark : string)
    (H : includes name "(" = false) :
  fetchExerciseImage apiKey cseId search (name +:+ String "(" remark)
  = fetchExerciseImage apiKey cseId search name.
Proof.
  unfold fetchExerciseImage, query_of.
  now rewrite (before_paren_app name remark H).
Qed.

Lemma parenthesised_remark_is_ignored_witness :
  fetchExerciseImage (Some "k") (Some "c") sample_search
    ("Barbell Squat " +:+ String "(" "high bar)")
  = fetchExerciseImage (Some "k") (Some "c") sample_search "Barbell Squat ".
Proof.
  apply parenthesised_remark_is_ignored. reflexivity.
Defined.






End GeminiFacts.

(* ================================================================== *)
(** * More properties of the calculators                               *)
(* ================================================================== *)

Module CalculatorFacts.
Import Helpers HelpersFacts Images Profiles.

Local Open Scope Q_scope.

Lemma Math_round_shift (x : Q) (k : Z) :
  Math_round (x + inject_Z k) = (Math_round x + k)%Z.
Proof.
  unfold Math_round.
  pose proof (Qfloor_le (x + (1 # 2))) as A1.
  pose proof (Qlt_floor (x + (1 # 2))) as A2.
  pose proof (Qfloor_le (x + inject_Z k + (1 # 2))) as B1.
  pose proof (Qlt_floor (x + inject_Z k + (1 # 2))) as B2.
  set (a := Qfloor (x + (1 # 2))) in *.
  set (b := Qfloor (x + inject_Z k + (1 # 2))) in *.
  rewrite inject_Z_plus in A2, B2. change (inject_Z 1) with 1 in A2, B2.
  assert (U : (b < a + k + 1)%Z).
  { rewrite Zlt_Qlt, !inject_Z_plus. change (inject_Z 1) with 1. lra. }
  assert (L : (a + k < b + 1)%Z).
  { rewrite Zlt_Qlt, !inject_Z_plus. change (inject_Z 1) with 1. lra. }
  lia.
Qed.

Lemma Math_round_le_int (x : Q) (k : Z) :
  x <= inject_Z k -> inject_Z (Math_round x) <= inject_Z k.
Proof.
  intros H. destruct (Math_round_bounds x) as [_ Hi].
  rewrite <- Zle_Qle. apply Z.lt_succ_r. unfold Z.succ.
  rewrite Zlt_Qlt, inject_Z_plus. change (inject_Z 1) with 1. lra.
Qed.

Lemma Math_round_ge_int (x : Q) (k : Z) :
  inject_Z k - (1 # 2) <= x -> (k <= Math_round x)%Z.
Proof.
  intros H. destruct (Math_round_bounds x) as [Lo _].
  apply Z.lt_succ_r. unfold Z.succ.
  rewrite Zlt_Qlt, inject_Z_plus. change (inject_Z 1) with 1. lra.
Qed.

Lemma Math_round_lt_int (x : Q) (k : Z) :
  x < inject_Z k + (1 # 2) -> (Math_round x <= k)%Z.
Proof.
  intros H. destruct (Math_round_bounds x) as [_ Hi].
  apply Z.lt_succ_r. unfold Z.succ.
  rewrite Zlt_Qlt, inject_Z_plus. change (inject_Z 1) with 1. lra.
Qed.

(** X23. How the goal and the sex move the goals of a profile, all else
    equal: the calorie target for losing is exactly 500 below, the one
    for gaining exactly 500 above the target for maintaining (rounding
    included); the goal does not change the BMR; and the BMR of a man is
    exactly 166 above that of a woman. *)
Theorem calculateGoals_offsets (p : UserProfile) :
  targetCalories (calculateGoals (with_goal p Lose))
  == targetCalories (calculateGoals (with_goal p Maintain)) - 500 /\
  targetCalories (calculateGoals (with_goal p Gain))
  == targetCalories (calculateGoals (with_goal p Maintain)) + 500 /\
  (forall g, bmr (calculateGoals (with_goal p g)) = bmr (calculateGoals p)) /\
  bmr (calculateGoals (with_sex p male))
  == bmr (calculateGoals (with_sex p female)) + 166.
Proof.
  unfold calculateGoals, with_goal, with_sex.
  cbn [goal sex weight height age activityLevel targetCalories bmr].
  split; [| split; [| split]].
  - match goal with
    | |- inject_Z (Math_round (?t - 500)) == _ =>
        rewrite (Math_round_comp (t - 500) (t + inject_Z (-500)))
          by (change (inject_Z (-500)) with (-500 # 1); ring);
        rewrite Math_round_shift, inject_Z_plus
    end.
    change (inject_Z (-500)) with (-500 # 1). ring.
  - match goal with
    | |- inject_Z (Math_round (?t + 500)) == _ =>
        rewrite (Math_round_comp (t + 500) (t + inject_Z 500))
          by (change (inject_Z 500) with (500 # 1); ring);
        rewrite Math_round_shift, inject_Z_plus
    end.
    change (inject_Z 500) with (500 # 1). ring.
  - intros g. reflexivity.
  - match goal with
    | |- inject_Z (Math_round (?t + 5)) == _ =>
        rewrite (Math_round_comp (t + 5) ((t - 161) + inject_Z 166))
          by (change (inject_Z 166) with (166 # 1); ring);
        rewrite Math_round_shift, inject_Z_plus
    end.
    change (inject_Z 166) with (166 # 1). ring.
Qed.

(** X24. The three macro targets account for the calorie target: at 4
    kcal per gram of carbohydrate and of protein and 9 kcal per gram of
    fat they add up to less than 9 kcal from the calorie target shown. *)
Theorem macro_targets_add_up (p : UserProfile) :
  let g := calculateGoals p in
  Qabs (4 * targetCarbs g + 4 * targetProtein g + 9 * targetFat g
        - targetCalories g) < 9.
Proof.
  unfold calculateGoals. cbn [targetCarbs targetProtein targetFat targetCalories].
  match goal with
  | |- context [inject_Z (Math_round (?t * (40 # 100) / 4))] => set (T := t)
  end.
  assert (C : 4 * (T * (40 # 100) / 4) == T * (40 # 100)) by field.
  assert (P : 4 * (T * (30 # 100) / 4) == T * (30 # 100)) by field.
  assert (F : 9 * (T * (30 # 100) / 9) == T * (30 # 100)) by field.
  destruct (Math_round_bounds T) as [T1 T2].
  destruct (Math_round_bounds (T * (40 # 100) / 4)) as [C1 C2].
  destruct (Math_round_bounds (T * (30 # 100) / 4)) as [P1 P2].
  destruct (Math_round_bounds (T * (30 # 100) / 9)) as [F1 F2].
  set (c := T * (40 # 100) / 4) in *.
  set (q := T * (30 # 100) / 4) in *.
  set (f := T * (30 # 100) / 9) in *.
  apply Qabs_Qlt_condition. split; lra.
Qed.

Lemma scaled_side (a b m : Q) :
  0 <= a -> a < b -> 0 <= m -> m < b ->
  0 <= a * (m / b) /\ a * (m / b) <= m /\ a * (m / b) <= a.
Proof.
  intros A AB M MB.
  assert (B : 0 < b) by lra.
  assert (E : a * (m / b) == (a * m) / b) by (field; lra).
  rewrite E. split; [| split].
  - apply Qle_shift_div_l; [exact B |]. nra.
  - apply Qle_shift_div_r; [exact B |]. nra.
  - apply Qle_shift_div_r; [exact B |]. nra.
Qed.

(** X25. The canvas [resizeImage] draws on, for an image of whole,
    non-negative sides and a square bound (the application asks for 768
    by 768): neither side exceeds the bound, neither side is larger than
    the image's, no side is negative, and an image already within the
    bound keeps its size. *)
Theorem resized_fits_square_bound (w h m : Z)
    (Hw : (0 <= w)%Z) (Hh : (0 <= h)%Z) (Hm : (0 <= m)%Z) :
  let r := resized_dimensions (inject_Z w) (inject_Z h) (inject_Z m) (inject_Z m) in
  0 <= fst r <= inject_Z m /\ 0 <= snd r <= inject_Z m /\
  fst r <= inject_Z w /\ snd r <= inject_Z h /\
  ((w <= m)%Z -> (h <= m)%Z -> r = (inject_Z w, inject_Z h)).
Proof.
  rewrite Zle_Qle in Hw, Hh, Hm. change (inject_Z 0) with 0 in Hw, Hh, Hm.
  unfold resized_dimensions.
  destruct (Qlt_le_dec (inject_Z h) (inject_Z w)) as [HW | WH].
  - destruct (Qlt_le_dec (inject_Z m) (inject_Z w)) as [MW | WM]; cbn [fst snd].
    + destruct (scaled_side (inject_Z h) (inject_Z w) (inject_Z m) Hh HW Hm MW)
        as (S0 & S1 & S2).
      pose proof (Math_round_le_int _ _ S1) as R1.
      pose proof (Math_round_le_int _ _ S2) as R2.
      assert (R0 : 0 <= inject_Z (Math_round (inject_Z h * (inject_Z m / inject_Z w)))).
      { change 0 with (inject_Z 0). rewrite <- Zle_Qle.
        apply Math_round_ge_int. change (inject_Z 0) with 0. lra. }
      repeat split; try lra.
      intros L _. rewrite Zle_Qle in L. lra.
    + repeat split; try lra.
  - destruct (Qlt_le_dec (inject_Z m) (inject_Z h)) as [MH | HM]; cbn [fst snd].
    + destruct (Qle_lt_or_eq _ _ WH) as [WH' | E].
      * destruct (scaled_side (inject_Z w) (inject_Z h) (inject_Z m) Hw WH' Hm MH)
          as (S0 & S1 & S2).
        pose proof (Math_round_le_int _ _ S1) as R1.
        pose proof (Math_round_le_int _ _ S2) as R2.
        assert (R0 : 0 <= inject_Z (Math_round (inject_Z w * (inject_Z m / inject_Z h)))).
        { change 0 with (inject_Z 0). rewrite <- Zle_Qle.
          apply Math_round_ge_int. change (inject_Z 0) with 0. lra. }
        repeat split; try lra.
        intros _ L. rewrite Zle_Qle in L. lra.
      * assert (X : inject_Z w * (inject_Z m / inject_Z h) == inject_Z m).
        { rewrite E. field. lra. }
        rewrite (Math_round_comp _ _ X).
        assert (R : Math_round (inject_Z m) = m).
        { unfold Math_round. rewrite <- (Qfloor_Z m) at 2.
          apply Z.le_antisymm.
          - apply Z.lt_succ_r. unfold Z.succ. rewrite Qfloor_Z.
            pose proof (Qfloor_le (inject_Z m + (1 # 2))) as F.
            rewrite Zlt_Qlt, inject_Z_plus. change (inject_Z 1) with 1. lra.
          - apply Qfloor_resp_le. lra. }
        rewrite R. repeat split; try lra.
        intros _ L. rewrite Zle_Qle in L. lra.
    + repeat split; try lra.
Qed.

Lemma resized_fits_square_bound_witness :
  let r := resized_dimensions (inject_Z 4000) (inject_Z 3000)
             (inject_Z 768) (inject_Z 768) in
  0 <= fst r <= inject_Z 768 /\ 0 <= snd r <= inject_Z 768 /\
  fst r <= inject_Z 4000 /\ snd r <= inject_Z 3000 /\
  ((4000 <= 768)%Z -> (3000 <= 768)%Z -> r = (inject_Z 4000, inject_Z 3000)).
Proof.
  apply resized_fits_square_bound; lia.
Defined.

End CalculatorFacts.

(* ================================================================== *)
(** * Properties of the weight prediction                              *)
(* ================================================================== *)

Module TrackerFacts.
Import Helpers HelpersFacts CalculatorFacts Tracker.

Local Open Scope Q_scope.

Lemma Qle_bool_false (x y : Q) : Qle_bool x y = false -> y < x.
Proof.
  intros H. destruct (Qlt_le_dec y x) as [L | L]; [exact L |].
  apply Qle_bool_iff in L. congruence.
Qed.

Lemma Qlt_bool_false (x y : Q) : Qlt_bool x y = false -> y <= x.
Proof.
  unfold Qlt_bool. intros H. apply negb_false_iff in H. now apply Qle_bool_iff.
Qed.

Lemma Qlt_bool_true (x y : Q) : Qlt_bool x y = true -> x < y.
Proof.
  unfold Qlt_bool. intros H. apply negb_true_iff in H. now apply Qle_bool_false.
Qed.

(** X26. A prediction is shown as a success only for progress toward
    the goal: the log has five entries or more, the goal is to lose
    (gain) weight with the target below (above) the profile's weight,
    and the weekly rate over the last five entries is at most -0.01 (at
    least 0.01) kg. Its time estimate is 0 to 8 weeks, 2 to 12 months or
    1 year or more, with the unit in the singular exactly for 1. *)
Theorem success_means_progress
    (Date_parse : string -> option Z) (p : UserProfile)
    (log : list WeightEntry) (rate : number) (est : TimeEstimate)
    (H : predictionData Date_parse p log = Success rate est) :
  (5 <= length log)%nat /\
  ((goal p = Lose /\ targetWeight p < weight p /\ rate <= - (1 # 100)) \/
   (goal p = Gain /\ weight p < targetWeight p /\ (1 # 100) <= rate)) /\
  singular est = (amount est =? 1)%Z /\
  match unit est with
  | in_weeks => (0 <= amount est <= 8)%Z
  | in_months => (2 <= amount est <= 12)%Z
  | in_years => (1 <= amount est)%Z
  end.
Proof.
  unfold predictionData in H.
  destruct (Goal_eqb (goal p) Maintain || (length log <? 5)%nat) eqn:G0;
    [discriminate |].
  apply orb_false_elim in G0 as [GM LN]. apply Nat.ltb_ge in LN.
  destruct ((Goal_eqb (goal p) Lose && Qge_bool (targetWeight p - weight p) 0)
            || (Goal_eqb (goal p) Gain && Qle_bool (targetWeight p - weight p) 0))
    eqn:G1; [discriminate |].
  destruct (skipn (length log - 5) log) as [| firstEntry rest]; [discriminate |].
  destruct (Date_parse (entry_date (List.last (firstEntry :: rest) firstEntry)))
    as [lastTime |]; [| discriminate].
  destruct (Date_parse (entry_date firstEntry)) as [firstTime |]; [| discriminate].
  cbn zeta in H.
  set (timeDiffDays := inject_Z (lastTime - firstTime) / inject_Z (1000 * 60 * 60 * 24)) in H.
  destruct (Qlt_bool timeDiffDays 7); [discriminate |].
  set (weeklyRate :=
         (entry_weight (List.last (firstEntry :: rest) firstEntry)
          - entry_weight firstEntry) / timeDiffDays * 7) in H.
  destruct (Qlt_bool (Qabs weeklyRate) (1 # 100)) eqn:A; [discriminate |].
  apply Qlt_bool_false in A.
  destruct ((Goal_eqb (goal p) Lose && Qge_bool weeklyRate 0)
            || (Goal_eqb (goal p) Gain && Qle_bool weeklyRate 0)) eqn:G2;
    [discriminate |].
  set (weeksNeeded := Qabs ((targetWeight p - weight p) / weeklyRate)) in H.
  assert (W0 : 0 <= weeksNeeded) by apply Qabs_nonneg.
  injection H as <- <-.
  split; [exact LN |]. split.
  - apply orb_false_elim in G1 as [G1l G1g].
    apply orb_false_elim in G2 as [G2l G2g].
    unfold Qge_bool in G1l, G2l.
    destruct (goal p); cbn [Goal_eqb andb] in *; [| discriminate |].
    + left. split; [reflexivity |].
      apply Qle_bool_false in G1l, G2l. split; [lra |].
      rewrite (Qabs_neg weeklyRate) in A by lra. lra.
    + right. split; [reflexivity |].
      apply Qle_bool_false in G1g, G2g. split; [lra |].
      rewrite (Qabs_pos weeklyRate) in A by lra. lra.
  - destruct (Qlt_bool weeksNeeded 8) eqn:W8.
    { apply Qlt_bool_true in W8. cbn [estimate singular amount unit].
      split; [reflexivity |]. split.
      - apply Math_round_ge_int. change (inject_Z 0) with 0. lra.
      - apply Math_round_lt_int. change (inject_Z 8) with 8. lra. }
    apply Qlt_bool_false in W8.
    destruct (Qlt_bool weeksNeeded 52) eqn:W52.
    { apply Qlt_bool_true in W52. cbn [estimate singular amount unit].
      split; [reflexivity |]. split.
      - apply Math_round_ge_int. change (inject_Z 2) with 2.
        apply Qle_shift_div_l; [reflexivity |]. lra.
      - apply Math_round_lt_int. change (inject_Z 12) with 12.
        apply Qlt_shift_div_r; [reflexivity |]. lra. }
    apply Qlt_bool_false in W52. cbn [estimate singular amount unit].
    split; [reflexivity |].
    apply Math_round_ge_int. change (inject_Z 1) with 1.
    apply Qle_shift_div_l; [reflexivity |]. lra.
Qed.

Lemma success_means_progress_witness :
  (5 <= length sample_weightLog)%nat /\
  ((goal Samples.sam = Lose /\ targetWeight Samples.sam < weight Samples.sam /\
    (-604800000 # 604800000) <= - (1 # 100)) \/
   (goal Samples.sam = Gain /\ weight Samples.sam < targetWeight Samples.sam /\
    (1 # 100) <= (-604800000 # 604800000))) /\
  singular (estimate 5 in_weeks) = (amount (estimate 5 in_weeks) =? 1)%Z /\
  match unit (estimate 5 in_weeks) with
  | in_weeks => (0 <= amount (estimate 5 in_weeks) <= 8)%Z
  | in_months => (2 <= amount (estimate 5 in_weeks) <= 12)%Z
  | in_years => (1 <= amount (estimate 5 in_weeks))%Z
  end.
Proof.
  apply (success_means_progress Samples.sample_Date_parse Samples.sam
           sample_weightLog (-604800000 # 604800000) (estimate 5 in_weeks)).
  reflexivity.
Defined.

(** X27. The prediction looks at the profile and at the last five
    entries of the log only: entries before them do not change it. *)
Theorem prediction_reads_last_five
    (Date_parse : string -> option Z) (p : UserProfile)
    (older recent : list WeightEntry)
    (H : length recent = 5%nat) :
  predictionData Date_parse p (older ++ recent)
  = predictionData Date_parse p recent.
Proof.
  unfold predictionData.
  rewrite List.length_app, H.
  replace (length older + 5 - 5)%nat with (length older + 0)%nat by lia.
  replace (5 - 5)%nat with 0%nat by lia.
  rewrite List.skipn_app, Nat.add_0_r, List.skipn_all, Nat.sub_diag.
  cbn [skipn app].
  replace (length older + 5 <? 5)%nat with false
    by (symmetry; apply Nat.ltb_ge; lia).
  reflexivity.
Qed.

Lemma prediction_reads_last_five_witness :
  predictionData Samples.sample_Date_parse Samples.sam
    (firstn 1 sample_weightLog ++ skipn 1 sample_weightLog)
  = predictionData Samples.sample_Date_parse Samples.sam (skipn 1 sample_weightLog).
Proof.
  apply prediction_reads_last_five. reflexivity.
Defined.

End TrackerFacts.

(* ================================================================== *)
(** * Properties of the plan editor                                    *)
(* ================================================================== *)

Module PlanEditorFacts.
Import PlanEditor.

Lemma workout_at_alter (f : Workout -> Workout) (dI sI wI : nat)
    (plan : WorkoutPlan) (d s w : nat) :
  workout_at (alter_workout f dI sI wI plan) d s w
  = if decide (d = dI /\ s = sI /\ w = wI)
    then f <$> workout_at plan d s w
    else workout_at plan d s w.
Proof.
  unfold workout_at, alter_workout. cbn [weeklySchedule].
  rewrite list_lookup_alter.
  destruct (decide (dI = d)) as [-> | Nd].
  - destruct (weeklySchedule plan !! d) as [daily |]; cbn [fmap option_fmap option_map sessions].
    + rewrite list_lookup_alter.
      destruct (decide (sI = s)) as [-> | Ns].
      * destruct (sessions daily !! s) as [session |];
          cbn [fmap option_fmap option_map workouts].
        -- rewrite list_lookup_alter.
           destruct (decide (wI = w)) as [-> | Nw].
           ++ rewrite decide_True by auto. reflexivity.
           ++ rewrite decide_False by (intros (_ & _ & E); congruence). reflexivity.
        -- destruct (decide (d = d /\ s = s /\ w = wI)); reflexivity.
      * rewrite decide_False by (intros (_ & E & _); congruence). reflexivity.
    + destruct (decide (d = d /\ s = sI /\ w = wI)); reflexivity.
  - rewrite decide_False by (intros (E & _ & _); congruence). reflexivity.
Qed.

(** X28. An edit of the sets or reps of one workout is local. When the
    three indices name a workout, the plan handed on has, at these
    indices, that workout with the one field replaced by the value (its
    exercise, notes, details, image and other field as before) and at
    all other indices the workouts of the plan; name and description of
    the plan are kept. When they name none, no plan is handed on. *)
Theorem workout_edit_is_local (plan : WorkoutPlan) (dI sI wI : nat)
    (field : EditedField) (value : string) :
  match handleWorkoutChange plan dI sI wI field value with
  | Some plan' =>
      (exists target edited,
          workout_at plan dI sI wI = Some target /\
          workout_at plan' dI sI wI = Some edited /\
          exercise edited = exercise target /\
          notes edited = notes target /\
          details edited = details target /\
          workout_imageUrl edited = workout_imageUrl target /\
          match field with
          | edit_sets => sets edited = value /\ reps edited = reps target
          | edit_reps => reps edited = value /\ sets edited = sets target
          end) /\
      (forall d s w, (d, s, w) <> (dI, sI, wI) ->
                     workout_at plan' d s w = workout_at plan d s w) /\
      planName plan' = planName plan /\
      description plan' = description plan
  | None => workout_at plan dI sI wI = None
  end.
Proof.
  unfold handleWorkoutChange.
  destruct (workout_at plan dI sI wI) as [target |] eqn:T; [| reflexivity].
  split; [| split; [| split; reflexivity]].
  - exists target, (set_field field value target).
    split; [reflexivity |]. split.
    + rewrite workout_at_alter, decide_True by auto. now rewrite T.
    + destruct field; cbn; repeat split.
  - intros d s w N. rewrite workout_at_alter.
    rewrite decide_False; [reflexivity |].
    intros (-> & -> & ->). now apply N.
Qed.



End PlanEditorFacts.
